(** * pytorch-widedeep: TabTransformer / SAINT construction and forward pass,
      and the streaming trainer's [fit] loop.

    Shallow embedding of
      - [pytorch_widedeep/models/transformers/transformer_models.py]
      - [pytorch_widedeep/stream/training/trainer.py]

    Python integers are unbounded and are modelled as [Z]; [len] is
    [Z.of_nat (length _)].  Python dictionaries used as maps are [gmap]s,
    lists are lists, [Optional] arguments are [option]s.  An attribute that the
    constructor may leave unset is an [option] field whose [None] raises
    [AttributeError] on access.  Exceptions are values of [PyError], carried by
    the [result] monad. *)

From Stdlib Require Import ZArith QArith.
From stdpp Require Import base tactics option list gmap strings pretty.

Local Open Scope string_scope.
Local Open Scope list_scope.
Local Open Scope Z_scope.

(** ** Python exceptions and the error monad *)

Module Py.

Inductive PyError : Type :=
| ValueError (msg : string)
| TypeError (msg : string)
| KeyError (key : string)
| AttributeError (attr : string)
| IndexError
| RuntimeError (msg : string)
| UnboundLocalError (var : string).

Inductive result (A : Type) : Type :=
| Ok (a : A)
| Raise (e : PyError).
Arguments Ok {A} a.
Arguments Raise {A} e.

Definition bind {A B : Type} (f : A → result B) (r : result A) : result B :=
  match r with
  | Ok a => f a
  | Raise e => Raise e
  end.

#[global] Instance result_ret : MRet result := @Ok.
#[global] Instance result_bind : MBind result := @bind.

Definition is_ok {A : Type} (r : result A) : bool :=
  match r with Ok _ => true | Raise _ => false end.

(** The value of a computation that did not raise. *)
Definition value {A : Type} (r : result A) : option A :=
  match r with Ok a => Some a | Raise _ => None end.

(** [[f(a) for a in l]]: the first exception aborts the comprehension. *)
Fixpoint comprehension {A B : Type} (f : A → result B) (l : list A)
  : result (list B) :=
  match l with
  | [] => Ok []
  | a :: l' => b ← f a; bs ← comprehension f l'; Ok (b :: bs)
  end.

(** [d[k]] on a dictionary. *)
Definition getitem {V : Type} (d : gmap string V) (k : string) : result V :=
  match d !! k with
  | Some v => Ok v
  | None => Raise (KeyError k)
  end.

(** [self.attr] for an attribute that may not have been set. *)
Definition getattr {V : Type} (name : string) (o : option V) : result V :=
  match o with
  | Some v => Ok v
  | None => Raise (AttributeError name)
  end.

(** Index normalisation of a sequence of length [n]: [-n <= i < 0] counts
    from the end, anything outside [-n <= i < n] is an [IndexError]. *)
Definition norm_index (n : nat) (i : Z) : result nat :=
  if decide (0 ≤ i < Z.of_nat n) then Ok (Z.to_nat i)
  else if decide (- Z.of_nat n ≤ i < 0) then Ok (Z.to_nat (i + Z.of_nat n))
  else Raise IndexError.

(** [l[i]] on a list. *)
Definition list_getitem {A : Type} (l : list A) (i : Z) : result A :=
  k ← norm_index (length l) i;
  match l !! k with
  | Some a => Ok a
  | None => Raise IndexError
  end.

(** [l[i] = v] on a list: in range it replaces the element, out of range it
    raises (it never extends the list). *)
Definition list_setitem {A : Type} (l : list A) (i : nat) (v : A)
  : result (list A) :=
  if decide (i < length l)%nat then Ok (<[i := v]> l) else Raise IndexError.

(** [len(l)]. *)
Definition len {A : Type} (l : list A) : Z := Z.of_nat (length l).

(** [range(n)]: empty when [n <= 0]. *)
Definition range (n : Z) : list nat := seq 0 (Z.to_nat n).

(** [str(i)] for a natural number. *)
Definition str (i : nat) : string := pretty i.

End Py.
Export Py.

(** ** The tensor operations [forward] uses

    A tensor of rank 1, 2, 3 over elements [F] is a list, a list of rows, a
    list (batch) of lists (tokens) of vectors.  Dimension 0 is always the
    batch.  The sizes of the other dimensions are those of the rows, so an
    empty batch carries none: an index into its columns is not checked. *)

Module Torch.
Section Ops.
Context {F : Type}.

Definition Tensor1 : Type := list F.
Definition Tensor2 : Type := list (list F).
Definition Tensor3 : Type := list (list (list F)).

(** [X[:, j]]: column [j] of every row. *)
Definition select_col (X : Tensor2) (j : Z) : result Tensor1 :=
  comprehension (λ row, list_getitem row j) X.

(** [X[:, idx]] for a list of column positions. *)
Definition select_cols (X : Tensor2) (idx : list Z) : result Tensor2 :=
  comprehension (λ row, comprehension (list_getitem row) idx) X.

(** [t.unsqueeze(1)]: [(B, ...)] becomes [(B, 1, ...)]. *)
Definition unsqueeze1 {A : Type} (t : list A) : list (list A) :=
  (λ a, [a]) <$> t.

(** Row-wise append of two tensors with the same batch size. *)
Fixpoint cat_pair {A : Type} (s t : list (list A)) : result (list (list A)) :=
  match s, t with
  | [], [] => Ok []
  | r :: s', u :: t' => rest ← cat_pair s' t'; Ok ((r ++ u) :: rest)
  | _, _ => Raise (RuntimeError "Sizes of tensors must match except in dimension 1")
  end.

(** [torch.cat(ts, 1)]: the list must not be empty and the batch sizes must
    agree; the tensors are joined along dimension 1 in list order. *)
Fixpoint cat1 {A : Type} (ts : list (list (list A))) : result (list (list A)) :=
  match ts with
  | [] => Raise (RuntimeError "torch.cat(): expected a non-empty list of Tensors")
  | [t] => Ok t
  | t :: ts' => rest ← cat1 ts'; cat_pair t rest
  end.

(** [x[:, 0, :]]. *)
Definition first_token (x : Tensor3) : result Tensor2 :=
  comprehension (λ sample, list_getitem sample 0) x.

(** [x.flatten(1)]. *)
Definition flatten1 (x : Tensor3) : Tensor2 :=
  (λ sample, concat sample) <$> x.

(** The shape predicates used by the statements: every row of a rank-2
    tensor has width [d]; a rank-3 tensor has [t] tokens of width [d] in
    every sample. *)
Definition width2 (d : nat) (x : Tensor2) : Prop :=
  Forall (λ row, length row = d) x.
Definition shape3 (t d : nat) (x : Tensor3) : Prop :=
  Forall (λ sample, length sample = t ∧ Forall (λ tok, length tok = d) sample) x.
End Ops.
Arguments Tensor1 F : clear implicits.
Arguments Tensor2 F : clear implicits.
Arguments Tensor3 F : clear implicits.
End Torch.
Export Torch.

(** ** The modules a model is built from

    [nn.Embedding], [nn.Dropout], [nn.LayerNorm], [nn.BatchNorm1d],
    [nn.Linear] and [nn.ReLU] are PyTorch's; [SharedEmbeddings],
    [FullEmbeddingDropout], [TransformerEncoder], [SaintEncoder] and [MLP]
    are imported from modules of the package that are not part of the
    sources at hand.  A module is represented by its constructor call. *)

Module Layers.

Inductive CatEmbed : Type :=
| Embedding (num_embeddings embedding_dim padding_idx : Z)
| SharedEmbeddings (n_embed embed_dim : Z) (embed_dropout : Q)
    (full_embed_dropout add_shared_embed : bool) (frac_shared_embed : Z).

Inductive Dropout : Type :=
| FullEmbeddingDropout (p : Q)
| nn_Dropout (p : Q).

Inductive NormLayers : Type :=
| LayerNorm (normalized_shape : Z)
| BatchNorm1d (num_features : Z).

(** Number of rows and width of the table of a categorical embedding. *)
Definition table_rows (m : CatEmbed) : Z :=
  match m with
  | Embedding n _ _ => n
  | SharedEmbeddings n _ _ _ _ _ => n
  end.
Definition table_width (m : CatEmbed) : Z :=
  match m with
  | Embedding _ d _ => d
  | SharedEmbeddings _ d _ _ _ _ => d
  end.

(** [nn.Sequential(nn.Linear(in_features, out_features), nn.ReLU())] *)
Inductive ContEmbed : Type :=
| Linear_ReLU (in_features out_features : Z).

Record EncoderArgs : Type := {
  enc_input_dim : Z;
  enc_n_heads : Z;
  enc_keep_attn_weights : bool;
  enc_ff_hidden_dim : Z;
  enc_dropout : Q;
  enc_activation : string
}.

(** Modelled from the spec: the two encoder block kinds of
    [pytorch_widedeep.models.transformers.layers], which is not among the
    sources.  A standard block has a single self-attention sublayer
    ([self_attn]); a dual-attention block has the attention across the
    tokens of a row ([self_attn]) followed by the inter-sample attention
    across the batch ([row_attn]), built for [n_feat] features. *)
Inductive Block : Type :=
| TransformerEncoder (a : EncoderArgs)
| SaintEncoder (a : EncoderArgs) (n_feat : Z).

(** [hasattr(blk, "row_attn")] *)
Definition hasattr_row_attn (blk : Block) : bool :=
  match blk with
  | TransformerEncoder _ => false
  | SaintEncoder _ _ => true
  end.

Record MLP : Type := {
  d_hidden : list Z;
  mlp_act : string;
  mlp_drop : Q;
  mlp_bn : bool;
  mlp_bn_last : bool;
  mlp_lin_first : bool
}.

(** What one stored entry of [attention_weights] holds. *)
Inductive AttnEntry (W : Type) : Type :=
| Single (w : W)
| Pair (w1 w2 : W).
Arguments Single {W} w.
Arguments Pair {W} w1 w2.

(** The behaviour of the modules when they are called.  The numerical
    content of a layer (its weights, the attention arithmetic, dropout's
    random mask) is outside the model; [forward] only composes these calls.
    [W] is the type of an attention-weight tensor.  [self_attn_weights blk x]
    and [row_attn_weights blk x] are the values of
    [blk.self_attn.attn_weights] and [blk.row_attn.attn_weights] after
    [blk] has been called on [x]. *)
Class Runtime (F W : Type) : Type := {
  long : F → Z;
  float : F → F;
  cat_embed_call : CatEmbed → list Z → result (Tensor2 F);
  dropout_call : Dropout → Tensor3 F → Tensor3 F;
  cont_embed_call : ContEmbed → Tensor2 F → result (Tensor2 F);
  block_call : Block → Tensor3 F → result (Tensor3 F);
  self_attn_weights : Block → Tensor3 F → W;
  row_attn_weights : Block → Tensor3 F → W;
  norm_call : NormLayers → Tensor2 F → result (Tensor2 F);
  mlp_call : MLP → Tensor2 F → result (Tensor2 F)
}.

(** The shape discipline of the modules: an embedding returns vectors of
    its embedding dimension, dropout, the encoder blocks and the
    normalisation layers keep the shape of their input. *)
Class ShapeLaws {F W : Type} (rt : Runtime F W) : Prop := {
  cat_embed_shape m idx e :
    cat_embed_call m idx = Ok e → width2 (Z.to_nat (table_width m)) e;
  dropout_shape d x t w :
    shape3 t w x → shape3 t w (dropout_call d x);
  cont_embed_shape i o x e :
    cont_embed_call (Linear_ReLU i o) x = Ok e → width2 (Z.to_nat o) e;
  block_shape blk x x' t w :
    block_call blk x = Ok x' → shape3 t w x → shape3 t w x';
  norm_shape n x y w :
    norm_call n x = Ok y → width2 w x → width2 w y
}.

End Layers.
Export Layers.

(** ** [TabTransformer] *)

Module TabTransformer.

(** The arguments of [__init__], in the order of its signature. *)
Record Args : Type := {
  column_idx : gmap string Z;
  embed_input : list (string * Z);
  continuous_cols : option (list string);
  embed_dropout : Q;
  full_embed_dropout : bool;
  shared_embed : bool;
  add_shared_embed : bool;
  frac_shared_embed : Z;
  input_dim : Z;
  n_heads : Z;
  n_blocks : Z;
  dropout : Q;
  keep_attn_weights : bool;
  ff_hidden_dim : Z;
  transformer_activation : string;
  with_special_token : bool;
  embed_continuous : bool;
  cont_norm_layer : string;
  mlp_hidden_dims : option (list Z);
  mlp_activation : string;
  mlp_batchnorm : bool;
  mlp_batchnorm_last : bool;
  mlp_linear_first : bool
}.

(** The attributes of an instance: the stored arguments, then what the
    constructor builds.  [W] is the type of an attention-weight tensor. *)
Record Self (W : Type) : Type := {
  args : Args;
  cat_embed_layers : option (gmap string CatEmbed);
  embedding_dropout : option Dropout;
  cont_norm : option NormLayers;
  cont_embed_layers : option (gmap string ContEmbed);
  transformer_blks : option (list (string * Block));
  attention_weights : option (list (option (AttnEntry W)));
  transformer_mlp : option MLP;
  output_dim : option Z
}.
Arguments args {W} s.
Arguments cat_embed_layers {W} s.
Arguments embedding_dropout {W} s.
Arguments cont_norm {W} s.
Arguments cont_embed_layers {W} s.
Arguments transformer_blks {W} s.
Arguments attention_weights {W} s.
Arguments transformer_mlp {W} s.
Arguments output_dim {W} s.

(** A module (and its parameters) that a constructor call allocated. *)
Inductive Alloc : Type :=
| AllocCatEmbed (name : string) (m : CatEmbed)
| AllocDropout (m : Dropout)
| AllocNorm (m : NormLayers)
| AllocContEmbed (name : string) (m : ContEmbed)
| AllocBlock (name : string) (m : Block)
| AllocMLP (m : MLP).

Section Methods.
Context {W : Type}.

(** Attribute assignments [self.<attr> = v]. *)
Definition set_cat_embed_layers (v : gmap string CatEmbed) (s : Self W) : Self W :=
  {| args := s.(args); cat_embed_layers := Some v;
     embedding_dropout := s.(embedding_dropout); cont_norm := s.(cont_norm);
     cont_embed_layers := s.(cont_embed_layers);
     transformer_blks := s.(transformer_blks);
     attention_weights := s.(attention_weights);
     transformer_mlp := s.(transformer_mlp); output_dim := s.(output_dim) |}.
Definition set_embedding_dropout (v : Dropout) (s : Self W) : Self W :=
  {| args := s.(args); cat_embed_layers := s.(cat_embed_layers);
     embedding_dropout := Some v; cont_norm := s.(cont_norm);
     cont_embed_layers := s.(cont_embed_layers);
     transformer_blks := s.(transformer_blks);
     attention_weights := s.(attention_weights);
     transformer_mlp := s.(transformer_mlp); output_dim := s.(output_dim) |}.
Definition set_cont_norm (v : NormLayers) (s : Self W) : Self W :=
  {| args := s.(args); cat_embed_layers := s.(cat_embed_layers);
     embedding_dropout := s.(embedding_dropout); cont_norm := Some v;
     cont_embed_layers := s.(cont_embed_layers);
     transformer_blks := s.(transformer_blks);
     attention_weights := s.(attention_weights);
     transformer_mlp := s.(transformer_mlp); output_dim := s.(output_dim) |}.
Definition set_cont_embed_layers (v : gmap string ContEmbed) (s : Self W) : Self W :=
  {| args := s.(args); cat_embed_layers := s.(cat_embed_layers);
     embedding_dropout := s.(embedding_dropout); cont_norm := s.(cont_norm);
     cont_embed_layers := Some v;
     transformer_blks := s.(transformer_blks);
     attention_weights := s.(attention_weights);
     transformer_mlp := s.(transformer_mlp); output_dim := s.(output_dim) |}.
Definition set_transformer_blks (v : list (string * Block)) (s : Self W) : Self W :=
  {| args := s.(args); cat_embed_layers := s.(cat_embed_layers);
     embedding_dropout := s.(embedding_dropout); cont_norm := s.(cont_norm);
     cont_embed_layers := s.(cont_embed_layers);
     transformer_blks := Some v;
     attention_weights := s.(attention_weights);
     transformer_mlp := s.(transformer_mlp); output_dim := s.(output_dim) |}.
Definition set_attention_weights (v : list (option (AttnEntry W))) (s : Self W)
  : Self W :=
  {| args := s.(args); cat_embed_layers := s.(cat_embed_layers);
     embedding_dropout := s.(embedding_dropout); cont_norm := s.(cont_norm);
     cont_embed_layers := s.(cont_embed_layers);
     transformer_blks := s.(transformer_blks);
     attention_weights := Some v;
     transformer_mlp := s.(transformer_mlp); output_dim := s.(output_dim) |}.
Definition set_transformer_mlp (v : MLP) (s : Self W) : Self W :=
  {| args := s.(args); cat_embed_layers := s.(cat_embed_layers);
     embedding_dropout := s.(embedding_dropout); cont_norm := s.(cont_norm);
     cont_embed_layers := s.(cont_embed_layers);
     transformer_blks := s.(transformer_blks);
     attention_weights := s.(attention_weights);
     transformer_mlp := Some v; output_dim := s.(output_dim) |}.
Definition set_output_dim (v : Z) (s : Self W) : Self W :=
  {| args := s.(args); cat_embed_layers := s.(cat_embed_layers);
     embedding_dropout := s.(embedding_dropout); cont_norm := s.(cont_norm);
     cont_embed_layers := s.(cont_embed_layers);
     transformer_blks := s.(transformer_blks);
     attention_weights := s.(attention_weights);
     transformer_mlp := s.(transformer_mlp); output_dim := Some v |}.

(** The dictionary a comprehension [{key(a): val(a) for a in l}] builds:
    a later item with the same key replaces an earlier one. *)
Definition dict_comprehension {A V : Type} (key : A → string) (val : A → V)
    (l : list A) : gmap string V :=
  foldl (λ d a, <[key a := val a]> d) ∅ l.

(** The object right after the [self.<arg> = <arg>] assignments. *)
Definition assign_args (a : Args) : Self W :=
  {| args := a;
     cat_embed_layers := None;
     embedding_dropout := None;
     cont_norm := None;
     cont_embed_layers := None;
     transformer_blks := None;
     attention_weights := None;
     transformer_mlp := None;
     output_dim := None |}.

(** The embedding module of one categorical column with [val] categories. *)
Definition new_cat_embed (a : Args) (val : Z) : CatEmbed :=
  if a.(shared_embed)
  then SharedEmbeddings (val + 1) a.(input_dim) a.(embed_dropout)
         a.(full_embed_dropout) a.(add_shared_embed) a.(frac_shared_embed)
  else Embedding (val + 1) a.(input_dim) 0.

Definition _set_categ_embeddings (self : Self W) : Self W * list Alloc :=
  let a := self.(args) in
  let layers :=
    dict_comprehension (λ cv, "emb_layer_" +:+ cv.1) (λ cv, new_cat_embed a cv.2)
      a.(embed_input) in
  let allocs :=
    (λ cv, AllocCatEmbed ("emb_layer_" +:+ cv.1) (new_cat_embed a cv.2))
      <$> a.(embed_input) in
  let self := set_cat_embed_layers layers self in
  if a.(shared_embed) then (self, allocs)
  else if a.(full_embed_dropout) then
    (set_embedding_dropout (FullEmbeddingDropout a.(embed_dropout)) self,
     allocs ++ [AllocDropout (FullEmbeddingDropout a.(embed_dropout))])
  else
    (set_embedding_dropout (nn_Dropout a.(embed_dropout)) self,
     allocs ++ [AllocDropout (nn_Dropout a.(embed_dropout))]).

Definition _set_cont_cols (self : Self W) : Self W * list Alloc :=
  let a := self.(args) in
  match a.(continuous_cols) with
  | None => (self, [])
  | Some cols =>
      let '(self, l1) :=
        if String.eqb a.(cont_norm_layer) "layernorm" then
          (set_cont_norm (LayerNorm (len cols)) self,
           [AllocNorm (LayerNorm (len cols))])
        else if String.eqb a.(cont_norm_layer) "batchnorm" then
          (set_cont_norm (BatchNorm1d (len cols)) self,
           [AllocNorm (BatchNorm1d (len cols))])
        else (self, []) in
      if a.(embed_continuous) then
        (set_cont_embed_layers
           (dict_comprehension (λ col, "emb_layer_" +:+ col)
              (λ _, Linear_ReLU 1 a.(input_dim)) cols) self,
         l1 ++ ((λ col, AllocContEmbed ("emb_layer_" +:+ col)
                         (Linear_ReLU 1 a.(input_dim))) <$> cols))
      else (self, l1)
  end.

Definition _set_mlp_hidden_dims (self : Self W) : list Z :=
  let a := self.(args) in
  match a.(continuous_cols) with
  | Some cols =>
      if a.(with_special_token) then
        if a.(embed_continuous) then
          [a.(input_dim); a.(input_dim) * 4; a.(input_dim) * 2]
        else
          let mlp_inp_l := a.(input_dim) + len cols in
          [mlp_inp_l; mlp_inp_l * 4; mlp_inp_l * 2]
      else if a.(embed_continuous) then
        let mlp_inp_l := (len a.(embed_input) + len cols) * a.(input_dim) in
        [mlp_inp_l; mlp_inp_l * 4; mlp_inp_l * 2]
      else
        let mlp_inp_l := len a.(embed_input) * a.(input_dim) + len cols in
        [mlp_inp_l; mlp_inp_l * 4; mlp_inp_l * 2]
  | None =>
      let mlp_inp_l := len a.(embed_input) * a.(input_dim) in
      [mlp_inp_l; mlp_inp_l * 4; mlp_inp_l * 2]
  end.

(** [not mlp_hidden_dims]: true for [None] and for the empty list. *)
Definition not_ (dims : option (list Z)) : bool :=
  match dims with
  | None | Some [] => true
  | Some (_ :: _) => false
  end.

Definition encoder_args (a : Args) : EncoderArgs :=
  {| enc_input_dim := a.(input_dim);
     enc_n_heads := a.(n_heads);
     enc_keep_attn_weights := a.(keep_attn_weights);
     enc_ff_hidden_dim := a.(ff_hidden_dim);
     enc_dropout := a.(dropout);
     enc_activation := a.(transformer_activation) |}.

(** [nn.Sequential()] filled by [add_module("block" + str(i), blk)] for
    [i in range(n)]. *)
Definition add_blocks (n : Z) (blk : Block) : list (string * Block) :=
  (λ i, ("block" +:+ str i, blk)) <$> range n.

Definition alloc_blocks (blks : list (string * Block)) : list Alloc :=
  (λ nb, AllocBlock nb.1 nb.2) <$> blks.

Definition special_token_error : PyError :=
  ValueError ("The data was pre-processed using the 'CLS' special token,"
              +:+ " Please set 'with_special_token' to True").

(** The hidden dimensions handed to [MLP]: lines 203-204. *)
Definition resolve_mlp_hidden_dims (self : Self W) : list Z :=
  if not_ self.(args).(mlp_hidden_dims) then _set_mlp_hidden_dims self
  else default [] self.(args).(mlp_hidden_dims).

Definition new_mlp (a : Args) (dims : list Z) : MLP :=
  {| d_hidden := dims;
     mlp_act := a.(mlp_activation);
     mlp_drop := a.(dropout);
     mlp_bn := a.(mlp_batchnorm);
     mlp_bn_last := a.(mlp_batchnorm_last);
     mlp_lin_first := a.(mlp_linear_first) |}.

(** The constructor.  Next to the instance or the exception it returns
    the modules allocated up to that point, in allocation order. *)
Definition __init__ (a : Args) : list Alloc * result (Self W) :=
  let self := assign_args a in
  if bool_decide ("special_token" ∈ dom a.(column_idx)) && negb a.(with_special_token)
  then ([], Raise special_token_error)
  else
    let '(self, l1) := _set_categ_embeddings self in
    let '(self, l2) := _set_cont_cols self in
    let blks := add_blocks a.(n_blocks) (TransformerEncoder (encoder_args a)) in
    let self := set_transformer_blks blks self in
    let self :=
      if a.(keep_attn_weights)
      then set_attention_weights (replicate (Z.to_nat a.(n_blocks)) None) self
      else self in
    let mlp_hidden_dims := resolve_mlp_hidden_dims self in
    let mlp := new_mlp a mlp_hidden_dims in
    let self := set_transformer_mlp mlp self in
    let allocs := l1 ++ l2 ++ alloc_blocks blks ++ [AllocMLP mlp] in
    match list_getitem mlp_hidden_dims (-1) with
    | Raise e => (allocs, Raise e)
    | Ok out => (allocs, Ok (set_output_dim out self))
    end.

(** The instance that [__init__] returns when the special-token check
    passes, attribute by attribute. *)
Definition built (a : Args) : Self W :=
  let s1 := (_set_categ_embeddings (assign_args a)).1 in
  let s2 := (_set_cont_cols s1).1 in
  let s3 := set_transformer_blks
              (add_blocks a.(n_blocks) (TransformerEncoder (encoder_args a))) s2 in
  let s4 := if a.(keep_attn_weights)
            then set_attention_weights (replicate (Z.to_nat a.(n_blocks)) None) s3
            else s3 in
  let dims := resolve_mlp_hidden_dims (assign_args a) in
  set_output_dim (default 0 (last dims)) (set_transformer_mlp (new_mlp a dims) s4).

(** The modules that constructor run allocates, in order. *)
Definition built_allocs (a : Args) : list Alloc :=
  (_set_categ_embeddings (assign_args a)).2
    ++ (_set_cont_cols (_set_categ_embeddings (assign_args a)).1).2
    ++ alloc_blocks (add_blocks a.(n_blocks) (TransformerEncoder (encoder_args a)))
    ++ [AllocMLP (new_mlp a (resolve_mlp_hidden_dims (assign_args a)))].

(** The condition of the check at lines 177-181. *)
Definition special_token_mismatch (a : Args) : Prop :=
  "special_token" ∈ dom a.(column_idx) ∧ a.(with_special_token) = false.

(** The instance with another column index mapping. *)
Definition with_column_idx (idx : gmap string Z) (s : Self W) : Self W :=
  let a := s.(args) in
  {| args :=
       {| column_idx := idx; embed_input := a.(embed_input);
          continuous_cols := a.(continuous_cols);
          embed_dropout := a.(embed_dropout);
          full_embed_dropout := a.(full_embed_dropout);
          shared_embed := a.(shared_embed);
          add_shared_embed := a.(add_shared_embed);
          frac_shared_embed := a.(frac_shared_embed);
          input_dim := a.(input_dim); n_heads := a.(n_heads);
          n_blocks := a.(n_blocks); dropout := a.(dropout);
          keep_attn_weights := a.(keep_attn_weights);
          ff_hidden_dim := a.(ff_hidden_dim);
          transformer_activation := a.(transformer_activation);
          with_special_token := a.(with_special_token);
          embed_continuous := a.(embed_continuous);
          cont_norm_layer := a.(cont_norm_layer);
          mlp_hidden_dims := a.(mlp_hidden_dims);
          mlp_activation := a.(mlp_activation);
          mlp_batchnorm := a.(mlp_batchnorm);
          mlp_batchnorm_last := a.(mlp_batchnorm_last);
          mlp_linear_first := a.(mlp_linear_first) |};
     cat_embed_layers := s.(cat_embed_layers);
     embedding_dropout := s.(embedding_dropout); cont_norm := s.(cont_norm);
     cont_embed_layers := s.(cont_embed_layers);
     transformer_blks := s.(transformer_blks);
     attention_weights := s.(attention_weights);
     transformer_mlp := s.(transformer_mlp); output_dim := s.(output_dim) |}.

(** Every embedding module of the instance has the model width. *)
Definition well_built (self : Self W) : Prop :=
  (∀ layers k m, self.(cat_embed_layers) = Some layers → layers !! k = Some m →
     table_width m = self.(args).(input_dim))
  ∧ (∀ layers k m, self.(cont_embed_layers) = Some layers → layers !! k = Some m →
       ∃ i, m = Linear_ReLU i self.(args).(input_dim)).

(** The number of tokens of the encoder input. *)
Definition n_tokens (a : Args) : nat :=
  (length a.(embed_input)
   + match a.(continuous_cols) with
     | Some cols => if a.(embed_continuous) then length cols else 0
     | None => 0
     end)%nat.

(** The width that the un-embedded continuous columns add after pooling. *)
Definition n_appended (a : Args) : nat :=
  match a.(continuous_cols) with
  | Some cols => if a.(embed_continuous) then 0 else length cols
  | None => 0
  end.
End Methods.

Section Forward.
Context {F W : Type} {rt : Runtime F W}.

(** Lines 220-222, before [unsqueeze]: the embedding of the categorical
    column [col] for the whole batch, a [(B, D)] tensor. *)
Definition cat_column (self : Self W) (X : Tensor2 F) (col : string)
  : result (Tensor2 F) :=
  layers ← getattr "cat_embed_layers" self.(cat_embed_layers);
  layer ← getitem layers ("emb_layer_" +:+ col);
  j ← getitem self.(args).(column_idx) col;
  codes ← select_col X j;
  cat_embed_call layer (long <$> codes).

(** Lines 219-224: one [(B, 1, D)] tensor per categorical column. *)
Definition cat_embed (self : Self W) (X : Tensor2 F) : result (list (Tensor3 F)) :=
  comprehension (λ cv : string * Z,
    e ← cat_column self X cv.1; Ok (unsqueeze1 e)) self.(args).(embed_input).

(** Lines 231-233, before the outer [unsqueeze]: the embedding of the
    continuous column [col] for the whole batch. *)
Definition cont_column (self : Self W) (X : Tensor2 F) (col : string)
  : result (Tensor2 F) :=
  layers ← getattr "cont_embed_layers" self.(cont_embed_layers);
  layer ← getitem layers ("emb_layer_" +:+ col);
  j ← getitem self.(args).(column_idx) col;
  vals ← select_col X j;
  cont_embed_call layer (unsqueeze1 (float <$> vals)).

(** Lines 230-235: one [(B, 1, D)] tensor per continuous column. *)
Definition cont_embed (self : Self W) (X : Tensor2 F) (cols : list string)
  : result (list (Tensor3 F)) :=
  comprehension (λ col : string,
    e ← cont_column self X col; Ok (unsqueeze1 e)) cols.

(** Lines 226-227. *)
Definition apply_embedding_dropout (self : Self W) (x : Tensor3 F)
  : result (Tensor3 F) :=
  if negb self.(args).(shared_embed)
  then d ← getattr "embedding_dropout" self.(embedding_dropout);
       Ok (dropout_call d x)
  else Ok x.

(** Lines 219-237: the token tensor handed to the first encoder block. *)
Definition encoder_input (self : Self W) (X : Tensor2 F) : result (Tensor3 F) :=
  ce ← cat_embed self X;
  x ← cat1 ce;
  x ← apply_embedding_dropout self x;
  match self.(args).(continuous_cols) with
  | Some cols =>
      if self.(args).(embed_continuous) then
        cte ← cont_embed self X cols;
        x_cont ← cat1 cte;
        cat1 [x; x_cont]
      else Ok x
  | None => Ok x
  end.

(** Lines 242-248: what is stored for a block that was called on [x]. *)
Definition attn_entry (blk : Block) (x : Tensor3 F) : AttnEntry W :=
  if hasattr_row_attn blk
  then Pair (self_attn_weights blk x) (row_attn_weights blk x)
  else Single (self_attn_weights blk x).

(** Lines 239-248: the loop over [enumerate(self.transformer_blks)],
    started at index [i], threading [x] and the instance. *)
Fixpoint run_blocks (i : nat) (blks : list (string * Block))
    (self : Self W) (x : Tensor3 F) : result (Self W * Tensor3 F) :=
  match blks with
  | [] => Ok (self, x)
  | (_, blk) :: blks' =>
      x' ← block_call blk x;
      self ← (if self.(args).(keep_attn_weights) then
                aw ← getattr "attention_weights" self.(attention_weights);
                aw ← list_setitem aw i (Some (attn_entry blk x));
                Ok (set_attention_weights aw self)
              else Ok self);
      run_blocks (S i) blks' self x'
  end.

(** Lines 250-253. *)
Definition pool (self : Self W) (x : Tensor3 F) : result (Tensor2 F) :=
  if self.(args).(with_special_token) then first_token x
  else Ok (flatten1 x).

(** Lines 255-258. *)
Definition append_cont (self : Self W) (X : Tensor2 F) (x : Tensor2 F)
  : result (Tensor2 F) :=
  match self.(args).(continuous_cols) with
  | Some cols =>
      if negb self.(args).(embed_continuous) then
        cont_idx ← comprehension (getitem self.(args).(column_idx)) cols;
        norm ← getattr "cont_norm" self.(cont_norm);
        sel ← select_cols X cont_idx;
        x_cont ← norm_call norm (map (map float) sel);
        cat1 [x; x_cont]
      else Ok x
  | None => Ok x
  end.

(** Everything [forward] does before line 260: the instance after the
    encoder loop and the tensor handed to [self.transformer_mlp]. *)
Definition mlp_input (self : Self W) (X : Tensor2 F) : result (Self W * Tensor2 F) :=
  x ← encoder_input self X;
  blks ← getattr "transformer_blks" self.(transformer_blks);
  '(self, x) ← run_blocks 0 blks self x;
  x ← pool self x;
  x ← append_cont self X x;
  Ok (self, x).

Definition forward (self : Self W) (X : Tensor2 F) : result (Self W * Tensor2 F) :=
  '(self, x) ← mlp_input self X;
  mlp ← getattr "transformer_mlp" self.(transformer_mlp);
  out ← mlp_call mlp x;
  Ok (self, out).
End Forward.

End TabTransformer.

(** ** [SAINT]: a [TabTransformer] whose constructor replaces the blocks *)

Module SAINT.
Import TabTransformer.

Section Methods.
Context {W : Type}.

Definition __init__ (a : Args) : list Alloc * result (Self W) :=
  match TabTransformer.__init__ a with
  | (allocs, Raise e) => (allocs, Raise e)
  | (allocs, Ok self) =>
      let n_feats :=
        if a.(embed_continuous) then
          match a.(continuous_cols) with
          | Some cols => Ok (len a.(embed_input) + len cols)
          | None => Raise (TypeError "object of type 'NoneType' has no len()")
          end
        else Ok (len a.(embed_input)) in
      match n_feats with
      | Raise e => (allocs, Raise e)
      | Ok n_feats =>
          let blks := add_blocks a.(n_blocks) (SaintEncoder (encoder_args a) n_feats) in
          (allocs ++ alloc_blocks blks, Ok (set_transformer_blks blks self))
      end
  end.

(** [forward] is inherited. *)
Definition forward {F : Type} {rt : Runtime F W} := @TabTransformer.forward F W rt.
End Methods.

End SAINT.

(** ** [StreamTrainer.fit] *)

Module StreamTrainer.

(** What [fit] does that is visible outside it, in program order.  The
    hooks and helpers of the surrounding trainer framework that [fit] could
    call are all constructors, whether the streaming variant calls them or
    not. *)
Inductive Event (Loss : Type) : Type :=
| on_epoch_begin (epoch : nat)
| train_step (epoch batch_idx : nat) (ix : list nat)
| print_loss (epoch : nat) (train_loss : Loss)
| print_loss_and_metric (batch_idx : nat)
| on_batch_end (batch : nat)
| save_epoch_logs (epoch : nat)
| on_epoch_end (epoch : nat)
| on_train_end
| model_train.
Arguments on_epoch_begin {Loss} epoch.
Arguments train_step {Loss} epoch batch_idx ix.
Arguments print_loss {Loss} epoch train_loss.
Arguments print_loss_and_metric {Loss} batch_idx.
Arguments on_batch_end {Loss} batch.
Arguments save_epoch_logs {Loss} epoch.
Arguments on_epoch_end {Loss} epoch.
Arguments on_train_end {Loss}.
Arguments model_train {Loss}.

(** The trainer state ([St]: model parameters, optimizer state, running
    loss) and the inherited [Trainer._train_step], which runs one
    forward + loss + backward + optimizer-step cycle on a batch and returns
    the loss it reports (the score it also returns is not used by [fit]).
    [zero_running_loss] is the assignment [self.train_running_loss = 0.0].
    A step that raises, like a callback that raises, is outside the
    model. *)
Class Trainer (St Data Target Loss : Type) : Type := {
  _train_step : St → list Data → list Target → nat → nat → St * Loss;
  zero_running_loss : St → St
}.

Section Loader.
Context {A : Type}.

(** Consecutive groups of [n] elements; the last group may be shorter. *)
Fixpoint chunks_go (fuel n : nat) (l : list A) : list (list A) :=
  match fuel with
  | O => []
  | S fuel' =>
      match l with
      | [] => []
      | _ :: _ => take n l :: chunks_go fuel' n (drop n l)
      end
  end.
Definition chunks (n : nat) (l : list A) : list (list A) :=
  chunks_go (length l) n l.

(** Consecutive groups of exactly [n] elements; what remains when fewer
    than [n] are left is dropped ([drop_last=True]). *)
Fixpoint batches_go (fuel n : nat) (l : list A) : list (list A) :=
  match fuel with
  | O => []
  | S fuel' =>
      if decide (n ≤ length l)%nat
      then take n l :: batches_go fuel' n (drop n l)
      else []
  end.
Definition batches (n : nat) (l : list A) : list (list A) :=
  batches_go (length l) n l.
End Loader.

Section Fit.
Context {Raw St Data Target Loss : Type} {tr : Trainer St Data Target Loss}.

(** Modelled from the spec: one pass of [StreamTextDataset]
    ([pytorch_widedeep.stream._stream_ds], not among the sources) over the
    rows stored at the path.  The pass starts at the first row, reads the
    rows in chunks of [chunksize], runs the preprocessor on each chunk and
    yields every row of the chunk with its absolute row position. *)
Definition StreamTextDataset_iter (preprocessor : Raw → Data)
    (chunksize : nat) (source : list Raw) : list (nat * Data) :=
  concat (map (map (λ ir : nat * Raw, (ir.1, preprocessor ir.2)))
            (chunks chunksize (imap (λ i r, (i, r)) source))).

(** Modelled from the spec: one pass of the [DataLoader] built at lines
    73-81 over a fresh pass of the dataset: [batch_size]-row batches,
    collated into the row positions and the rows, the final partial batch
    dropped.  The chunked reader refuses a chunk size below one when the
    pass starts. *)
Definition train_loader_iter (preprocessor : Raw → Data)
    (chunksize : Z) (batch_size : nat) (source : list Raw)
  : result (list (list nat * list Data)) :=
  if decide (chunksize ≤ 0) then
    Raise (ValueError "'chunksize' must be an integer >=1")
  else
    Ok (map (λ b : list (nat * Data), (b.*1, b.*2))
          (batches batch_size
             (StreamTextDataset_iter preprocessor (Z.to_nat chunksize) source))).

(** [target[ix]] *)
Definition target_getitem (target : list Target) (ix : list nat)
  : result (list Target) :=
  comprehension (λ i, match target !! i with
                      | Some t => Ok t
                      | None => Raise IndexError
                      end) ix.

(** Lines 89-94: the loop over [enumerate(train_loader)], from
    [batch_idx] on.  [train_loss] is the function's local of that name,
    unbound ([None]) until the first step has returned. *)
Fixpoint batch_loop (target : list Target) (epoch batch_idx : nat)
    (bs : list (list nat * list Data)) (st : St) (train_loss : option Loss)
  : list (Event Loss) * result (St * option Loss) :=
  match bs with
  | [] => ([], Ok (st, train_loss))
  | (ix, data) :: bs' =>
      match target_getitem target ix with
      | Raise e => ([], Raise e)
      | Ok targett =>
          let '(st, loss) := _train_step st data targett batch_idx epoch in
          let '(evs, r) := batch_loop target epoch (S batch_idx) bs' st (Some loss) in
          (train_step epoch batch_idx ix :: evs, r)
      end
  end.

(** Lines 84-102: the loop over the epochs still to run. *)
Fixpoint epoch_loop (preprocessor : Raw → Data) (chunksize : Z)
    (batch_size : nat) (source : list Raw) (target : list Target)
    (epochs : list nat) (st : St) (train_loss : option Loss)
  : list (Event Loss) * result (St * option Loss) :=
  match epochs with
  | [] => ([], Ok (st, train_loss))
  | epoch :: epochs' =>
      let st := zero_running_loss st in
      match train_loader_iter preprocessor chunksize batch_size source with
      | Raise e => ([on_epoch_begin epoch], Raise e)
      | Ok bs =>
          match batch_loop target epoch 0 bs st train_loss with
          | (evs, Raise e) => (on_epoch_begin epoch :: evs, Raise e)
          | (evs, Ok (st, None)) =>
              (on_epoch_begin epoch :: evs,
               Raise (UnboundLocalError "train_loss"))
          | (evs, Ok (st, Some loss)) =>
              let '(evs', r) :=
                epoch_loop preprocessor chunksize batch_size source target
                  epochs' st (Some loss) in
              (on_epoch_begin epoch :: evs ++ print_loss epoch loss :: evs', r)
          end
      end
  end.

(** [fit].  The sizes are Python integers; the loader refuses a batch
    size below one when it is built (lines 73-81). *)
Definition fit (source : list Raw) (target : list Target)
    (preprocessor : Raw → Data) (batch_size n_epochs chunksize : Z) (st : St)
  : list (Event Loss) * result St :=
  if decide (batch_size ≤ 0) then
    ([], Raise (ValueError "batch_size should be a positive integer value"))
  else
    match epoch_loop preprocessor chunksize (Z.to_nat batch_size)
            source target (range n_epochs) st None with
    | (evs, Raise e) => (evs, Raise e)
    | (evs, Ok (st, _)) => (evs ++ [model_train], Ok st)
    end.
End Fit.

Section Traces.
Context {Loss : Type}.

(** The hooks and helpers of the trainer framework whose calls are
    commented out in [fit] (lines 96-104). *)
Definition disabled (ev : Event Loss) : Prop :=
  match ev with
  | print_loss_and_metric _ | on_batch_end _ | save_epoch_logs _
  | on_epoch_end _ | on_train_end => True
  | _ => False
  end.

Definition is_train_step (ev : Event Loss) : bool :=
  match ev with train_step _ _ _ => true | _ => false end.

(** The events of one epoch as the specification describes them: the
    begin-epoch hook, then one update cycle for each of the [n_batches]
    full batches, batch [i] made of the rows [i * batch_size, ...,
    i * batch_size + batch_size - 1] of the source, then the report of the
    loss. *)
Definition expected_epoch (batch_size n_batches epoch : nat) (loss : Loss)
  : list (Event Loss) :=
  on_epoch_begin epoch
  :: ((λ i, train_step epoch i (seq (i * batch_size) batch_size)) <$> seq 0 n_batches)
  ++ [print_loss epoch loss].
(** The events of an epoch that [fit] entered, whether it completed it or
    not: the begin-epoch hook first and only there, then update cycles of
    that epoch only, then the report of the loss if the epoch completed. *)
Definition epoch_segment (epoch : nat) (seg : list (Event Loss)) : Prop :=
  ∃ steps tail,
    seg = on_epoch_begin epoch :: steps ++ tail
    ∧ Forall (λ ev, ∃ i ix, ev = train_step epoch i ix) steps
    ∧ (tail = [] ∨ ∃ loss, tail = [print_loss epoch loss]).
End Traces.

End StreamTrainer.

(** ** A reference runtime and concrete inputs

    A runtime over integer tensors that follows the shape discipline of the
    PyTorch modules and makes visible which table row a lookup returned:
    row [r] of every embedding table is the constant vector [r, ..., r].
    It is used to run the model on concrete inputs. *)

Module Reference.
Import TabTransformer.

Definition ref_cat_embed_call (m : CatEmbed) (idx : list Z) : result (Tensor2 Z) :=
  comprehension (λ i, if decide (0 ≤ i < table_rows m)
                      then Ok (replicate (Z.to_nat (table_width m)) i)
                      else Raise IndexError) idx.

Definition ref_cont_embed_call (m : ContEmbed) (x : Tensor2 Z) : result (Tensor2 Z) :=
  match m with
  | Linear_ReLU i o =>
      comprehension (λ row, if decide (len row = i)
                            then Ok (replicate (Z.to_nat o) (Z.max 0 (foldr Z.add 0 row)))
                            else Raise (RuntimeError "mat1 and mat2 shapes cannot be multiplied"))
        x
  end.

Definition ref_mlp_call (m : MLP) (x : Tensor2 Z) : result (Tensor2 Z) :=
  match m.(d_hidden) with
  | [] => Ok x
  | d0 :: _ =>
      comprehension (λ row, if decide (len row = d0)
                            then Ok (replicate (Z.to_nat (List.last m.(d_hidden) 0)) 0)
                            else Raise (RuntimeError "mat1 and mat2 shapes cannot be multiplied"))
        x
  end.

(** An attention-weight tensor is represented by its two trailing
    dimensions. *)
Definition ref_self_attn_weights (blk : Block) (x : Tensor3 Z) : nat * nat :=
  (length (default [] (head x)), length (default [] (head x))).
Definition ref_row_attn_weights (blk : Block) (x : Tensor3 Z) : nat * nat :=
  (length x, length x).

Definition ref_runtime : Runtime Z (nat * nat) := {|
  long := id;
  float := id;
  cat_embed_call := ref_cat_embed_call;
  dropout_call := λ _ x, x;
  cont_embed_call := ref_cont_embed_call;
  block_call := λ _ x, Ok x;
  self_attn_weights := ref_self_attn_weights;
  row_attn_weights := ref_row_attn_weights;
  norm_call := λ _ x, Ok x;
  mlp_call := ref_mlp_call
|}.

(** The docstring example: four categorical columns [a], [b], [c], [d] of
    four categories each and the continuous column [e].  The other
    arguments are the defaults of the signature, except that the attention
    weights are kept and that the model is small: width 4, two heads, two
    blocks, feed-forward width 16. *)
Definition example_args : Args :=
  {| column_idx := <["a" := 0]> (<["b" := 1]> (<["c" := 2]> (<["d" := 3]> (<["e" := 4]> ∅))));
     embed_input := [("a", 4); ("b", 4); ("c", 4); ("d", 4)];
     continuous_cols := Some ["e"];
     embed_dropout := 1 # 10;
     full_embed_dropout := false;
     shared_embed := false;
     add_shared_embed := false;
     frac_shared_embed := 8;
     input_dim := 4;
     n_heads := 2;
     n_blocks := 2;
     dropout := 1 # 10;
     keep_attn_weights := true;
     ff_hidden_dim := 16;
     transformer_activation := "gelu";
     with_special_token := false;
     embed_continuous := false;
     cont_norm_layer := "layernorm";
     mlp_hidden_dims := None;
     mlp_activation := "relu";
     mlp_batchnorm := false;
     mlp_batchnorm_last := false;
     mlp_linear_first := true |}.

(** A batch of two rows for [example_args]. *)
Definition example_X : Tensor2 Z := [[1; 2; 3; 4; 7]; [4; 3; 2; 1; 9]].

(** [args] with some arguments replaced. *)
Definition with_cols (a : Args) (idx : gmap string Z) (ei : list (string * Z))
    (cc : option (list string)) : Args :=
  {| column_idx := idx; embed_input := ei; continuous_cols := cc;
     embed_dropout := a.(embed_dropout);
     full_embed_dropout := a.(full_embed_dropout);
     shared_embed := a.(shared_embed);
     add_shared_embed := a.(add_shared_embed);
     frac_shared_embed := a.(frac_shared_embed);
     input_dim := a.(input_dim); n_heads := a.(n_heads);
     n_blocks := a.(n_blocks); dropout := a.(dropout);
     keep_attn_weights := a.(keep_attn_weights);
     ff_hidden_dim := a.(ff_hidden_dim);
     transformer_activation := a.(transformer_activation);
     with_special_token := a.(with_special_token);
     embed_continuous := a.(embed_continuous);
     cont_norm_layer := a.(cont_norm_layer);
     mlp_hidden_dims := a.(mlp_hidden_dims);
     mlp_activation := a.(mlp_activation);
     mlp_batchnorm := a.(mlp_batchnorm);
     mlp_batchnorm_last := a.(mlp_batchnorm_last);
     mlp_linear_first := a.(mlp_linear_first) |}.

Definition with_flags (a : Args) (special_token embed_cont : bool)
    (dims : option (list Z)) : Args :=
  {| column_idx := a.(column_idx); embed_input := a.(embed_input);
     continuous_cols := a.(continuous_cols);
     embed_dropout := a.(embed_dropout);
     full_embed_dropout := a.(full_embed_dropout);
     shared_embed := a.(shared_embed);
     add_shared_embed := a.(add_shared_embed);
     frac_shared_embed := a.(frac_shared_embed);
     input_dim := a.(input_dim); n_heads := a.(n_heads);
     n_blocks := a.(n_blocks); dropout := a.(dropout);
     keep_attn_weights := a.(keep_attn_weights);
     ff_hidden_dim := a.(ff_hidden_dim);
     transformer_activation := a.(transformer_activation);
     with_special_token := special_token;
     embed_continuous := embed_cont;
     cont_norm_layer := a.(cont_norm_layer);
     mlp_hidden_dims := dims;
     mlp_activation := a.(mlp_activation);
     mlp_batchnorm := a.(mlp_batchnorm);
     mlp_batchnorm_last := a.(mlp_batchnorm_last);
     mlp_linear_first := a.(mlp_linear_first) |}.

(** Data pre-processed with the [CLS] token: the reserved column comes
    first, there is no continuous column. *)
Definition cls_args : Args :=
  with_flags
    (with_cols example_args (<["special_token" := 0]> (<["a" := 1]> ∅))
       [("special_token", 1); ("a", 4)] None)
    true false None.
Definition cls_X : Tensor2 Z := [[1; 2]; [1; 4]].

(** Only categorical columns, with [embed_continuous=True]. *)
Definition categorical_only_args : Args :=
  with_flags
    (with_cols example_args (<["a" := 0]> (<["b" := 1]> ∅)) [("a", 4); ("b", 4)] None)
    false true None.

(** The docstring example with [embed_continuous=True]. *)
Definition embedded_args : Args := with_flags example_args false true None.

(** The docstring example with [mlp_hidden_dims=[]]. *)
Definition empty_dims_args : Args := with_flags example_args false false (Some []).

(** The docstring example with [mlp_hidden_dims=[16, 8]]. *)
Definition explicit_dims_args : Args := with_flags example_args false false (Some [16; 8]).

(** The [SAINT] model of the docstring example and what it is after a
    forward pass on [example_X]. *)
Definition saint_example : Self (nat * nat) :=
  set_transformer_blks
    (add_blocks 2 (SaintEncoder (encoder_args example_args) 4))
    (built example_args).
Definition saint_example_after : Self (nat * nat) :=
  set_attention_weights
    [Some (Pair (4, 4)%nat (2, 2)%nat); Some (Pair (4, 4)%nat (2, 2)%nat)]
    saint_example.

(** The special-token model after a forward pass on [cls_X]. *)
Definition cls_example_after : Self (nat * nat) :=
  set_attention_weights
    [Some (Single (2, 2)%nat); Some (Single (2, 2)%nat)] (built cls_args).

(** A trainer whose state counts the steps taken and whose loss is the
    number of the step. *)
Definition ref_trainer : StreamTrainer.Trainer nat nat nat nat := {|
  StreamTrainer._train_step := λ st _ _ _ _, (S st, S st);
  StreamTrainer.zero_running_loss := λ st, st
|}.

(** [args] with another name for the normalisation layer. *)
Definition with_cont_norm_layer (a : Args) (name : string) : Args :=
  {| column_idx := a.(column_idx); embed_input := a.(embed_input);
     continuous_cols := a.(continuous_cols);
     embed_dropout := a.(embed_dropout);
     full_embed_dropout := a.(full_embed_dropout);
     shared_embed := a.(shared_embed);
     add_shared_embed := a.(add_shared_embed);
     frac_shared_embed := a.(frac_shared_embed);
     input_dim := a.(input_dim); n_heads := a.(n_heads);
     n_blocks := a.(n_blocks); dropout := a.(dropout);
     keep_attn_weights := a.(keep_attn_weights);
     ff_hidden_dim := a.(ff_hidden_dim);
     transformer_activation := a.(transformer_activation);
     with_special_token := a.(with_special_token);
     embed_continuous := a.(embed_continuous);
     cont_norm_layer := name;
     mlp_hidden_dims := a.(mlp_hidden_dims);
     mlp_activation := a.(mlp_activation);
     mlp_batchnorm := a.(mlp_batchnorm);
     mlp_batchnorm_last := a.(mlp_batchnorm_last);
     mlp_linear_first := a.(mlp_linear_first) |}.

(** [args] with [keep_attn_weights] replaced. *)
Definition with_keep_attn_weights (a : Args) (keep : bool) : Args :=
  {| column_idx := a.(column_idx); embed_input := a.(embed_input);
     continuous_cols := a.(continuous_cols);
     embed_dropout := a.(embed_dropout);
     full_embed_dropout := a.(full_embed_dropout);
     shared_embed := a.(shared_embed);
     add_shared_embed := a.(add_shared_embed);
     frac_shared_embed := a.(frac_shared_embed);
     input_dim := a.(input_dim); n_heads := a.(n_heads);
     n_blocks := a.(n_blocks); dropout := a.(dropout);
     keep_attn_weights := keep;
     ff_hidden_dim := a.(ff_hidden_dim);
     transformer_activation := a.(transformer_activation);
     with_special_token := a.(with_special_token);
     embed_continuous := a.(embed_continuous);
     cont_norm_layer := a.(cont_norm_layer);
     mlp_hidden_dims := a.(mlp_hidden_dims);
     mlp_activation := a.(mlp_activation);
     mlp_batchnorm := a.(mlp_batchnorm);
     mlp_batchnorm_last := a.(mlp_batchnorm_last);
     mlp_linear_first := a.(mlp_linear_first) |}.

(** The docstring example with a normalisation layer name that
    [_set_cont_cols] does not know. *)
Definition unknown_norm_args : Args := with_cont_norm_layer example_args "instancenorm".

(** The docstring example with [keep_attn_weights=False], the default. *)
Definition no_retention_args : Args := with_keep_attn_weights example_args false.

(** The docstring example with the column [a] listed a second time, with
    nine categories instead of four. *)
Definition duplicate_args : Args :=
  with_cols example_args example_args.(column_idx)
    [("a", 4); ("b", 4); ("a", 9)] (Some ["e"]).

(** The batch [cls_X] with its two columns swapped, and the column index
    mapping that goes with it. *)
Definition cls_idx_swapped : gmap string Z := <["special_token" := 1]> (<["a" := 0]> ∅).
Definition cls_X_swapped : Tensor2 Z := [[2; 1]; [4; 1]].

(** The data of [cls_args] with [with_special_token] left at its default. *)
Definition cls_mismatch_args : Args := with_flags cls_args false false None.

(** A table with the continuous column [e] only. *)
Definition continuous_only_args : Args :=
  with_cols example_args (<["e" := 0]> ∅) [] (Some ["e"]).

End Reference.

(** * Properties *)

(** ** Python helpers *)

Section PyFacts.
Context {A B : Type}.

Lemma list_getitem_last (l : list A) :
  l ≠ [] → ∃ a, list_getitem l (-1) = Ok a ∧ last l = Some a.
Proof.
  intros Hl. unfold list_getitem, norm_index.
  assert (0 < length l)%nat by (destruct l; [done | simpl; lia]).
  rewrite decide_False by lia. rewrite decide_True by lia. simpl.
  replace (Z.to_nat (-1 + Z.of_nat (length l))) with (pred (length l)) by lia.
  rewrite <- last_lookup. destruct (last l) as [a|] eqn:E; [eauto|].
  apply last_None in E. done.
Qed.

Lemma comprehension_length (f : A → result B) (l : list A) (k : list B) :
  comprehension f l = Ok k → length k = length l.
Proof.
  revert k. induction l as [|a l IH]; intros k; simpl.
  - by intros [= <-].
  - destruct (f a) as [b|]; simpl; [|done].
    destruct (comprehension f l) as [bs|]; simpl; [|done].
    intros [= <-]. simpl. f_equal. by apply IH.
Qed.

Lemma comprehension_Forall2 (f : A → result B) (l : list A) (k : list B) :
  comprehension f l = Ok k ↔ Forall2 (λ a b, f a = Ok b) l k.
Proof.
  revert k. induction l as [|a l IH]; intros k; simpl.
  - split; [intros [= <-]; constructor | by inversion 1].
  - split.
    + destruct (f a) as [b|] eqn:Ea; simpl; [|done].
      destruct (comprehension f l) as [bs|] eqn:El; simpl; [|done].
      intros [= <-]. constructor; [done | by apply IH].
    + inversion 1 as [|? b ? bs Ha Hl]; subst. rewrite Ha. simpl.
      apply IH in Hl. by rewrite Hl.
Qed.

Lemma comprehension_ext (f g : A → result B) (l : list A) :
  (∀ a, a ∈ l → f a = g a) → comprehension f l = comprehension g l.
Proof.
  induction l as [|a l IH]; intros Hfg; simpl; [done|].
  rewrite (Hfg a) by constructor. rewrite IH; [done|].
  intros b Hb. apply Hfg. by constructor.
Qed.
End PyFacts.

(** ** Construction *)

Section Construction.
Import TabTransformer.
Context {W : Type}.
Implicit Types (a : Args) (self : Self W).

Lemma default_dims_depend_on_args self self' :
  self.(args) = self'.(args) →
  _set_mlp_hidden_dims self = _set_mlp_hidden_dims self'.
Proof. unfold _set_mlp_hidden_dims. by intros ->. Qed.

Lemma resolved_dims_depend_on_args self self' :
  self.(args) = self'.(args) →
  resolve_mlp_hidden_dims self = resolve_mlp_hidden_dims self'.
Proof.
  intros E. unfold resolve_mlp_hidden_dims.
  rewrite (default_dims_depend_on_args _ _ E). by rewrite E.
Qed.

Lemma resolved_dims_nonempty self : resolve_mlp_hidden_dims self ≠ [].
Proof.
  unfold resolve_mlp_hidden_dims, not_, _set_mlp_hidden_dims.
  destruct (mlp_hidden_dims (args self)) as [[|d ds]|]; simpl;
    repeat case_match; done.
Qed.

Lemma _set_categ_embeddings_args self :
  (_set_categ_embeddings self).1.(args) = self.(args).
Proof. unfold _set_categ_embeddings. by repeat case_match. Qed.

Lemma _set_cont_cols_args self :
  (_set_cont_cols self).1.(args) = self.(args).
Proof. unfold _set_cont_cols. by repeat case_match; simplify_eq/=. Qed.

Lemma init_unfold a :
  TabTransformer.__init__ (W:=W) a =
    if bool_decide ("special_token" ∈ dom a.(column_idx)) && negb a.(with_special_token)
    then ([], Raise special_token_error)
    else (built_allocs (W:=W) a, Ok (built a)).
Proof.
  unfold TabTransformer.__init__, built, built_allocs.
  destruct (_ && _); [done|].
  destruct (_set_categ_embeddings (assign_args a)) as [s1 l1] eqn:E1.
  destruct (_set_cont_cols s1) as [s2 l2] eqn:E2. simpl.
  assert (Ha : args s2 = a).
  { change s2 with (s2, l2).1. rewrite <- E2, _set_cont_cols_args.
    change s1 with (s1, l1).1. by rewrite <- E1, _set_categ_embeddings_args. }
  set (s3 := set_transformer_blks _ s2).
  set (s4 := if keep_attn_weights a then _ else _).
  assert (Ha4 : args s4 = args (assign_args (W:=W) a)).
  { subst s4 s3. by destruct (keep_attn_weights a). }
  rewrite (resolved_dims_depend_on_args _ _ Ha4).
  destruct (list_getitem_last (resolve_mlp_hidden_dims (assign_args (W:=W) a)))
    as (out & -> & ->); [apply resolved_dims_nonempty|].
  subst s4 s3. by rewrite E2.
Qed.

Lemma special_token_mismatch_decide a :
  bool_decide ("special_token" ∈ dom a.(column_idx)) && negb a.(with_special_token) = true
  ↔ special_token_mismatch a.
Proof.
  unfold special_token_mismatch.
  rewrite andb_true_iff, bool_decide_eq_true, negb_true_iff. done.
Qed.

Lemma init_Ok_inv a allocs self :
  TabTransformer.__init__ a = (allocs, Ok self) →
  ¬ special_token_mismatch a ∧ allocs = built_allocs (W:=W) a ∧ self = built a.
Proof.
  rewrite init_unfold.
  destruct (_ && _) eqn:E; [done|]. intros [= <- <-].
  split; [|done]. rewrite <- special_token_mismatch_decide. by rewrite E.
Qed.

Lemma default_dims_shape (w : Z) : [w; w * 4; w * 2] = [w; 4 * w; 2 * w].
Proof. by rewrite !(Z.mul_comm w). Qed.

(** C4.  If the column index mapping has the reserved [special_token]
    column while [with_special_token] is false, the constructor raises
    the special-token error (a [ValueError], the configuration error of
    the specification) and has allocated no module at that point: no
    embedding, no encoder block, no MLP.  In every other case the
    constructor does not raise it: it returns an instance. *)
Theorem init_special_token_check a :
  (special_token_mismatch a
   ∧ TabTransformer.__init__ (W:=W) a = ([], Raise special_token_error))
  ∨ (¬ special_token_mismatch a
     ∧ ∃ self, TabTransformer.__init__ (W:=W) a = (built_allocs (W:=W) a, Ok self)).
Proof.
  rewrite init_unfold.
  destruct (_ && _) eqn:E.
  - left. split; [by apply special_token_mismatch_decide | done].
  - right. split; [|by eexists].
    rewrite <- special_token_mismatch_decide. by rewrite E.
Qed.

(** C2, amended.  The hidden dimensions of the output MLP of a
    constructed model: a non-empty [mlp_hidden_dims] argument is used
    verbatim; when the argument is [None] or the empty list (both make
    [not mlp_hidden_dims] true) they are [[w, 4w, 2w]] with [w] given by
    the default rules. *)
Theorem init_mlp_hidden_dims a allocs self :
  TabTransformer.__init__ a = (allocs, Ok self) →
  ∃ mlp, self.(transformer_mlp) = Some mlp ∧
    (∀ dims, a.(mlp_hidden_dims) = Some dims → dims ≠ [] → mlp.(d_hidden) = dims) ∧
    (a.(mlp_hidden_dims) = None ∨ a.(mlp_hidden_dims) = Some [] →
     ∃ w, mlp.(d_hidden) = [w; 4 * w; 2 * w] ∧
       (a.(continuous_cols) = None → w = len a.(embed_input) * a.(input_dim)) ∧
       (∀ cols, a.(continuous_cols) = Some cols →
          w = if a.(with_special_token)
              then (if a.(embed_continuous)
                    then a.(input_dim)
                    else a.(input_dim) + len cols)
              else (if a.(embed_continuous)
                    then (len a.(embed_input) + len cols) * a.(input_dim)
                    else len a.(embed_input) * a.(input_dim) + len cols))).
Proof.
  intros (_ & _ & ->)%init_Ok_inv.
  exists (new_mlp a (resolve_mlp_hidden_dims (assign_args (W:=W) a))).
  split; [done|]. split.
  - intros dims Hd Hne. simpl. unfold resolve_mlp_hidden_dims. simpl.
    rewrite Hd. destruct dims; done.
  - intros Hd. simpl.
    assert (resolve_mlp_hidden_dims (assign_args (W:=W) a)
            = _set_mlp_hidden_dims (assign_args (W:=W) a)) as ->.
    { unfold resolve_mlp_hidden_dims. simpl. by destruct Hd as [-> | ->]. }
    unfold _set_mlp_hidden_dims. simpl.
    destruct (continuous_cols a) as [cols|];
      [destruct (with_special_token a), (embed_continuous a)|];
      eexists; (split; [apply default_dims_shape|]);
      (split; [done | by intros ? [= <-]]).
Qed.
End Construction.

Section ConstructionExamples.
Import TabTransformer Reference.

Lemma init_mlp_hidden_dims_example :
  TabTransformer.__init__ (W:=unit) explicit_dims_args
    = (built_allocs (W:=unit) explicit_dims_args, Ok (built explicit_dims_args))
  ∧ ∃ mlp, (built (W:=unit) explicit_dims_args).(transformer_mlp) = Some mlp ∧
    (∀ dims, explicit_dims_args.(mlp_hidden_dims) = Some dims → dims ≠ [] →
             mlp.(d_hidden) = dims) ∧
    (explicit_dims_args.(mlp_hidden_dims) = None
     ∨ explicit_dims_args.(mlp_hidden_dims) = Some [] →
     ∃ w, mlp.(d_hidden) = [w; 4 * w; 2 * w] ∧
       (explicit_dims_args.(continuous_cols) = None →
        w = len explicit_dims_args.(embed_input) * explicit_dims_args.(input_dim)) ∧
       (∀ cols, explicit_dims_args.(continuous_cols) = Some cols →
          w = if explicit_dims_args.(with_special_token)
              then (if explicit_dims_args.(embed_continuous)
                    then explicit_dims_args.(input_dim)
                    else explicit_dims_args.(input_dim) + len cols)
              else (if explicit_dims_args.(embed_continuous)
                    then (len explicit_dims_args.(embed_input) + len cols)
                         * explicit_dims_args.(input_dim)
                    else len explicit_dims_args.(embed_input)
                         * explicit_dims_args.(input_dim) + len cols))).
Proof.
  split; [vm_compute; reflexivity|].
  apply (init_mlp_hidden_dims explicit_dims_args
           (built_allocs (W:=unit) explicit_dims_args) (built explicit_dims_args)).
  vm_compute; reflexivity.
Defined.

(** C2 as stated fails for [mlp_hidden_dims=[]]: the argument is
    supplied, yet the MLP is built from the default rules
    ([4 * 4 + 1 = 17] for the docstring example at width 4), not from the
    empty list. *)
Lemma empty_mlp_hidden_dims_not_verbatim :
  ∃ allocs (self : Self unit) mlp,
    TabTransformer.__init__ empty_dims_args = (allocs, Ok self)
    ∧ empty_dims_args.(mlp_hidden_dims) = Some []
    ∧ self.(transformer_mlp) = Some mlp
    ∧ mlp.(d_hidden) = [17; 68; 34]
    ∧ mlp.(d_hidden) ≠ [].
Proof.
  exists (built_allocs (W:=unit) empty_dims_args), (built empty_dims_args).
  eexists. split; [vm_compute; reflexivity|].
  split; [reflexivity|]. split; [reflexivity|]. split; [reflexivity|]. discriminate.
Qed.
End ConstructionExamples.

(** ** [SAINT] against [TabTransformer] *)

Section Saint.
Import TabTransformer Reference.
Context {W : Type}.

(** X12.  Whenever the feature count of [SAINT.__init__] is defined, that is
    unless [embed_continuous] is set without continuous columns, the
    constructor of [SAINT] ends like the one of [TabTransformer] and its
    instance differs from the [TabTransformer] instance in
    [transformer_blks] only. *)
Lemma SAINT_init_frame (a : Args) allocs (self : Self W) :
  (a.(embed_continuous) = true → a.(continuous_cols) ≠ None) →
  TabTransformer.__init__ a = (allocs, Ok self) →
  ∃ blks saint,
    SAINT.__init__ a = (allocs ++ alloc_blocks blks, Ok saint)
    ∧ blks = add_blocks a.(n_blocks)
               (SaintEncoder (encoder_args a)
                  (if a.(embed_continuous)
                   then len a.(embed_input) + len (default [] a.(continuous_cols))
                   else len a.(embed_input)))
    ∧ saint.(transformer_blks) = Some blks
    ∧ saint.(args) = self.(args)
    ∧ saint.(cat_embed_layers) = self.(cat_embed_layers)
    ∧ saint.(embedding_dropout) = self.(embedding_dropout)
    ∧ saint.(cont_norm) = self.(cont_norm)
    ∧ saint.(cont_embed_layers) = self.(cont_embed_layers)
    ∧ saint.(attention_weights) = self.(attention_weights)
    ∧ saint.(transformer_mlp) = self.(transformer_mlp)
    ∧ saint.(output_dim) = self.(output_dim).
Proof.
  intros Hcc Hinit. unfold SAINT.__init__. rewrite Hinit.
  destruct (embed_continuous a) eqn:Ec.
  - destruct (continuous_cols a) as [cols|] eqn:Ecc; [|by destruct Hcc].
    simpl. eexists _, _. split; [reflexivity|]. by repeat split.
  - eexists _, _. split; [reflexivity|]. by repeat split.
Qed.

(** X13.  [SAINT] inherits the special-token check: when the column
    index mapping has the reserved [special_token] column and
    [with_special_token] is false, [SAINT.__init__] raises the error of
    the [TabTransformer] constructor, before any module, standard or
    dual-attention, is allocated. *)
Lemma SAINT_init_special_token (a : Args) :
  special_token_mismatch a →
  SAINT.__init__ (W:=W) a = ([], Raise special_token_error).
Proof.
  intros H%special_token_mismatch_decide.
  unfold SAINT.__init__. rewrite init_unfold, H. done.
Qed.
End Saint.

Section SaintExamples.
Import TabTransformer Reference.

(** C10 at [embed_continuous=True] without continuous columns:
    [TabTransformer] is constructed, [SAINT] with the same arguments
    raises [TypeError] from [len(continuous_cols)], after the parent
    constructor has run, so no [SAINT] instance exists to compare. *)
Theorem SAINT_init_embed_continuous_without_continuous_cols :
  categorical_only_args.(embed_continuous) = true
  ∧ categorical_only_args.(continuous_cols) = None
  ∧ TabTransformer.__init__ (W:=unit) categorical_only_args
    = (built_allocs (W:=unit) categorical_only_args, Ok (built categorical_only_args))
  ∧ SAINT.__init__ (W:=unit) categorical_only_args
    = (built_allocs (W:=unit) categorical_only_args,
       Raise (TypeError "object of type 'NoneType' has no len()")).
Proof. repeat split; vm_compute; reflexivity. Qed.
End SaintExamples.

(** ** Tensor operations *)

Section TorchFacts.
Context {A : Type}.
Implicit Types (l : list A) (s t r : list (list A)).

Lemma list_getitem_0 l a : list_getitem l 0 = Ok a ↔ head l = Some a.
Proof.
  unfold list_getitem, norm_index.
  destruct l as [|a' l]; cbn [length]; repeat case_decide; try lia;
    simpl; split; try done; by intros [= ->].
Qed.

Lemma cat_pair_Ok s t r :
  cat_pair s t = Ok r → length s = length t ∧ r = zip_with app s t.
Proof.
  revert t r. induction s as [|u s IH]; intros [|v t] r; simpl; try done.
  - by intros [= <-].
  - destruct (cat_pair s t) as [rest|] eqn:E; simpl; [|done].
    intros [= <-]. destruct (IH _ _ E) as [-> ->]. done.
Qed.

(** [torch.cat(ts, 1)] row by row: row [b] of the result is the
    concatenation, in list order, of the rows [b] of the arguments. *)
Lemma cat1_Ok (ts : list (list (list A))) (x : list (list A)) :
  cat1 ts = Ok x →
  ts ≠ [] ∧ Forall (λ t, length t = length x) ts ∧
  ∀ b row, x !! b = Some row →
    ∃ parts, Forall2 (λ t p, t !! b = Some p) ts parts ∧ row = concat parts.
Proof.
  revert x. induction ts as [|t ts IH]; intros x; [done|].
  destruct ts as [|t2 ts].
  - simpl. intros [= ->]. split; [done|]. split; [by constructor|].
    intros b row Hb. exists [row]. split; [by repeat constructor|].
    simpl. by rewrite app_nil_r.
  - change (cat1 (t :: t2 :: ts)) with (rest ← cat1 (t2 :: ts); cat_pair t rest).
    destruct (cat1 (t2 :: ts)) as [rest|] eqn:E; simpl; [|done].
    intros [Hlen ->]%cat_pair_Ok.
    destruct (IH _ eq_refl) as (_ & Hall & Hrows).
    assert (Hl : length (zip_with app t rest) = length t)
      by (rewrite length_zip_with; lia).
    split; [done|]. split.
    + constructor; [done|]. eapply Forall_impl; [exact Hall|].
      intros t' Ht'. simpl in Ht'. lia.
    + intros b row (u & v & -> & Hu & Hv)%lookup_zip_with_Some.
      destruct (Hrows _ _ Hv) as (parts & Hparts & ->).
      exists (u :: parts). split; [by constructor | done].
Qed.

Lemma cat1_two s t x :
  cat1 [s; t] = Ok x → length s = length t ∧ x = zip_with app s t.
Proof. simpl. apply cat_pair_Ok. Qed.

Lemma unsqueeze1_lookup (e : list A) b (p : list A) :
  unsqueeze1 e !! b = Some p ↔ ∃ a, e !! b = Some a ∧ p = [a].
Proof.
  unfold unsqueeze1. rewrite list_lookup_fmap.
  destruct (e !! b) as [a|]; simpl; split.
  - intros [= <-]. eauto.
  - by intros (a' & [= <-] & ->).
  - done.
  - by intros (? & ? & _).
Qed.

Lemma concat_length_uniform (d : nat) (sample : list (list A)) :
  Forall (λ tok, length tok = d) sample →
  length (concat sample) = (length sample * d)%nat.
Proof.
  induction 1 as [|tok sample Htok _ IH]; simpl; [done|].
  rewrite length_app, IH, Htok. done.
Qed.
End TorchFacts.

Section PoolFacts.
Context {F : Type}.

Lemma first_token_Ok (x : Tensor3 F) (p : Tensor2 F) :
  first_token x = Ok p ↔ Forall2 (λ sample tok, head sample = Some tok) x p.
Proof.
  unfold first_token. split.
  - intros H%comprehension_Forall2. eapply Forall2_impl; [exact H|].
    intros sample tok. by rewrite list_getitem_0.
  - intros H. apply comprehension_Forall2. eapply Forall2_impl; [exact H|].
    intros sample tok. by rewrite list_getitem_0.
Qed.
Lemma pool_width {W : Type} (self : TabTransformer.Self W)
    (x : Tensor3 F) (p : Tensor2 F) (t d : nat) :
  TabTransformer.pool self x = Ok p → shape3 t d x →
  width2 (if self.(TabTransformer.args).(TabTransformer.with_special_token) then d else (t * d)%nat) p.
Proof.
  unfold TabTransformer.pool, width2, shape3.
  destruct (TabTransformer.with_special_token (TabTransformer.args self)).
  - intros Hp%first_token_Ok Hshape.
    induction Hp as [|sample tok x p Hhd _ IH]; [constructor|].
    inversion Hshape as [|? ? [_ Htoks] Hrest]; subst. constructor; [|by apply IH].
    destruct sample as [|tok' sample]; simplify_eq/=. by inversion Htoks.
  - intros [= <-] Hshape. unfold flatten1.
    induction Hshape as [|sample x [Hlen Htoks] _ IH]; [constructor|].
    rewrite fmap_cons. constructor; [|done].
    by rewrite (concat_length_uniform d), Hlen.
Qed.
End PoolFacts.

(** ** The constructed instance, attribute by attribute *)

Section Built.
Import TabTransformer.
Context {W : Type}.
Implicit Types (a : Args) (self : Self W).

Ltac built_cases :=
  unfold built, _set_cont_cols, _set_categ_embeddings; simpl;
  repeat case_match; simplify_eq/=; done.

Lemma built_args a : (built (W:=W) a).(args) = a.
Proof. built_cases. Qed.

Lemma built_transformer_blks a :
  (built (W:=W) a).(transformer_blks)
  = Some (add_blocks a.(n_blocks) (TransformerEncoder (encoder_args a))).
Proof. built_cases. Qed.

Lemma built_attention_weights a :
  (built (W:=W) a).(attention_weights)
  = if a.(keep_attn_weights)
    then Some (replicate (Z.to_nat a.(n_blocks)) None) else None.
Proof. built_cases. Qed.

Lemma built_cat_embed_layers a :
  (built (W:=W) a).(cat_embed_layers)
  = Some (dict_comprehension (λ cv, "emb_layer_" +:+ cv.1)
            (λ cv, new_cat_embed a cv.2) a.(embed_input)).
Proof. built_cases. Qed.

Lemma built_transformer_mlp a :
  (built (W:=W) a).(transformer_mlp)
  = Some (new_mlp a (resolve_mlp_hidden_dims (assign_args (W:=W) a))).
Proof. built_cases. Qed.

Lemma add_blocks_length (n : Z) (blk : Block) :
  length (add_blocks n blk) = Z.to_nat n.
Proof. unfold add_blocks, range. by rewrite length_fmap, length_seq. Qed.

Lemma add_blocks_lookup (n : Z) (blk : Block) i nb :
  add_blocks n blk !! i = Some nb → nb.2 = blk.
Proof.
  unfold add_blocks. rewrite list_lookup_fmap.
  destruct (range n !! i); simpl; [|done]. by intros [= <-].
Qed.
End Built.

(** ** The encoder loop *)

Section RunBlocks.
Import TabTransformer.
Context {F W : Type} {rt : Runtime F W}.
Implicit Types (self : Self W) (x : Tensor3 F) (blks : list (string * Block)).

(** The loop changes no attribute but [attention_weights]. *)
Lemma run_blocks_frame blks i self x self' x' :
  run_blocks i blks self x = Ok (self', x') →
  self'.(args) = self.(args)
  ∧ self'.(cat_embed_layers) = self.(cat_embed_layers)
  ∧ self'.(embedding_dropout) = self.(embedding_dropout)
  ∧ self'.(cont_norm) = self.(cont_norm)
  ∧ self'.(cont_embed_layers) = self.(cont_embed_layers)
  ∧ self'.(transformer_blks) = self.(transformer_blks)
  ∧ self'.(transformer_mlp) = self.(transformer_mlp)
  ∧ self'.(output_dim) = self.(output_dim).
Proof.
  revert i self x. induction blks as [|[name blk] blks IH]; intros i self x; simpl.
  - by intros [= <- <-].
  - destruct (block_call blk x) as [x1|]; simpl; [|done].
    destruct (keep_attn_weights (args self)).
    + destruct (attention_weights self) as [aw|]; simpl; [|done].
      destruct (list_setitem aw i _) as [aw1|]; simpl; [|done].
      intros H%IH. apply H.
    + simpl. intros H%IH. apply H.
Qed.

(** With retention on, the loop started at index [i] stores, for the
    [k]-th block it runs, that block's entry at index [i + k]; it keeps
    the length of the record and the entries below [i]. *)
Lemma run_blocks_attention blks i self x self' x' aw :
  self.(args).(keep_attn_weights) = true →
  self.(attention_weights) = Some aw →
  run_blocks i blks self x = Ok (self', x') →
  ∃ aw', self'.(attention_weights) = Some aw'
    ∧ length aw' = length aw
    ∧ (∀ j, (j < i)%nat → aw' !! j = aw !! j)
    ∧ ∀ k nb, blks !! k = Some nb →
        ∃ xk, aw' !! (i + k)%nat = Some (Some (attn_entry nb.2 xk)).
Proof.
  revert i self x aw.
  induction blks as [|[name blk] blks IH]; intros i self x aw Hkeep Haw; simpl.
  - intros [= <- <-]. exists aw. by repeat split.
  - destruct (block_call blk x) as [x1|]; simpl; [|done].
    rewrite Hkeep, Haw. simpl.
    unfold list_setitem. case_decide as Hi; simpl; [|done].
    intros Hrun.
    destruct (IH (S i) (set_attention_weights (<[i:=Some (attn_entry blk x)]> aw) self)
                x1 _ Hkeep eq_refl Hrun)
      as (aw' & Haw' & Hlen & Hlow & Hhigh).
    exists aw'. split; [done|]. split; [by rewrite Hlen, length_insert|]. split.
    + intros j Hj. rewrite Hlow by lia. apply list_lookup_insert_ne. lia.
    + intros [|k] nb Hk; simpl in Hk.
      * injection Hk as <-. exists x. rewrite Nat.add_0_r, Hlow by lia.
        by apply list_lookup_insert_eq.
      * destruct (Hhigh k nb Hk) as (xk & Hxk). exists xk.
        by replace (i + S k)%nat with (S i + k)%nat by lia.
Qed.

(** What a successful [forward] went through. *)
Lemma mlp_input_inv self X self' y :
  mlp_input self X = Ok (self', y) →
  ∃ x0 blks x_enc pooled,
    encoder_input self X = Ok x0
    ∧ self.(transformer_blks) = Some blks
    ∧ run_blocks 0 blks self x0 = Ok (self', x_enc)
    ∧ pool self' x_enc = Ok pooled
    ∧ append_cont self' X pooled = Ok y.
Proof.
  unfold mlp_input.
  destruct (encoder_input self X) as [x0|]; simpl; [|done].
  destruct (transformer_blks self) as [blks|]; simpl; [|done].
  destruct (run_blocks 0 blks self x0) as [[self1 x_enc]|] eqn:Er; simpl; [|done].
  destruct (pool self1 x_enc) as [pooled|] eqn:Ep; simpl; [|done].
  destruct (append_cont self1 X pooled) as [y1|] eqn:Ea; simpl; [|done].
  intros [= <- <-]. by eexists _, _, _, _.
Qed.

Lemma forward_inv self X self' out :
  forward self X = Ok (self', out) →
  ∃ y mlp, mlp_input self X = Ok (self', y)
    ∧ self'.(transformer_mlp) = Some mlp ∧ mlp_call mlp y = Ok out.
Proof.
  unfold forward.
  destruct (mlp_input self X) as [[self1 y]|]; simpl; [|done].
  destruct (transformer_mlp self1) as [mlp|] eqn:Et; simpl; [|done].
  destruct (mlp_call mlp y) as [out1|] eqn:Em; simpl; [|done].
  intros [= <- <-]. by eexists _, _.
Qed.
End RunBlocks.

(** ** Attention-weight retention *)

Section ForwardFacts.
Import TabTransformer.
Context {F W : Type} {rt : Runtime F W}.
Implicit Types (a : Args) (self : Self W).

Lemma SAINT_init_Ok_inv a allocs self :
  SAINT.__init__ a = (allocs, Ok self) →
  ∃ n_feats,
    self = set_transformer_blks
             (add_blocks a.(n_blocks) (SaintEncoder (encoder_args a) n_feats))
             (built a).
Proof.
  unfold SAINT.__init__. rewrite init_unfold.
  destruct (_ && _); [done|].
  destruct (embed_continuous a); [destruct (continuous_cols a); [|done]|];
    intros [= <- <-]; by eexists.
Qed.

(** C6.  After a forward pass of a constructed model ([TabTransformer]
    or [SAINT]) with [keep_attn_weights=True] and [n_blocks = k],
    [attention_weights] has exactly [k] entries, entry [i] belongs to
    block [i] of the chain and has that block's kind: for a standard
    block the single tensor [blk.self_attn.attn_weights], for a
    dual-attention block the pair of [blk.self_attn.attn_weights] (the
    attention across the tokens of a row) and
    [blk.row_attn.attn_weights] (the inter-sample attention across the
    batch).  The blocks of a [TabTransformer] are all standard, the
    blocks of a [SAINT] all dual-attention. *)
Theorem forward_attention_weights a allocs self (X : Tensor2 F) self' out (k : nat) :
  TabTransformer.__init__ a = (allocs, Ok self)
    ∨ SAINT.__init__ a = (allocs, Ok self) →
  a.(keep_attn_weights) = true →
  a.(n_blocks) = Z.of_nat k →
  forward self X = Ok (self', out) →
  ∃ blks aw,
    self.(transformer_blks) = Some blks
    ∧ self'.(attention_weights) = Some aw
    ∧ length blks = k ∧ length aw = k
    ∧ (∀ i nb, blks !! i = Some nb →
         match nb.2 with
         | TransformerEncoder _ =>
             ∃ x, aw !! i = Some (Some (Single (self_attn_weights nb.2 x)))
         | SaintEncoder _ _ =>
             ∃ x, aw !! i = Some (Some (Pair (self_attn_weights nb.2 x)
                                             (row_attn_weights nb.2 x)))
         end)
    ∧ (TabTransformer.__init__ a = (allocs, Ok self) →
       ∀ i nb, blks !! i = Some nb → nb.2 = TransformerEncoder (encoder_args a))
    ∧ (SAINT.__init__ a = (allocs, Ok self) →
       ∀ i nb, blks !! i = Some nb → ∃ n_feats, nb.2 = SaintEncoder (encoder_args a) n_feats).
Proof.
  intros Hinit Hkeep Hk (y & mlp & Hin & _ & _)%forward_inv.
  destruct (mlp_input_inv _ _ _ _ Hin) as (x0 & blks & x_enc & pooled & _ & Hblks & Hrun & _ & _).
  assert (Hargs : self.(args) = a ∧ self.(attention_weights)
                  = Some (replicate k None) ∧ length blks = k).
  { destruct Hinit as [(_ & _ & ->)%init_Ok_inv | (n_feats & ->)%SAINT_init_Ok_inv];
      cbn [args attention_weights transformer_blks set_transformer_blks] in *;
      rewrite ?built_args, ?built_attention_weights, ?Hkeep, ?Hk, ?Nat2Z.id;
      (split; [done|]); (split; [done|]).
    - rewrite built_transformer_blks in Hblks. injection Hblks as <-.
      by rewrite add_blocks_length, Hk, Nat2Z.id.
    - injection Hblks as <-. by rewrite add_blocks_length, Hk, Nat2Z.id. }
  destruct Hargs as (Ha & Haw & Hlen).
  destruct (run_blocks_attention blks 0 self x0 self' x_enc _
              ltac:(by rewrite Ha) Haw Hrun) as (aw & Haw' & Hlen' & _ & Hentries).
  exists blks, aw. rewrite length_replicate in Hlen'.
  repeat split; try done.
  - intros i nb Hnb. destruct (Hentries i nb Hnb) as (x & Hx). simpl in Hx.
    unfold attn_entry in Hx. destruct nb.2; simpl in Hx; eauto.
  - intros (_ & _ & ->)%init_Ok_inv i nb Hnb.
    rewrite built_transformer_blks in Hblks. injection Hblks as <-.
    by apply add_blocks_lookup in Hnb.
  - intros (n_feats & ->)%SAINT_init_Ok_inv i nb Hnb.
    cbn [transformer_blks set_transformer_blks] in Hblks. injection Hblks as <-.
    apply add_blocks_lookup in Hnb. eauto.
Qed.
End ForwardFacts.

Section ForwardExamples.
Import TabTransformer Reference.

Lemma forward_attention_weights_example :
  SAINT.__init__ example_args
    = ((SAINT.__init__ (W:=nat * nat) example_args).1, Ok saint_example)
  ∧ example_args.(keep_attn_weights) = true
  ∧ example_args.(n_blocks) = Z.of_nat 2
  ∧ forward (rt:=ref_runtime) saint_example example_X
    = Ok (saint_example_after, replicate 2 (replicate 34 0))
  ∧ ∃ blks aw,
      saint_example.(transformer_blks) = Some blks
      ∧ saint_example_after.(attention_weights) = Some aw
      ∧ length blks = 2%nat ∧ length aw = 2%nat.
Proof.
  split; [vm_compute; reflexivity|].
  split; [reflexivity|]. split; [reflexivity|].
  split; [vm_compute; reflexivity|].
  destruct (forward_attention_weights (rt:=ref_runtime) example_args
              (SAINT.__init__ (W:=nat * nat) example_args).1
              saint_example example_X saint_example_after
              (replicate 2 (replicate 34 0)) 2)
    as (blks & aw & H1 & H2 & H3 & H4 & _).
  - right. vm_compute; reflexivity.
  - reflexivity.
  - reflexivity.
  - vm_compute; reflexivity.
  - exists blks, aw. repeat split; assumption.
Defined.
End ForwardExamples.

(** ** The embedding bank *)

Section Dict.
Import TabTransformer.
Context {A V : Type} (key : A → string) (val : A → V).

Lemma dict_comprehension_foldl_notin (l : list A) (d : gmap string V) (k : string) :
  k ∉ key <$> l →
  foldl (λ d a, <[key a := val a]> d) d l !! k = d !! k.
Proof.
  revert d. induction l as [|b l IH]; intros d Hk; simpl; [done|].
  rewrite fmap_cons in Hk. apply not_elem_of_cons in Hk as [Hkb Hkl].
  rewrite IH by done. by apply lookup_insert_ne.
Qed.

Lemma dict_comprehension_foldl_lookup (l : list A) (d : gmap string V) (a : A) :
  NoDup (key <$> l) → a ∈ l →
  foldl (λ d a, <[key a := val a]> d) d l !! key a = Some (val a).
Proof.
  revert d. induction l as [|b l IH]; intros d Hnd Ha; [by apply elem_of_nil in Ha|].
  rewrite fmap_cons in Hnd. apply NoDup_cons in Hnd as [Hb Hnd]. simpl.
  apply elem_of_cons in Ha as [-> | Ha].
  - rewrite dict_comprehension_foldl_notin by done. apply lookup_insert_eq.
  - by apply IH.
Qed.

(** With pairwise distinct keys, the dictionary maps the key of every item
    to the value of that item. *)
Lemma dict_comprehension_lookup (l : list A) (a : A) :
  NoDup (key <$> l) → a ∈ l →
  dict_comprehension key val l !! key a = Some (val a).
Proof. apply dict_comprehension_foldl_lookup. Qed.
End Dict.

Section EmbeddingBank.
Import TabTransformer.
Context {W : Type}.
Implicit Types (a : Args) (self : Self W).

Lemma emb_layer_key_inj (c1 c2 : string) :
  "emb_layer_" +:+ c1 = "emb_layer_" +:+ c2 → c1 = c2.
Proof. intros H. cbv [String.app] in H. by simplify_eq. Qed.

Lemma emb_layer_keys_NoDup (cols : list string) :
  NoDup cols → NoDup ((λ c, "emb_layer_" +:+ c) <$> cols).
Proof.
  intros H. apply NoDup_fmap_2; [|done]. intros c1 c2. apply emb_layer_key_inj.
Qed.

Lemma new_cat_embed_rows a (val : Z) : table_rows (new_cat_embed a val) = val + 1.
Proof. unfold new_cat_embed. by destruct (shared_embed a). Qed.

Lemma new_cat_embed_width a (val : Z) : table_width (new_cat_embed a val) = a.(input_dim).
Proof. unfold new_cat_embed. by destruct (shared_embed a). Qed.

Lemma built_allocs_cat_embed a (cv : string * Z) :
  cv ∈ a.(embed_input) →
  AllocCatEmbed ("emb_layer_" +:+ cv.1) (new_cat_embed a cv.2) ∈ built_allocs (W:=W) a.
Proof.
  intros Hcv. unfold built_allocs. apply elem_of_app. left.
  unfold _set_categ_embeddings. simpl.
  assert (AllocCatEmbed ("emb_layer_" +:+ cv.1) (new_cat_embed a cv.2)
          ∈ (λ cv, AllocCatEmbed ("emb_layer_" +:+ cv.1) (new_cat_embed a cv.2))
              <$> a.(embed_input)) as Hin.
  { apply list_elem_of_fmap. eauto. }
  repeat case_match; simpl; rewrite ?elem_of_app; auto.
Qed.

Lemma cat_column_inv {F : Type} {rt : Runtime F W} self (X : Tensor2 F) col e :
  cat_column self X col = Ok e →
  ∃ layers layer j codes,
    self.(cat_embed_layers) = Some layers
    ∧ layers !! ("emb_layer_" +:+ col) = Some layer
    ∧ self.(args).(column_idx) !! col = Some j
    ∧ select_col X j = Ok codes
    ∧ cat_embed_call layer (long <$> codes) = Ok e.
Proof.
  unfold cat_column, getattr, getitem.
  destruct (cat_embed_layers self) as [layers|]; simpl; [|done].
  destruct (layers !! _) as [layer|] eqn:El; simpl; [|done].
  destruct (column_idx (args self) !! col) as [j|] eqn:Ej; simpl; [|done].
  destruct (select_col X j) as [codes|] eqn:Ec; simpl; [|done].
  intros He. by eexists _, _, _, _.
Qed.

Lemma comprehension_bind_Ok {A B C : Type} (f : A → result B) (g : B → C)
    (l : list A) (ts : list C) :
  comprehension (λ z, b ← f z; Ok (g b)) l = Ok ts →
  ∃ bs, Forall2 (λ z b, f z = Ok b) l bs ∧ ts = g <$> bs.
Proof.
  revert ts. induction l as [|z l IH]; intros ts; simpl.
  - intros [= <-]. exists []. split; [constructor | done].
  - destruct (f z) as [b|] eqn:Ea; simpl; [|done].
    destruct (comprehension _ l) as [ts'|] eqn:El; simpl; [|done].
    intros [= <-]. destruct (IH _ eq_refl) as (bs & Hbs & ->).
    exists (b :: bs). split; [by constructor | done].
Qed.

(** C3, amended.  For every categorical column (each listed once in
    [embed_input]) of a constructed model, the embedding module allocated
    for it has a table of cardinality + 1 rows (with [padding_idx=0] for
    [nn.Embedding]), and in the forward pass the module is called on the
    integer codes found in that column of the batch, as they are: no
    offset is added. *)
Theorem cat_embedding_table_and_index a allocs self (col : string) (val : Z) :
  TabTransformer.__init__ a = (allocs, Ok self) →
  NoDup a.(embed_input).*1 →
  (col, val) ∈ a.(embed_input) →
  ∃ layers layer,
    self.(cat_embed_layers) = Some layers
    ∧ layers !! ("emb_layer_" +:+ col) = Some layer
    ∧ AllocCatEmbed ("emb_layer_" +:+ col) layer ∈ allocs
    ∧ layer = new_cat_embed a val
    ∧ table_rows layer = val + 1
    ∧ ∀ (F : Type) (rt : Runtime F W) (X : Tensor2 F) (ts : list (Tensor3 F)),
        cat_embed self X = Ok ts →
        ∃ j codes e,
          a.(column_idx) !! col = Some j
          ∧ Forall2 (λ row code, list_getitem row j = Ok code) X codes
          ∧ cat_embed_call layer (long <$> codes) = Ok e
          ∧ unsqueeze1 e ∈ ts.
Proof.
  intros (_ & -> & ->)%init_Ok_inv Hnd Hcol.
  assert (Hl : dict_comprehension (λ cv : string * Z, "emb_layer_" +:+ cv.1)
                 (λ cv, new_cat_embed a cv.2) a.(embed_input)
                 !! ("emb_layer_" +:+ col) = Some (new_cat_embed a val)).
  { apply (dict_comprehension_lookup (λ cv : string * Z, "emb_layer_" +:+ cv.1)
             (λ cv, new_cat_embed a cv.2) _ (col, val)); [|done].
    replace ((λ cv : string * Z, "emb_layer_" +:+ cv.1) <$> a.(embed_input))
      with ((λ c, "emb_layer_" +:+ c) <$> a.(embed_input).*1)
      by (by rewrite <- list_fmap_compose).
    by apply emb_layer_keys_NoDup. }
  eexists _, (new_cat_embed a val).
  split; [apply built_cat_embed_layers|]. split; [done|].
  split; [apply (built_allocs_cat_embed a (col, val) Hcol)|].
  split; [done|]. split; [apply new_cat_embed_rows|].
  intros F rt X ts Hts. unfold cat_embed in Hts. rewrite built_args in Hts.
  apply comprehension_bind_Ok in Hts as (E & HE & ->).
  apply list_elem_of_lookup in Hcol as [i Hi].
  destruct (Forall2_lookup_l _ _ _ _ _ HE Hi) as (e & He & Hcall).
  apply cat_column_inv in Hcall
    as (layers & layer & j & codes & Hlayers & Hlayer & Hj & Hcodes & Hcall).
  rewrite built_cat_embed_layers in Hlayers. injection Hlayers as <-.
  simpl in Hlayer. rewrite Hl in Hlayer. injection Hlayer as <-.
  rewrite built_args in Hj.
  exists j, codes, e. split; [done|].
  split; [by apply comprehension_Forall2 in Hcodes|]. split; [done|].
  apply list_elem_of_fmap. exists e. split; [done|].
  apply list_elem_of_lookup. eauto.
Qed.
End EmbeddingBank.

Section EmbeddingExamples.
Import TabTransformer Reference.

Lemma cat_embedding_table_and_index_example :
  TabTransformer.__init__ (W:=nat * nat) example_args
    = (built_allocs (W:=nat * nat) example_args, Ok (built example_args))
  ∧ NoDup example_args.(embed_input).*1
  ∧ ("a", 4) ∈ example_args.(embed_input)
  ∧ ∃ layers layer,
      (built (W:=nat * nat) example_args).(cat_embed_layers) = Some layers
      ∧ layers !! "emb_layer_a" = Some layer
      ∧ AllocCatEmbed "emb_layer_a" layer ∈ built_allocs (W:=nat * nat) example_args
      ∧ table_rows layer = 4 + 1.
Proof.
  assert (H1 : TabTransformer.__init__ (W:=nat * nat) example_args
               = (built_allocs (W:=nat * nat) example_args, Ok (built example_args)))
    by (vm_compute; reflexivity).
  assert (H2 : NoDup example_args.(embed_input).*1)
    by (apply (bool_decide_unpack _); vm_compute; exact I).
  assert (H3 : ("a", 4) ∈ example_args.(embed_input)) by constructor.
  split; [exact H1|]. split; [exact H2|]. split; [exact H3|].
  destruct (cat_embedding_table_and_index example_args _ _ "a" 4 H1 H2 H3)
    as (layers & layer & Ha & Hb & Hc & _ & Hd & _).
  exists layers, layer. repeat split; assumption.
Defined.

(** C3 as stated fails in the forward pass: on the docstring example, the
    codes of column [a] in the batch are [1] and [4], and the embedding
    module of [a] (a table of [4 + 1] rows) is called on [1] and [4]
    themselves, which gives the rows [1] and [4] of the table; it is not
    called on the codes offset by one, [2] and [5], which would leave a
    table of 5 rows. *)
Lemma forward_looks_up_raw_codes :
  ∃ layers layer,
    (built (W:=nat * nat) example_args).(cat_embed_layers) = Some layers
    ∧ layers !! "emb_layer_a" = Some layer
    ∧ table_rows layer = 5
    ∧ select_col example_X 0 = Ok [1; 4]
    ∧ cat_column (rt:=ref_runtime) (built example_args) example_X "a"
      = cat_embed_call (Runtime:=ref_runtime) layer [1; 4]
    ∧ cat_column (rt:=ref_runtime) (built example_args) example_X "a"
      = Ok [[1; 1; 1; 1]; [4; 4; 4; 4]]
    ∧ cat_embed_call (Runtime:=ref_runtime) layer [1 + 1; 4 + 1] = Raise IndexError
    ∧ cat_column (rt:=ref_runtime) (built example_args) example_X "a"
      ≠ cat_embed_call (Runtime:=ref_runtime) layer [1 + 1; 4 + 1].
Proof.
  eexists _, (Embedding 5 4 0).
  split; [apply built_cat_embed_layers|].
  split; [vm_compute; reflexivity|].
  split; [reflexivity|]. split; [vm_compute; reflexivity|].
  split; [vm_compute; reflexivity|]. split; [vm_compute; reflexivity|].
  split; [vm_compute; reflexivity|].
  vm_compute. discriminate.
Qed.
End EmbeddingExamples.

(** ** The order of the tokens *)

Section TokenOrder.
Import TabTransformer.
Context {F W : Type} {rt : Runtime F W}.
Implicit Types (self : Self W).

Lemma unsqueezed_rows (E : list (Tensor2 F)) (b : nat) (parts : list (list (list F))) :
  Forall2 (λ t p, t !! b = Some p) (unsqueeze1 <$> E) parts →
  Forall2 (λ e tok, e !! b = Some tok) E (concat parts).
Proof.
  revert parts. induction E as [|e E IH]; intros parts; rewrite ?fmap_nil, ?fmap_cons.
  - inversion 1. constructor.
  - inversion 1 as [|? p ? parts' Hp Hrest]; subst.
    apply unsqueeze1_lookup in Hp as (tok & Htok & ->). simpl.
    constructor; [done | by apply IH].
Qed.

(** Sample [b] of the concatenation of unsqueezed column embeddings is the
    list of the rows [b] of the columns, in the order of the columns. *)
Lemma cat1_unsqueezed (E : list (Tensor2 F)) (x : Tensor3 F) :
  cat1 (unsqueeze1 <$> E) = Ok x →
  ∀ b sample, x !! b = Some sample → Forall2 (λ e tok, e !! b = Some tok) E sample.
Proof.
  intros (_ & _ & Hrows)%cat1_Ok b sample Hb.
  destruct (Hrows _ _ Hb) as (parts & Hparts & ->). by apply unsqueezed_rows.
Qed.

(** X10.  The encoder input depends on [column_idx] and on the batch only
    through the data read for each column: moving the columns of the batch
    to other positions, with the mapping changed accordingly, leaves every
    token where it is. *)
Lemma encoder_input_column_positions self (idx' : gmap string Z) (X X' : Tensor2 F) :
  (∀ col, (j ← getitem self.(args).(column_idx) col; select_col X j)
          = (j ← getitem idx' col; select_col X' j)) →
  encoder_input self X = encoder_input (with_column_idx idx' self) X'.
Proof.
  intros Hread.
  assert (Hcat : ∀ col, cat_column self X col
                        = cat_column (with_column_idx idx' self) X' col).
  { intros col. unfold cat_column. simpl.
    destruct (getattr _ _) as [layers|]; simpl; [|done].
    destruct (getitem layers _) as [layer|]; simpl; [|done].
    specialize (Hread col).
    destruct (getitem (column_idx (args self)) col) as [j|],
             (getitem idx' col) as [j'|]; simpl in *;
      first [by rewrite Hread | by rewrite <- Hread | by simplify_eq]. }
  assert (Hcont : ∀ col, cont_column self X col
                         = cont_column (with_column_idx idx' self) X' col).
  { intros col. unfold cont_column. simpl.
    destruct (getattr _ _) as [layers|]; simpl; [|done].
    destruct (getitem layers _) as [layer|]; simpl; [|done].
    specialize (Hread col).
    destruct (getitem (column_idx (args self)) col) as [j|],
             (getitem idx' col) as [j'|]; simpl in *;
      first [by rewrite Hread | by rewrite <- Hread | by simplify_eq]. }
  unfold encoder_input, cat_embed, cont_embed, apply_embedding_dropout. simpl.
  rewrite (comprehension_ext _ (λ cv : string * Z,
             e ← cat_column (with_column_idx idx' self) X' cv.1; Ok (unsqueeze1 e)))
    by (intros cv _; by rewrite Hcat).
  destruct (comprehension _ (embed_input (args self))) as [ce|]; simpl; [|done].
  destruct (cat1 ce) as [xc|]; simpl; [|done].
  destruct (if negb _ then _ else _) as [xd|]; simpl; [|done].
  destruct (continuous_cols (args self)) as [cols|]; [|done].
  destruct (embed_continuous (args self)); [|done].
  rewrite (comprehension_ext _ (λ col : string,
             e ← cont_column (with_column_idx idx' self) X' col; Ok (unsqueeze1 e)))
    by (intros col _; by rewrite Hcont).
  done.
Qed.

(** C9.  The token tensor fed to the encoder: the categorical columns are
    embedded one by one in the order of [embed_input] (column embeddings
    [E]), the continuous ones, when [embed_continuous] is true, in the
    order of [continuous_cols] (column embeddings [G]).  In every sample
    [b] the tokens are, first, the rows [b] of the categorical embeddings
    in the order of [E], passed as one block through the embedding
    dropout, then the rows [b] of the continuous embeddings in the order
    of [G].  The position of a token is the position of its column in
    [embed_input] or [continuous_cols]; [column_idx] is only used inside
    [cat_column] and [cont_column] to read the column's data. *)
Theorem encoder_input_token_order self (X : Tensor2 F) (x : Tensor3 F) :
  encoder_input self X = Ok x →
  ∃ (E G : list (Tensor2 F)) (xc xd : Tensor3 F),
    Forall2 (λ cv e, cat_column self X cv.1 = Ok e) self.(args).(embed_input) E
    ∧ Forall2 (λ col g, cont_column self X col = Ok g)
        (if self.(args).(embed_continuous)
         then default [] self.(args).(continuous_cols) else []) G
    ∧ (∀ b sample, xc !! b = Some sample →
         Forall2 (λ e tok, e !! b = Some tok) E sample)
    ∧ apply_embedding_dropout self xc = Ok xd
    ∧ length x = length xd
    ∧ ∀ b sample, x !! b = Some sample →
        ∃ cat_part cont_part,
          sample = cat_part ++ cont_part
          ∧ xd !! b = Some cat_part
          ∧ Forall2 (λ g tok, g !! b = Some tok) G cont_part.
Proof.
  unfold encoder_input.
  destruct (cat_embed self X) as [ce|] eqn:Ece; simpl; [|done].
  apply comprehension_bind_Ok in Ece as (E & HE & Hce).
  destruct (cat1 ce) as [xc|] eqn:Exc; simpl; [|done]. rewrite Hce in Exc.
  destruct (apply_embedding_dropout self xc) as [xd|] eqn:Exd; simpl; [|done].
  pose proof (cat1_unsqueezed _ _ Exc) as Hxc.
  assert (Hplain : Ok xd = Ok x →
    ∀ b sample, x !! b = Some sample →
      ∃ cat_part cont_part : list (list F),
        sample = cat_part ++ cont_part ∧ xd !! b = Some cat_part
        ∧ Forall2 (λ (g : Tensor2 F) tok, g !! b = Some tok) [] cont_part).
  { intros [= ->] b sample Hb. exists sample, [].
    split; [by rewrite app_nil_r|]. split; [done | constructor]. }
  destruct (continuous_cols (args self)) as [cols|] eqn:Ecc;
    [destruct (embed_continuous (args self)) eqn:Eec|].
  - destruct (cont_embed self X cols) as [cte|] eqn:Ecte; simpl; [|done].
    apply comprehension_bind_Ok in Ecte as (G & HG & Hcte).
    destruct (cat1 cte) as [x_cont|] eqn:Excont; simpl; [|done]. rewrite Hcte in Excont.
    intros [Hlen ->]%cat_pair_Ok.
    exists E, G, xc, xd. repeat split; try done.
    + rewrite length_zip_with. lia.
    + intros b sample (u & v & -> & Hu & Hv)%lookup_zip_with_Some.
      exists u, v. split; [done|]. split; [done|].
      by apply (cat1_unsqueezed _ _ Excont).
  - intros Hx. pose proof (Hplain Hx) as Hp. injection Hx as <-.
    exists E, [], xc, xd. repeat split; done || constructor.
  - intros Hx. pose proof (Hplain Hx) as Hp. injection Hx as <-.
    exists E, [], xc, xd.
    repeat split; done || (destruct (embed_continuous (args self)); constructor).
Qed.
End TokenOrder.

Section TokenOrderExamples.
Import TabTransformer Reference.

Lemma encoder_input_token_order_example :
  encoder_input (rt:=ref_runtime) (built (W:=nat * nat) embedded_args) example_X
    = Ok [[[1; 1; 1; 1]; [2; 2; 2; 2]; [3; 3; 3; 3]; [4; 4; 4; 4]; [7; 7; 7; 7]];
          [[4; 4; 4; 4]; [3; 3; 3; 3]; [2; 2; 2; 2]; [1; 1; 1; 1]; [9; 9; 9; 9]]]
  ∧ ∃ (E G : list (Tensor2 Z)),
      Forall2 (λ cv e, cat_column (rt:=ref_runtime) (built (W:=nat * nat) embedded_args)
                         example_X cv.1 = Ok e)
        [("a", 4); ("b", 4); ("c", 4); ("d", 4)] E
      ∧ Forall2 (λ col g, cont_column (rt:=ref_runtime) (built (W:=nat * nat) embedded_args)
                            example_X col = Ok g)
          ["e"] G.
Proof.
  split; [vm_compute; reflexivity|].
  destruct (encoder_input_token_order (rt:=ref_runtime)
              (built (W:=nat * nat) embedded_args) example_X
              [[[1; 1; 1; 1]; [2; 2; 2; 2]; [3; 3; 3; 3]; [4; 4; 4; 4]; [7; 7; 7; 7]];
               [[4; 4; 4; 4]; [3; 3; 3; 3]; [2; 2; 2; 2]; [1; 1; 1; 1]; [9; 9; 9; 9]]])
    as (E & G & _ & _ & HE & HG & _).
  - vm_compute; reflexivity.
  - exists E, G. split; [exact HE | exact HG].
Defined.
End TokenOrderExamples.

(** ** The streaming loader *)

Section LoaderFacts.
Import StreamTrainer.
Context {A : Type}.
Implicit Types (l : list A) (n fuel : nat).

Lemma chunks_go_concat fuel n l :
  (1 ≤ n)%nat → (length l ≤ fuel)%nat → concat (chunks_go fuel n l) = l.
Proof.
  intros Hn. revert l. induction fuel as [|fuel IH]; intros l Hl; simpl.
  - destruct l; [done | simpl in Hl; lia].
  - destruct l as [|x l]; [done|].
    simpl. rewrite IH; [apply firstn_skipn|].
    rewrite length_drop. simpl in *. lia.
Qed.

(** The chunked pass yields every row, in order. *)
Lemma chunks_concat n l : (1 ≤ n)%nat → concat (chunks n l) = l.
Proof. intros Hn. by apply chunks_go_concat. Qed.

Lemma div_step (a n : nat) : (1 ≤ n ≤ a)%nat → (a / n = S ((a - n) / n))%nat.
Proof.
  intros [H1 H2]. replace a with (1 * n + (a - n))%nat at 1 by lia.
  rewrite Nat.div_add_l by lia. done.
Qed.

Lemma batches_go_spec fuel n l :
  (1 ≤ n)%nat → (length l ≤ fuel)%nat →
  batches_go fuel n l = (λ i, take n (drop (i * n) l)) <$> seq 0 (length l / n).
Proof.
  intros Hn. revert l. induction fuel as [|fuel IH]; intros l Hl; simpl.
  - destruct l; [|simpl in Hl; lia]. simpl. by rewrite Nat.Div0.div_0_l.
  - case_decide as Hle.
    + rewrite (div_step (length l) n) by lia. simpl. f_equal.
      rewrite IH by (rewrite length_drop; lia).
      rewrite length_drop, <- fmap_S_seq, <- list_fmap_compose.
      apply list_fmap_ext. intros _ i _. simpl. rewrite drop_drop. done.
    + by rewrite Nat.div_small by lia.
Qed.

(** With [drop_last], batch [i] is made of the [n] elements from position
    [i * n] on, and there are [length l / n] batches. *)
Lemma batches_spec n l :
  (1 ≤ n)%nat →
  batches n l = (λ i, take n (drop (i * n) l)) <$> seq 0 (length l / n).
Proof. intros Hn. by apply batches_go_spec. Qed.

Lemma batches_Forall_length n l :
  (1 ≤ n)%nat → Forall (λ b, length b = n) (batches n l).
Proof.
  intros Hn. rewrite batches_spec by done.
  apply Forall_fmap, Forall_seq. intros i Hi. simpl.
  rewrite length_take, length_drop.
  assert ((i + 1) * n ≤ length l)%nat; [|lia].
  transitivity (n * (length l / n))%nat; [|apply Nat.Div0.mul_div_le].
  rewrite Nat.mul_comm. apply Nat.mul_le_mono_l. lia.
Qed.
End LoaderFacts.

Section LoaderPositions.
Import StreamTrainer.

Lemma batches_fmap {A B : Type} (f : A → B) (n : nat) (l : list A) :
  (1 ≤ n)%nat → map (map f) (batches n l) = batches n (map f l).
Proof.
  intros Hn. rewrite !batches_spec by done.
  change (map ?g ?k) with (g <$> k).
  rewrite length_fmap, <- list_fmap_compose.
  apply list_fmap_ext. intros _ i _. simpl. by rewrite fmap_take, fmap_drop.
Qed.

Lemma batches_seq (n N : nat) :
  (1 ≤ n)%nat →
  batches n (seq 0 N) = (λ i, seq (i * n) n) <$> seq 0 (N / n).
Proof.
  intros Hn. rewrite batches_spec by done. rewrite length_seq.
  apply Forall_fmap_ext, Forall_seq. intros i Hi.
  rewrite drop_seq, take_seq. f_equal.
  assert ((i + 1) * n ≤ N)%nat; [|lia].
  transitivity (n * (N / n))%nat; [|apply Nat.Div0.mul_div_le].
  rewrite Nat.mul_comm. apply Nat.mul_le_mono_l. lia.
Qed.

Lemma imap_fst_seq {A B : Type} (g : A → B) (l : list A) :
  (imap (λ i r, (i, g r)) l).*1 = seq 0 (length l).
Proof.
  rewrite fmap_imap. rewrite <- (list_fmap_id (seq 0 (length l))).
  rewrite <- imap_seq_0. by apply imap_ext.
Qed.

Context {Raw Data : Type}.

Lemma StreamTextDataset_iter_rows (preprocessor : Raw → Data) (chunksize : nat)
    (source : list Raw) :
  (1 ≤ chunksize)%nat →
  StreamTextDataset_iter preprocessor chunksize source
  = imap (λ i r, (i, preprocessor r)) source.
Proof.
  intros Hc. unfold StreamTextDataset_iter.
  rewrite <- concat_map, chunks_concat by done.
  change (map ?f ?l) with (f <$> l). rewrite fmap_imap. by apply imap_ext.
Qed.

(** The row positions of the batches of one pass of the loader. *)
Lemma train_loader_iter_positions (preprocessor : Raw → Data)
    (chunksize : Z) (batch_size : nat) (source : list Raw) :
  0 < chunksize → (1 ≤ batch_size)%nat →
  ∃ bs, train_loader_iter preprocessor chunksize batch_size source = Ok bs
    ∧ bs.*1 = (λ i, seq (i * batch_size) batch_size)
                <$> seq 0 (length source / batch_size).
Proof.
  intros Hc Hb. unfold train_loader_iter. rewrite decide_False by lia.
  eexists. split; [done|].
  change (map ?f ?l) with (f <$> l). rewrite <- list_fmap_compose.
  rewrite StreamTextDataset_iter_rows by lia.
  change (fst ∘ _) with (map (@fst nat Data)).
  change (?g <$> ?k) with (map g k).
  rewrite batches_fmap by done.
  change (map ?g ?k) with (g <$> k).
  rewrite imap_fst_seq. by apply batches_seq.
Qed.
End LoaderPositions.

(** ** The [fit] loop *)

Section FitFacts.
Import StreamTrainer.
Context {Raw St Data Target Loss : Type} {tr : Trainer St Data Target Loss}.
Implicit Types (source : list Raw) (target : list Target) (st : St)
  (bs : list (list nat * list Data)) (tl : option Loss).

Lemma target_getitem_in_range target (ix : list nat) :
  Forall (λ i, (i < length target)%nat) ix →
  ∃ ts, target_getitem target ix = Ok ts.
Proof.
  unfold target_getitem. induction 1 as [|i ix Hi _ [ts IH]]; simpl.
  - by eexists.
  - apply lookup_lt_is_Some_2 in Hi as [t ->]. simpl. rewrite IH. by eexists.
Qed.

(** Whatever happens, the batch loop of an epoch records update cycles of
    that epoch only. *)
Lemma batch_loop_events target (e : nat) bs (k : nat) st tl evs r :
  batch_loop target e k bs st tl = (evs, r) →
  Forall (λ ev, ∃ i ix, ev = train_step e i ix) evs.
Proof.
  revert k st tl evs r.
  induction bs as [|[ix data] bs IH]; intros k st tl evs r; simpl.
  - intros [= <- <-]. constructor.
  - destruct (target_getitem target ix) as [targett|]; [|intros [= <- <-]; constructor].
    destruct (_train_step st data targett k e) as [st1 loss].
    destruct (batch_loop target e (S k) bs st1 (Some loss)) as [evs1 r1] eqn:E.
    intros [= <- <-]. constructor; [by eexists _, _ | by eapply IH].
Qed.

(** When every row position of every batch has a target, the batch loop
    runs one update cycle per batch, in order, and leaves [train_loss]
    bound as soon as there is a batch. *)
Lemma batch_loop_ok target (e : nat) bs (k : nat) st tl :
  Forall (λ b, Forall (λ i, (i < length target)%nat) b.1) bs →
  ∃ st' tl',
    batch_loop target e k bs st tl
    = (imap (λ i ix, train_step e (k + i) ix) bs.*1, Ok (st', tl'))
    ∧ (bs ≠ [] ∨ is_Some tl → is_Some tl').
Proof.
  intros Hbs. revert k st tl.
  induction Hbs as [|[ix data] bs Hix _ IH]; intros k st tl; simpl.
  - exists st, tl. split; [done|]. by intros [?|?].
  - destruct (target_getitem_in_range target ix Hix) as [targett ->].
    destruct (_train_step st data targett k e) as [st1 loss].
    destruct (IH (S k) st1 (Some loss)) as (st' & tl' & -> & Htl').
    exists st', tl'. split.
    + rewrite Nat.add_0_r. do 2 f_equal.
      apply imap_ext. intros i ix' _. simpl. f_equal. lia.
    + intros _. apply Htl'. right. by eexists.
Qed.

Lemma imap_train_steps (e b nb : nat) :
  imap (λ i ix, train_step (Loss:=Loss) e (0 + i) ix)
    ((λ i, seq (i * b) b) <$> seq 0 nb)
  = (λ i, train_step e i (seq (i * b) b)) <$> seq 0 nb.
Proof.
  apply list_eq. intros i.
  rewrite list_lookup_imap, !list_lookup_fmap.
  destruct (decide (i < nb)%nat).
  - by rewrite lookup_seq_lt by done.
  - by rewrite lookup_seq_ge by lia.
Qed.

Lemma expected_epochs_cons (b nb k : nat) (loss : Loss) (losses : list Loss) :
  concat (imap (λ j, expected_epoch b nb (k + j)) (loss :: losses))
  = expected_epoch b nb k loss
    ++ concat (imap (λ j, expected_epoch b nb (S k + j)) losses).
Proof.
  rewrite imap_cons, concat_cons, Nat.add_0_r. do 2 f_equal.
  apply imap_ext. intros j loss' _. simpl. f_equal. lia.
Qed.

(** The epochs of a run in which every batch finds its targets and there
    is at least one full batch. *)
Lemma epoch_loop_ok (preprocessor : Raw → Data) (chunksize : Z) (b : nat)
    source target (n k : nat) st tl :
  0 < chunksize → (1 ≤ b ≤ length source)%nat → (length source ≤ length target)%nat →
  ∃ st' tl' (losses : list Loss),
    length losses = n
    ∧ epoch_loop preprocessor chunksize b source target (seq k n) st tl
      = (concat (imap (λ j, expected_epoch b (length source / b) (k + j)) losses),
         Ok (st', tl')).
Proof.
  intros Hc Hb Ht. revert k st tl.
  induction n as [|n IH]; intros k st tl; simpl.
  - by exists st, tl, [].
  - destruct (train_loader_iter_positions preprocessor chunksize b source Hc)
      as (bs & -> & Hpos); [lia|].
    assert (Hrange : Forall (λ b, Forall (λ i, (i < length target)%nat) b.1) bs).
    { assert (Hr : Forall (λ ix, Forall (λ i, (i < length target)%nat) ix) bs.*1).
      { rewrite Hpos. apply Forall_fmap, Forall_seq. intros i Hi. simpl.
        apply Forall_seq. intros j Hj.
        assert ((i + 1) * b ≤ length source)%nat; [|lia].
        transitivity (b * (length source / b))%nat; [|apply Nat.Div0.mul_div_le].
        rewrite Nat.mul_comm. apply Nat.mul_le_mono_l. lia. }
      apply Forall_forall. intros batch Hin.
      rewrite Forall_forall in Hr. apply Hr.
      apply list_elem_of_fmap. by exists batch. }
    assert (Hne : bs ≠ []).
    { intros ->. simpl in Hpos. symmetry in Hpos. apply fmap_nil_inv, seq_nil in Hpos.
      apply Nat.div_small_iff in Hpos; lia. }
    destruct (batch_loop_ok target k bs 0 (zero_running_loss st) tl Hrange)
      as (st1 & tl1 & -> & Htl1).
    destruct (Htl1 (or_introl Hne)) as [loss ->].
    destruct (IH (S k) st1 (Some loss)) as (st' & tl' & losses & Hlen & ->).
    exists st', tl', (loss :: losses). split; [simpl; lia|].
    rewrite expected_epochs_cons. unfold expected_epoch at 1.
    rewrite Hpos, imap_train_steps. simpl. by rewrite <- app_assoc.
Qed.

Lemma epoch_segment_complete (e : nat) (steps : list (Event Loss)) (loss : Loss) :
  Forall (λ ev, ∃ i ix, ev = train_step e i ix) steps →
  epoch_segment e (on_epoch_begin e :: steps ++ [print_loss e loss]).
Proof. intros H. exists steps, [print_loss e loss]. eauto. Qed.

Lemma epoch_segment_broken (e : nat) (steps : list (Event Loss)) :
  Forall (λ ev, ∃ i ix, ev = train_step e i ix) steps →
  epoch_segment e (on_epoch_begin e :: steps).
Proof. intros H. exists steps, []. rewrite app_nil_r. auto. Qed.

(** Whatever happens, the events of the epoch loop split into one segment
    per epoch entered. *)
Lemma epoch_loop_segments (preprocessor : Raw → Data) (chunksize : Z) (b : nat)
    source target (n k : nat) st tl evs r :
  epoch_loop preprocessor chunksize b source target (seq k n) st tl = (evs, r) →
  ∃ segs,
    evs = concat segs
    ∧ (length segs ≤ n)%nat
    ∧ (is_ok r = true → length segs = n)
    ∧ ∀ j seg, segs !! j = Some seg → epoch_segment (k + j) seg.
Proof.
  revert k st tl evs r. induction n as [|n IH]; intros k st tl evs r; simpl.
  - intros [= <- <-]. exists []. repeat split; try done.
  - assert (Hbroken : ∀ steps e0,
      Forall (λ ev, ∃ i ix, ev = train_step (Loss:=Loss) k i ix) steps →
      ∃ segs, on_epoch_begin k :: steps = concat segs
        ∧ (length segs ≤ S n)%nat
        ∧ (is_ok (A:=St * option Loss) (Raise e0) = true → length segs = S n)
        ∧ ∀ j seg, segs !! j = Some seg → epoch_segment (k + j) seg).
    { intros steps e0 Hsteps. exists [on_epoch_begin k :: steps].
      split; [simpl; by rewrite app_nil_r|]. split; [simpl; lia|]. split; [done|].
      intros [|j] seg; [|done]. intros [= <-]. rewrite Nat.add_0_r.
      by apply epoch_segment_broken. }
    destruct (train_loader_iter preprocessor chunksize b source) as [bs|e0].
    2: { intros [= <- <-]. apply Hbroken. constructor. }
    destruct (batch_loop target k 0 bs (zero_running_loss st) tl)
      as [evs_b [[st1 [loss|]]|e0]] eqn:Eb;
      pose proof (batch_loop_events _ _ _ _ _ _ _ _ Eb) as Hsteps.
    + destruct (epoch_loop preprocessor chunksize b source target (seq (S k) n)
                  st1 (Some loss)) as [evs' r'] eqn:E'.
      intros [= <- <-].
      destruct (IH _ _ _ _ _ E') as (segs & -> & Hlen & Hok & Hsegs).
      exists ((on_epoch_begin k :: evs_b ++ [print_loss k loss]) :: segs).
      split; [simpl; by rewrite <- app_assoc|]. split; [simpl; lia|].
      split; [intros Hr; simpl; by rewrite Hok|].
      intros [|j] seg; simpl.
      * intros [= <-]. rewrite Nat.add_0_r. by apply epoch_segment_complete.
      * intros Hj. replace (k + S j)%nat with (S k + j)%nat by lia. by apply Hsegs.
    + intros [= <- <-]. by apply Hbroken.
    + intros [= <- <-]. by apply Hbroken.
Qed.
End FitFacts.

Section FitTheorems.
Import StreamTrainer.
Context {Raw St Data Target Loss : Type} {tr : Trainer St Data Target Loss}.
Implicit Types (source : list Raw) (target : list Target) (st : St).

Lemma train_steps_count (e : nat) (g : nat → list nat) (l : list nat) :
  length (filter is_train_step ((λ i, train_step (Loss:=Loss) e i (g i)) <$> l))
  = length l.
Proof.
  induction l as [|i l IH]; [done|].
  rewrite fmap_cons, filter_cons_True by done. simpl. by rewrite IH.
Qed.

Lemma expected_epoch_train_steps (b nb e : nat) (loss : Loss) :
  length (filter is_train_step (expected_epoch b nb e loss)) = nb.
Proof.
  unfold expected_epoch.
  rewrite filter_cons_False by (simpl; tauto).
  rewrite filter_app, length_app.
  rewrite (filter_cons_False _ (print_loss e loss)) by (simpl; tauto).
  rewrite filter_nil, train_steps_count, length_seq. simpl. lia.
Qed.

Lemma expected_epochs_train_steps (b nb k : nat) (losses : list Loss) :
  length (filter is_train_step
            (concat (imap (λ j, expected_epoch b nb (k + j)) losses)))
  = (length losses * nb)%nat.
Proof.
  revert k. induction losses as [|loss losses IH]; intros k; [done|].
  rewrite expected_epochs_cons, filter_app, length_app.
  rewrite expected_epoch_train_steps, IH. simpl. lia.
Qed.

(** C5.  A streaming fit over a source of [N] rows with a positive batch
    size [b] (at most [N]), a positive chunk size and targets for all the
    rows: every epoch consists of the begin-epoch hook, one update cycle
    for each of the [N / b] full batches, batch [i] made of the rows
    [i * b .. i * b + b - 1], and then one report of the loss; the rows
    from [(N / b) * b] on, a final batch shorter than [b], are in no cycle.
    Every epoch starts again at row [0].  In total [fit] runs
    [n_epochs * (N / b)] update cycles; with 100 rows, [b = 10],
    [n_epochs = 2] these are 20. *)
Theorem fit_update_cycles source target (preprocessor : Raw → Data)
    (batch_size n_epochs chunksize : Z) st :
  0 < batch_size → 0 < chunksize → 0 ≤ n_epochs →
  batch_size ≤ len source → len source ≤ len target →
  ∃ (st' : St) (losses : list Loss),
    length losses = Z.to_nat n_epochs
    ∧ fit source target preprocessor batch_size n_epochs chunksize st
      = (concat (imap (expected_epoch (Z.to_nat batch_size)
                         (length source / Z.to_nat batch_size)) losses)
           ++ [model_train],
         Ok st')
    ∧ Z.of_nat (length (filter is_train_step
                  (fit source target preprocessor batch_size n_epochs chunksize st).1))
      = n_epochs * (len source / batch_size).
Proof.
  intros Hb Hc Hn Hsrc Htgt. unfold len in *.
  destruct (epoch_loop_ok preprocessor chunksize (Z.to_nat batch_size) source target
              (Z.to_nat n_epochs) 0 st None Hc)
    as (st' & tl' & losses & Hlen & Hloop); [lia | lia |].
  assert (Hfit : fit source target preprocessor batch_size n_epochs chunksize st
    = (concat (imap (expected_epoch (Z.to_nat batch_size)
                       (length source / Z.to_nat batch_size)) losses)
         ++ [model_train], Ok st')).
  { unfold fit, range. rewrite decide_False by lia. by rewrite Hloop. }
  exists st', losses. split; [done|]. split; [done|].
  rewrite Hfit. simpl. rewrite filter_app, length_app.
  rewrite (expected_epochs_train_steps _ _ 0).
  rewrite filter_cons_False by (simpl; tauto). rewrite filter_nil. simpl.
  rewrite Hlen, Nat.add_0_r, Nat2Z.inj_mul, Nat2Z.inj_div, !Z2Nat.id by lia.
  done.
Qed.

(** C8.  The events of any run of [fit], including one that an exception
    ends: they split into one segment per epoch entered, in the order of
    the epochs, followed by the final [model.train()] when the run
    completes.  The segment of an epoch starts with the begin-epoch hook
    of that epoch, which occurs nowhere else in it; after it come only
    update cycles of that epoch and, if the epoch completes, the report of
    the loss.  The per-batch-end, epoch-end and train-end hooks, the
    per-batch metric printing and the saving of the epoch logs occur in no
    run. *)
Theorem fit_hooks source target (preprocessor : Raw → Data)
    (batch_size n_epochs chunksize : Z) st :
  ∃ (segs : list (list (Event Loss))) (closing : list (Event Loss)),
    (fit source target preprocessor batch_size n_epochs chunksize st).1
      = concat segs ++ closing
    ∧ (length segs ≤ Z.to_nat n_epochs)%nat
    ∧ (∀ e seg, segs !! e = Some seg → epoch_segment e seg)
    ∧ (closing = [] ∨ closing = [model_train])
    ∧ (is_ok (fit source target preprocessor batch_size n_epochs chunksize st).2 = true
       → length segs = Z.to_nat n_epochs ∧ closing = [model_train])
    ∧ Forall (λ ev, ¬ disabled ev)
        (fit source target preprocessor batch_size n_epochs chunksize st).1.
Proof.
  assert (Hseg : ∃ (segs : list (list (Event Loss))) (closing : list (Event Loss)),
    (fit source target preprocessor batch_size n_epochs chunksize st).1
      = concat segs ++ closing
    ∧ (length segs ≤ Z.to_nat n_epochs)%nat
    ∧ (∀ e seg, segs !! e = Some seg → epoch_segment e seg)
    ∧ (closing = [] ∨ closing = [model_train])
    ∧ (is_ok (fit source target preprocessor batch_size n_epochs chunksize st).2 = true
       → length segs = Z.to_nat n_epochs ∧ closing = [model_train])).
  { unfold fit, range. case_decide.
    { exists [], []. simpl. repeat split; auto with lia; try done. }
    destruct (epoch_loop preprocessor chunksize (Z.to_nat batch_size) source target
                (seq 0 (Z.to_nat n_epochs)) st None) as [evs r] eqn:E.
    destruct (epoch_loop_segments _ _ _ _ _ _ _ _ _ _ _ E)
      as (segs & -> & Hlen & Hok & Hsegs).
    destruct r as [[st' tl']|e0]; simpl.
    - exists segs, [model_train]. repeat split; auto.
    - exists segs, []. rewrite app_nil_r. repeat split; auto; done. }
  destruct Hseg as (segs & closing & Htrace & Hlen & Hsegs & Hclosing & Hok).
  exists segs, closing. repeat split; try done; try (by apply Hok).
  rewrite Htrace. apply Forall_app. split.
  - apply Forall_concat, Forall_forall. intros seg [e Hseg]%list_elem_of_lookup.
    destruct (Hsegs e seg Hseg) as (steps & tail & -> & Hsteps & Htail).
    constructor; [simpl; tauto|]. apply Forall_app. split.
    + eapply Forall_impl; [exact Hsteps|]. intros ev (i & ix & ->). simpl. tauto.
    + destruct Htail as [-> | [loss ->]]; repeat constructor. simpl. tauto.
  - destruct Hclosing as [-> | ->]; repeat constructor. simpl. tauto.
Qed.
End FitTheorems.

Section FitExamples.
Import StreamTrainer Reference.

(** The scenario of the specification: 100 rows, [chunk_size = 20],
    [batch_size = 10], [n_epochs = 2]. *)
Lemma fit_update_cycles_example :
  0 < 10 ∧ 0 < 20 ∧ 0 ≤ 2
  ∧ 10 ≤ len (seq 0 100) ∧ len (seq 0 100) ≤ len (replicate 100 0%nat)
  ∧ length (filter is_train_step
              (fit (tr:=ref_trainer) (seq 0 100) (replicate 100 0%nat) id 10 2 20 0%nat).1)
    = 20%nat.
Proof.
  assert (H1 : 0 < 10) by reflexivity.
  assert (H2 : 0 < 20) by reflexivity.
  assert (H3 : 0 ≤ 2) by discriminate.
  assert (H4 : 10 ≤ len (seq 0 100)) by (vm_compute; discriminate).
  assert (H5 : len (seq 0 100) ≤ len (replicate 100 0%nat)) by (vm_compute; discriminate).
  repeat (split; [assumption|]).
  destruct (fit_update_cycles (tr:=ref_trainer) (seq 0 100) (replicate 100 0%nat)
              id 10 2 20 0%nat H1 H2 H3 H4 H5) as (st' & losses & _ & _ & Hcount).
  apply Nat2Z.inj. rewrite Hcount. reflexivity.
Defined.
End FitExamples.

(** ** The width of the MLP input *)

Section DictValues.
Import TabTransformer.
Context {A V : Type} (key : A → string) (val : A → V).

Lemma dict_comprehension_foldl_values (P : V → Prop) (l : list A) (d : gmap string V) :
  (∀ k v, d !! k = Some v → P v) → (∀ a, a ∈ l → P (val a)) →
  ∀ k v, foldl (λ d a, <[key a := val a]> d) d l !! k = Some v → P v.
Proof.
  revert d. induction l as [|b l IH]; intros d Hd Hl k v; simpl; [apply Hd|].
  apply IH.
  - intros k' v'. rewrite lookup_insert. case_decide.
    + intros [= <-]. apply Hl. constructor.
    + apply Hd.
  - intros a Ha. apply Hl. by constructor.
Qed.

Lemma dict_comprehension_values (P : V → Prop) (l : list A) :
  (∀ a, a ∈ l → P (val a)) →
  ∀ k v, dict_comprehension key val l !! k = Some v → P v.
Proof. apply dict_comprehension_foldl_values. intros k v. by rewrite lookup_empty. Qed.
End DictValues.

Section Shapes.
Context {F : Type}.

Lemma cat_tokens_shape (E : list (Tensor2 F)) (xc : Tensor3 F) (d : nat) :
  cat1 (unsqueeze1 <$> E) = Ok xc → Forall (width2 d) E →
  shape3 (length E) d xc.
Proof.
  intros Hcat HE. apply Forall_lookup. intros b sample Hb.
  pose proof (cat1_unsqueezed _ _ Hcat b sample Hb) as H2.
  split; [symmetry; by eapply Forall2_length|].
  clear Hcat Hb. induction H2 as [|e tok E sample Htok _ IH]; [constructor|].
  inversion HE as [|? ? He HE']; subst. constructor; [|by apply IH].
  by apply (Forall_lookup_1 _ _ _ _ He Htok).
Qed.

Lemma zip_with_app_shape (x y : Tensor3 F) (t1 t2 d : nat) :
  shape3 t1 d x → shape3 t2 d y → shape3 (t1 + t2) d (zip_with app x y).
Proof.
  intros Hx Hy. apply Forall_lookup.
  intros b sample (u & v & -> & Hu & Hv)%lookup_zip_with_Some.
  destruct (Forall_lookup_1 _ _ _ _ Hx Hu) as [Hlu Hwu].
  destruct (Forall_lookup_1 _ _ _ _ Hy Hv) as [Hlv Hwv].
  split; [rewrite length_app; lia | by apply Forall_app].
Qed.

Lemma zip_with_app_width (x y : Tensor2 F) (w1 w2 : nat) :
  width2 w1 x → width2 w2 y → width2 (w1 + w2) (zip_with app x y).
Proof.
  intros Hx Hy. apply Forall_lookup.
  intros b row (u & v & -> & Hu & Hv)%lookup_zip_with_Some.
  rewrite length_app.
  by rewrite (Forall_lookup_1 _ _ _ _ Hx Hu), (Forall_lookup_1 _ _ _ _ Hy Hv).
Qed.

Lemma select_cols_width (X : Tensor2 F) (idx : list Z) (sel : Tensor2 F) :
  select_cols X idx = Ok sel → width2 (length idx) sel.
Proof.
  intros H%comprehension_Forall2. apply Forall_lookup. intros b row Hb.
  destruct (Forall2_lookup_r _ _ _ _ _ H Hb) as (r & _ & Hr).
  by apply comprehension_length in Hr.
Qed.
End Shapes.

Section MlpWidth.
Import TabTransformer.
Context {F W : Type} {rt : Runtime F W} {laws : ShapeLaws rt}.
Implicit Types (a : Args) (self : Self W).

Lemma built_well_built a : well_built (built (W:=W) a).
Proof.
  split.
  - intros layers k m. rewrite built_cat_embed_layers, built_args. intros [= <-].
    apply (dict_comprehension_values _ _ (λ m, table_width m = input_dim a)).
    intros cv _. apply new_cat_embed_width.
  - intros layers k m. rewrite built_args.
    unfold built, _set_cont_cols, _set_categ_embeddings; simpl.
    repeat case_match; simplify_eq/=; try done;
      intros [= <-];
      apply (dict_comprehension_values _ _ (λ m, ∃ i, m = Linear_ReLU i (input_dim a)));
      intros; by eexists.
Qed.

Lemma cont_column_inv self (X : Tensor2 F) col e :
  cont_column self X col = Ok e →
  ∃ layers layer j vals,
    self.(cont_embed_layers) = Some layers
    ∧ layers !! ("emb_layer_" +:+ col) = Some layer
    ∧ self.(args).(column_idx) !! col = Some j
    ∧ select_col X j = Ok vals
    ∧ cont_embed_call layer (unsqueeze1 (float <$> vals)) = Ok e.
Proof.
  unfold cont_column, getattr, getitem.
  destruct (cont_embed_layers self) as [layers|]; simpl; [|done].
  destruct (layers !! _) as [layer|] eqn:El; simpl; [|done].
  destruct (column_idx (args self) !! col) as [j|] eqn:Ej; simpl; [|done].
  destruct (select_col X j) as [vals|] eqn:Ec; simpl; [|done].
  intros He. by eexists _, _, _, _.
Qed.

Lemma cat_columns_width self (X : Tensor2 F) (l : list (string * Z)) (E : list (Tensor2 F)) :
  well_built self →
  Forall2 (λ cv e, cat_column self X cv.1 = Ok e) l E →
  Forall (width2 (Z.to_nat self.(args).(input_dim))) E.
Proof.
  intros [Hcat _]. induction 1 as [|cv e l E He _ IH]; constructor; [|done].
  apply cat_column_inv in He as (layers & layer & j & codes & Hl & Hk & _ & _ & Hcall).
  rewrite <- (Hcat _ _ _ Hl Hk). by eapply cat_embed_shape.
Qed.

Lemma cont_columns_width self (X : Tensor2 F) (l : list string) (G : list (Tensor2 F)) :
  well_built self →
  Forall2 (λ col g, cont_column self X col = Ok g) l G →
  Forall (width2 (Z.to_nat self.(args).(input_dim))) G.
Proof.
  intros [_ Hcont]. induction 1 as [|col g l G Hg _ IH]; constructor; [|done].
  apply cont_column_inv in Hg as (layers & layer & j & vals & Hl & Hk & _ & _ & Hcall).
  destruct (Hcont _ _ _ Hl Hk) as [i ->]. by eapply cont_embed_shape.
Qed.

Lemma encoder_input_shape self (X : Tensor2 F) (x : Tensor3 F) :
  well_built self →
  encoder_input self X = Ok x →
  shape3 (n_tokens self.(args)) (Z.to_nat self.(args).(input_dim)) x.
Proof.
  intros Hwb. unfold encoder_input, n_tokens.
  destruct (cat_embed self X) as [ce|] eqn:Ece; simpl; [|done].
  apply comprehension_bind_Ok in Ece as (E & HE & Hce).
  destruct (cat1 ce) as [xc|] eqn:Exc; simpl; [|done]. rewrite Hce in Exc.
  assert (Hxc : shape3 (length (embed_input (args self)))
                  (Z.to_nat (input_dim (args self))) xc).
  { rewrite (Forall2_length _ _ _ HE).
    apply cat_tokens_shape; [done|]. by eapply cat_columns_width. }
  destruct (apply_embedding_dropout self xc) as [xd|] eqn:Exd; simpl; [|done].
  assert (Hxd : shape3 (length (embed_input (args self)))
                  (Z.to_nat (input_dim (args self))) xd).
  { unfold apply_embedding_dropout in Exd.
    destruct (negb _); [|by injection Exd as <-].
    destruct (embedding_dropout self) as [d|]; simpl in Exd; [|done].
    injection Exd as <-. by apply dropout_shape. }
  destruct (continuous_cols (args self)) as [cols|];
    [destruct (embed_continuous (args self))|].
  - destruct (cont_embed self X cols) as [cte|] eqn:Ecte; simpl; [|done].
    apply comprehension_bind_Ok in Ecte as (G & HG & Hcte).
    destruct (cat1 cte) as [x_cont|] eqn:Excont; simpl; [|done].
    rewrite Hcte in Excont.
    intros [_ ->]%cat_pair_Ok. apply zip_with_app_shape; [done|].
    rewrite (Forall2_length _ _ _ HG).
    apply cat_tokens_shape; [done|]. by eapply cont_columns_width.
  - intros [= <-]. by rewrite Nat.add_0_r.
  - intros [= <-]. by rewrite Nat.add_0_r.
Qed.

Lemma run_blocks_shape blks i self (x : Tensor3 F) self' x' (t d : nat) :
  run_blocks i blks self x = Ok (self', x') → shape3 t d x → shape3 t d x'.
Proof.
  revert i self x. induction blks as [|[name blk] blks IH]; intros i self x; simpl.
  - by intros [= <- <-].
  - destruct (block_call blk x) as [x1|] eqn:Eb; simpl; [|done].
    destruct (keep_attn_weights (args self)).
    + destruct (attention_weights self) as [aw|]; simpl; [|done].
      destruct (list_setitem aw i _) as [aw1|]; simpl; [|done].
      intros Hrun Hx. eapply IH; [exact Hrun|]. by eapply block_shape.
    + simpl. intros Hrun Hx. eapply IH; [exact Hrun|]. by eapply block_shape.
Qed.

Lemma append_cont_width self (X : Tensor2 F) (p y : Tensor2 F) (w : nat) :
  append_cont self X p = Ok y → width2 w p →
  width2 (w + n_appended self.(args)) y.
Proof.
  unfold append_cont, n_appended.
  destruct (continuous_cols (args self)) as [cols|];
    [destruct (embed_continuous (args self)); simpl|].
  - intros [= <-]. by rewrite Nat.add_0_r.
  - destruct (comprehension _ cols) as [cont_idx|] eqn:Ei; simpl; [|done].
    destruct (getattr _ _) as [norm|]; simpl; [|done].
    destruct (select_cols X cont_idx) as [sel|] eqn:Es; simpl; [|done].
    destruct (norm_call norm _) as [x_cont|] eqn:En; simpl; [|done].
    intros [_ ->]%cat_pair_Ok Hp. apply zip_with_app_width; [done|].
    eapply norm_shape; [exact En|].
    apply select_cols_width in Es. apply comprehension_length in Ei.
    rewrite <- Ei. unfold width2 in *.
    apply Forall_fmap. eapply Forall_impl; [exact Es|].
    intros row Hrow. simpl. by rewrite length_map.
  - intros [= <-]. by rewrite Nat.add_0_r.
Qed.
Lemma set_transformer_blks_well_built blks self :
  well_built self → well_built (set_transformer_blks blks self).
Proof. intros [H1 H2]. split; simpl; eauto. Qed.

(** The width the default resolver computes, as a natural number. *)
Lemma default_width_nat a self :
  self.(args) = a → 0 ≤ a.(input_dim) →
  a.(continuous_cols) ≠ None ∨ a.(with_special_token) = false
    ∨ length a.(embed_input) = 1%nat →
  ∃ w, head (_set_mlp_hidden_dims self) = Some w
    ∧ Z.to_nat w
      = ((if a.(with_special_token) then Z.to_nat a.(input_dim)
          else n_tokens a * Z.to_nat a.(input_dim)) + n_appended a)%nat.
Proof.
  intros Ha Hd Hcase. unfold _set_mlp_hidden_dims, n_tokens, n_appended, len.
  rewrite Ha.
  destruct (continuous_cols a) as [cols|];
    [destruct (with_special_token a), (embed_continuous a)|
     destruct (with_special_token a)];
    simpl; eexists; (split; [done|]); try nia.
  destruct Hcase as [? | [? | ->]]; [done | done | nia].
Qed.

(** X11.  For every combination of the arguments but the special token
    without continuous columns, the default MLP input width is the width
    of the tensor that a forward pass hands to the MLP: for a model
    ([TabTransformer] or [SAINT]) constructed with the default hidden
    dimensions and a non-negative [input_dim], under the shape discipline
    of the modules. *)
Lemma mlp_input_width a allocs self (X : Tensor2 F) self' (y : Tensor2 F) :
  TabTransformer.__init__ a = (allocs, Ok self)
    ∨ SAINT.__init__ a = (allocs, Ok self) →
  not_ a.(mlp_hidden_dims) = true →
  0 ≤ a.(input_dim) →
  a.(continuous_cols) ≠ None ∨ a.(with_special_token) = false
    ∨ length a.(embed_input) = 1%nat →
  mlp_input self X = Ok (self', y) →
  ∃ mlp w,
    self.(transformer_mlp) = Some mlp
    ∧ mlp.(d_hidden) = _set_mlp_hidden_dims self
    ∧ head mlp.(d_hidden) = Some w
    ∧ width2 (Z.to_nat w) y.
Proof.
  intros Hinit Hnot Hd Hcase Hin.
  assert (Hself : self.(args) = a ∧ well_built self
                  ∧ self.(transformer_mlp)
                    = Some (new_mlp a (_set_mlp_hidden_dims self))).
  { assert (Hres : ∀ s : Self W, s.(args) = a →
              resolve_mlp_hidden_dims (assign_args (W:=W) a) = _set_mlp_hidden_dims s).
    { intros s Hs. unfold resolve_mlp_hidden_dims. simpl. rewrite Hnot.
      by apply default_dims_depend_on_args. }
    destruct Hinit as [(_ & _ & ->)%init_Ok_inv | (n_feats & ->)%SAINT_init_Ok_inv].
    - split; [apply built_args|]. split; [apply built_well_built|].
      rewrite built_transformer_mlp, (Hres (built a)); [done | apply built_args].
    - cbn [args transformer_mlp set_transformer_blks].
      split; [apply built_args|].
      split; [apply set_transformer_blks_well_built, built_well_built|].
      rewrite built_transformer_mlp, (Hres (built a)) by apply built_args.
      done. }
  destruct Hself as (Ha & Hwb & Hmlp).
  destruct (mlp_input_inv _ _ _ _ Hin)
    as (x0 & blks & x_enc & pooled & Hx0 & _ & Hrun & Hpool & Hcont).
  destruct (run_blocks_frame _ _ _ _ _ _ Hrun) as (Hargs & _).
  pose proof (encoder_input_shape _ _ _ Hwb Hx0) as Hs0.
  pose proof (run_blocks_shape _ _ _ _ _ _ _ _ Hrun Hs0) as Hs1.
  pose proof (pool_width _ _ _ _ _ Hpool Hs1) as Hw.
  pose proof (append_cont_width _ _ _ _ _ Hcont Hw) as Hy.
  rewrite Hargs, Ha in Hy.
  destruct (default_width_nat a self Ha Hd Hcase) as (w & Hhead & Hw_nat).
  exists (new_mlp a (_set_mlp_hidden_dims self)), w.
  split; [done|]. split; [done|]. split; [done|]. by rewrite Hw_nat.
Qed.
End MlpWidth.

Section ReferenceShapes.
Import TabTransformer Reference.

Lemma comprehension_replicate_width {A : Type} (P : A → Prop) `{∀ a, Decision (P a)}
    (n : nat) (v : A → Z) (e : PyError) (l : list A) (out : Tensor2 Z) :
  comprehension (λ a, if decide (P a) then Ok (replicate n (v a)) else Raise e) l = Ok out →
  width2 n out.
Proof.
  intros Hc%comprehension_Forall2. unfold width2.
  induction Hc as [|a row l out Hrow _ IH]; constructor; [|done].
  case_decide; [|done]. injection Hrow as <-. apply length_replicate.
Qed.

(** The reference runtime follows the shape discipline. *)
Lemma ref_shape_laws : ShapeLaws ref_runtime.
Proof.
  split; simpl.
  - intros m idx e. unfold ref_cat_embed_call. apply comprehension_replicate_width.
  - done.
  - intros i o x e. unfold ref_cont_embed_call. apply comprehension_replicate_width.
  - by intros blk x x' t w [= <-].
  - by intros n x y w [= <-].
Qed.

(** The docstring example: four categorical columns at width 4 and one
    un-embedded continuous column give an MLP input of width
    [4 * 4 + 1 = 17], which is the first default hidden dimension. *)
Lemma mlp_input_width_example :
  ∃ (self' : Self (nat * nat)) (y : Tensor2 Z) mlp,
    mlp_input (rt:=ref_runtime) (built example_args) example_X = Ok (self', y)
    ∧ (built (W:=nat * nat) example_args).(transformer_mlp) = Some mlp
    ∧ head mlp.(d_hidden) = Some 17
    ∧ width2 17 y.
Proof.
  destruct (mlp_input (rt:=ref_runtime) (built example_args) example_X)
    as [[self' y]|] eqn:E; [|vm_compute in E; discriminate].
  destruct (mlp_input_width (laws:=ref_shape_laws) example_args
              (built_allocs (W:=nat * nat) example_args) (built example_args)
              example_X self' y) as (mlp & w & Hmlp & Hdims & Hw & Hy); try done.
  - left. vm_compute; reflexivity.
  - left. discriminate.
  - exists self', y, mlp. split; [done|]. split; [done|].
    rewrite built_transformer_mlp in Hmlp. injection Hmlp as <-.
    vm_compute in Hw. injection Hw as <-. done.
Defined.
(** C1 at the combination that [mlp_input_width] leaves out, data
    pre-processed with the special token and no continuous column
    ([embed_input] holds the reserved column and the column [a], model
    width 4): the default resolver answers [2 * 4 = 8] for the MLP input
    width, the forward pass hands the MLP the first token only, a tensor of
    width [4], and the call of the MLP fails on the shapes. *)
Theorem mlp_width_special_token_without_continuous_cols :
  ∃ (self self' : Self (nat * nat)) (x : Tensor2 Z),
    TabTransformer.__init__ cls_args = (built_allocs (W:=nat * nat) cls_args, Ok self)
    ∧ head (_set_mlp_hidden_dims self) = Some 8
    ∧ d_hidden <$> self.(transformer_mlp) = Some [8; 32; 16]
    ∧ mlp_input (rt:=ref_runtime) self cls_X = Ok (self', x)
    ∧ x = [[1; 1; 1; 1]; [1; 1; 1; 1]]
    ∧ width2 4 x
    ∧ forward (rt:=ref_runtime) self cls_X
      = Raise (RuntimeError "mat1 and mat2 shapes cannot be multiplied").
Proof.
  exists (built cls_args).
  eexists. eexists.
  split; [vm_compute; reflexivity|].
  split; [reflexivity|]. split; [reflexivity|].
  split; [vm_compute; reflexivity|].
  split; [reflexivity|].
  split; [repeat constructor|].
  vm_compute; reflexivity.
Qed.
End ReferenceShapes.

(** ** Pooling *)

Section Pooling.
Import TabTransformer.
Context {F W : Type} {rt : Runtime F W}.
Implicit Types (self : Self W).

(** C7.  In every forward pass that reaches the MLP, the pooled encoder
    output is, sample by sample, the first token of the encoder output
    when [with_special_token] is true, and the concatenation of all its
    tokens otherwise.  For an encoder output of [t] tokens of width [d]
    its rows have width [d], respectively [t * d]; when the modules keep to
    their shapes these are the model width, respectively the token count
    times the model width. *)
Theorem forward_pooling self (X : Tensor2 F) self' y :
  mlp_input self X = Ok (self', y) →
  ∃ x_enc pooled,
    (∃ x0 blks, encoder_input self X = Ok x0
                ∧ self.(transformer_blks) = Some blks
                ∧ run_blocks 0 blks self x0 = Ok (self', x_enc))
    ∧ append_cont self' X pooled = Ok y
    ∧ (if self.(args).(with_special_token)
       then Forall2 (λ sample p, head sample = Some p) x_enc pooled
       else Forall2 (λ sample p, p = concat sample) x_enc pooled)
    ∧ (∀ t d, shape3 t d x_enc →
         width2 (if self.(args).(with_special_token) then d else (t * d)%nat) pooled)
    ∧ (ShapeLaws rt → well_built self →
       width2 (if self.(args).(with_special_token)
               then Z.to_nat self.(args).(input_dim)
               else (n_tokens self.(args) * Z.to_nat self.(args).(input_dim))%nat)
         pooled).
Proof.
  intros (x0 & blks & x_enc & pooled & Hx0 & Hblks & Hrun & Hpool & Hcont)%mlp_input_inv.
  exists x_enc, pooled. split; [by eexists _, _|]. split; [done|].
  destruct (run_blocks_frame _ _ _ _ _ _ Hrun) as (Hargs & _).
  split; [|split].
  - unfold pool in Hpool. rewrite Hargs in Hpool.
    destruct (with_special_token (args self)).
    + by apply first_token_Ok in Hpool.
    + injection Hpool as <-. unfold flatten1. clear.
      induction x_enc; constructor; done.
  - intros t d Hshape. rewrite <- Hargs. by eapply pool_width.
  - intros Hlaws Hwb. rewrite <- Hargs at 1.
    eapply pool_width; [exact Hpool|].
    eapply run_blocks_shape; [exact Hrun|]. by eapply encoder_input_shape.
Qed.
End Pooling.

Section PoolingExamples.
Import TabTransformer Reference.

Lemma forward_pooling_example :
  mlp_input (rt:=ref_runtime) (built cls_args) cls_X
    = Ok (cls_example_after, [[1; 1; 1; 1]; [1; 1; 1; 1]])
  ∧ ∃ x_enc pooled,
      append_cont (rt:=ref_runtime) cls_example_after cls_X pooled
        = Ok [[1; 1; 1; 1]; [1; 1; 1; 1]]
      ∧ Forall2 (λ sample p, head sample = Some p) x_enc pooled
      ∧ (∀ t d, shape3 t d x_enc → width2 d pooled)
      ∧ width2 4 pooled.
Proof.
  split; [vm_compute; reflexivity|].
  destruct (forward_pooling (rt:=ref_runtime) (built cls_args) cls_X
              cls_example_after [[1; 1; 1; 1]; [1; 1; 1; 1]])
    as (x_enc & pooled & _ & H1 & H2 & H3 & H4).
  - vm_compute; reflexivity.
  - exists x_enc, pooled. repeat split; try assumption.
    apply (H4 ref_shape_laws (built_well_built cls_args)).
Defined.
End PoolingExamples.

(** ** Further properties of the constructors *)

Section ConstructedAttributes.
Import TabTransformer.
Context {W : Type}.
Implicit Types (a : Args) (self : Self W).

(** Either constructor returns the [TabTransformer] instance, up to the
    encoder blocks. *)
Lemma constructed_inv a allocs self :
  TabTransformer.__init__ a = (allocs, Ok self)
    ∨ SAINT.__init__ a = (allocs, Ok self) →
  ∃ blks, self = set_transformer_blks blks (built a).
Proof.
  intros [(_ & _ & ->)%init_Ok_inv | (n_feats & ->)%SAINT_init_Ok_inv].
  - exists (add_blocks a.(n_blocks) (TransformerEncoder (encoder_args a))).
    unfold built. by destruct (keep_attn_weights a).
  - by eexists.
Qed.

Lemma constructed_allocs_inv a allocs self :
  TabTransformer.__init__ a = (allocs, Ok self)
    ∨ SAINT.__init__ a = (allocs, Ok self) →
  ∃ blks extra,
    self = set_transformer_blks blks (built a)
    ∧ allocs = built_allocs (W:=W) a ++ alloc_blocks extra.
Proof.
  intros [(_ & -> & ->)%init_Ok_inv | Hs].
  - exists (add_blocks a.(n_blocks) (TransformerEncoder (encoder_args a))), [].
    split; [|by rewrite app_nil_r].
    unfold built. by destruct (keep_attn_weights a).
  - revert Hs. unfold SAINT.__init__. rewrite init_unfold.
    destruct (_ && _); [done|].
    destruct (embed_continuous a); [destruct (continuous_cols a); [|done]|];
      intros [= <- <-]; by eexists _, _.
Qed.

Lemma _set_cont_cols_cont_norm self :
  (_set_cont_cols self).1.(cont_norm)
  = match self.(args).(continuous_cols) with
    | None => self.(cont_norm)
    | Some cols =>
        if String.eqb self.(args).(cont_norm_layer) "layernorm"
        then Some (LayerNorm (len cols))
        else if String.eqb self.(args).(cont_norm_layer) "batchnorm"
             then Some (BatchNorm1d (len cols))
             else self.(cont_norm)
    end.
Proof.
  unfold _set_cont_cols.
  destruct (continuous_cols (args self)) as [cols|]; [|done].
  destruct (String.eqb (cont_norm_layer (args self)) "layernorm"),
    (String.eqb (cont_norm_layer (args self)) "batchnorm"),
    (embed_continuous (args self)); reflexivity.
Qed.

Lemma _set_cont_cols_embedding_dropout self :
  (_set_cont_cols self).1.(embedding_dropout) = self.(embedding_dropout).
Proof.
  unfold _set_cont_cols.
  destruct (continuous_cols (args self)) as [cols|]; [|done].
  destruct (String.eqb (cont_norm_layer (args self)) "layernorm"),
    (String.eqb (cont_norm_layer (args self)) "batchnorm"),
    (embed_continuous (args self)); reflexivity.
Qed.

Lemma built_cont_norm a :
  (built (W:=W) a).(cont_norm)
  = match a.(continuous_cols) with
    | None => None
    | Some cols =>
        if String.eqb a.(cont_norm_layer) "layernorm"
        then Some (LayerNorm (len cols))
        else if String.eqb a.(cont_norm_layer) "batchnorm"
             then Some (BatchNorm1d (len cols))
             else None
    end.
Proof.
  unfold built.
  destruct (keep_attn_weights a);
    cbn [cont_norm set_output_dim set_transformer_mlp set_attention_weights
         set_transformer_blks];
    rewrite _set_cont_cols_cont_norm, _set_categ_embeddings_args;
    unfold _set_categ_embeddings; simpl;
    by destruct (shared_embed a), (full_embed_dropout a).
Qed.

Lemma built_embedding_dropout a :
  (built (W:=W) a).(embedding_dropout)
  = if a.(shared_embed) then None
    else Some (if a.(full_embed_dropout)
               then FullEmbeddingDropout a.(embed_dropout)
               else nn_Dropout a.(embed_dropout)).
Proof.
  unfold built.
  destruct (keep_attn_weights a);
    cbn [embedding_dropout set_output_dim set_transformer_mlp set_attention_weights
         set_transformer_blks];
    rewrite _set_cont_cols_embedding_dropout;
    unfold _set_categ_embeddings; simpl;
    by destruct (shared_embed a), (full_embed_dropout a).
Qed.

Lemma default_dims_three self :
  ∃ w, _set_mlp_hidden_dims self = [w; w * 4; w * 2].
Proof.
  unfold _set_mlp_hidden_dims. repeat case_match; by eexists.
Qed.

(** X1.  [output_dim] of a constructed model ([TabTransformer] or
    [SAINT]) is the last of the hidden dimensions handed to the MLP, so
    line 215 never raises: for a non-empty [mlp_hidden_dims] argument it
    is the last element of the argument, and when the default rules apply
    (the argument is [None] or the empty list) it is twice the MLP input
    width that the rules computed. *)
Theorem init_output_dim a allocs self :
  TabTransformer.__init__ a = (allocs, Ok self)
    ∨ SAINT.__init__ a = (allocs, Ok self) →
  ∃ mlp out,
    self.(transformer_mlp) = Some mlp
    ∧ self.(output_dim) = Some out
    ∧ last mlp.(d_hidden) = Some out
    ∧ (∀ dims, a.(mlp_hidden_dims) = Some dims → dims ≠ [] → last dims = Some out)
    ∧ (not_ a.(mlp_hidden_dims) = true →
       ∃ w, head mlp.(d_hidden) = Some w ∧ out = 2 * w).
Proof.
  intros (blks & ->)%constructed_inv.
  set (dims := resolve_mlp_hidden_dims (assign_args (W:=W) a)).
  destruct (list_getitem_last dims) as (out & _ & Hlast);
    [apply resolved_dims_nonempty|].
  exists (new_mlp a dims), out.
  split; [done|]. split; [by simpl; fold dims; rewrite Hlast|].
  split; [done|]. split.
  - intros ds Hds Hne. subst dims. unfold resolve_mlp_hidden_dims in Hlast.
    simpl in Hlast. rewrite Hds in Hlast. by destruct ds.
  - intros Hnot. subst dims. unfold resolve_mlp_hidden_dims in *.
    simpl in *. rewrite Hnot in *.
    destruct (default_dims_three (assign_args (W:=W) a)) as (w & Hw).
    rewrite Hw in *. exists w. split; [done|]. simpl in Hlast.
    injection Hlast as <-. lia.
Qed.
End ConstructedAttributes.

(** ** Further properties of the forward pass *)

Section PyBounds.
Context {A B : Type}.

Lemma list_getitem_Ok_range (l : list A) (i : Z) (a : A) :
  list_getitem l i = Ok a → - len l ≤ i < len l.
Proof.
  unfold list_getitem, norm_index, len.
  repeat case_decide; simpl; [lia | lia | done].
Qed.

Lemma comprehension_Ok_Forall (f : A → result B) (l : list A) (k : list B) :
  comprehension f l = Ok k → Forall (λ a, ∃ b, f a = Ok b) l.
Proof.
  intros H%comprehension_Forall2.
  induction H; constructor; eauto.
Qed.

Lemma comprehension_Raise_elem (f : A → result B) (l : list A) (e : PyError) :
  comprehension f l = Raise e → ∃ a, a ∈ l ∧ f a = Raise e.
Proof.
  induction l as [|a l IH]; simpl; [done|].
  destruct (f a) as [b|e'] eqn:Ea; simpl.
  - destruct (comprehension f l) as [bs|e'] eqn:El; simpl; [done|].
    intros [= ->]. destruct (IH eq_refl) as (a' & Ha' & Hf).
    exists a'. split; [by right | done].
  - intros [= ->]. exists a. split; [by left | done].
Qed.
End PyBounds.

Section ColumnBounds.
Context {F : Type}.

Lemma select_col_Ok_range (X : Tensor2 F) (j : Z) (c : Tensor1 F) :
  select_col X j = Ok c → Forall (λ row, - len row ≤ j < len row) X.
Proof.
  intros H%comprehension_Ok_Forall.
  eapply Forall_impl; [exact H|]. simpl.
  intros row [a Ha]. by eapply list_getitem_Ok_range.
Qed.

Lemma select_cols_Ok_range (X : Tensor2 F) (idx : list Z) (sel : Tensor2 F) (j : Z) :
  select_cols X idx = Ok sel → j ∈ idx →
  Forall (λ row, - len row ≤ j < len row) X.
Proof.
  intros H%comprehension_Ok_Forall Hj.
  eapply Forall_impl; [exact H|]. simpl.
  intros row [r Hr]. apply comprehension_Ok_Forall in Hr.
  rewrite Forall_forall in Hr. destruct (Hr j Hj) as [a Ha].
  by eapply list_getitem_Ok_range.
Qed.
End ColumnBounds.

Section ForwardEdges.
Import TabTransformer.
Context {F W : Type} {rt : Runtime F W}.
Implicit Types (a : Args) (self : Self W) (X : Tensor2 F).

Lemma run_blocks_no_retention blks i self (x : Tensor3 F) self' x' :
  self.(args).(keep_attn_weights) = false →
  run_blocks i blks self x = Ok (self', x') → self' = self.
Proof.
  intros Hkeep. revert i x.
  induction blks as [|[name blk] blks IH]; intros i x; simpl.
  - by intros [= <- <-].
  - destruct (block_call blk x) as [x1|]; simpl; [|done].
    rewrite Hkeep. simpl. apply IH.
Qed.

(** X7.  A forward pass that returns assigns to no attribute of the
    instance other than the entries of [attention_weights]; with
    [keep_attn_weights=False] it leaves the instance as it was.  (The
    internal state of the modules it calls is not part of the
    instance.) *)
Theorem forward_frame self X self' out :
  forward self X = Ok (self', out) →
  self'.(args) = self.(args)
  ∧ self'.(cat_embed_layers) = self.(cat_embed_layers)
  ∧ self'.(embedding_dropout) = self.(embedding_dropout)
  ∧ self'.(cont_norm) = self.(cont_norm)
  ∧ self'.(cont_embed_layers) = self.(cont_embed_layers)
  ∧ self'.(transformer_blks) = self.(transformer_blks)
  ∧ self'.(transformer_mlp) = self.(transformer_mlp)
  ∧ self'.(output_dim) = self.(output_dim)
  ∧ (self.(args).(keep_attn_weights) = false → self' = self).
Proof.
  intros (y & mlp & Hin & _ & _)%forward_inv.
  apply mlp_input_inv in Hin as (x0 & blks & x_enc & pooled & _ & _ & Hrun & _ & _).
  destruct (run_blocks_frame _ _ _ _ _ _ Hrun) as (H1 & H2 & H3 & H4 & H5 & H6 & H7 & H8).
  repeat (split; [done|]).
  intros Hkeep. by eapply run_blocks_no_retention.
Qed.

Lemma cat_embed_Ok_columns self X ts col :
  cat_embed self X = Ok ts → col ∈ self.(args).(embed_input).*1 →
  ∃ j, self.(args).(column_idx) !! col = Some j
       ∧ Forall (λ row, - len row ≤ j < len row) X.
Proof.
  intros (E & HE & _)%comprehension_bind_Ok Hcol.
  apply list_elem_of_fmap in Hcol as (cv & -> & Hcv).
  apply list_elem_of_lookup in Hcv as [i Hi].
  destruct (Forall2_lookup_l _ _ _ _ _ HE Hi) as (e & _ & Hcall).
  apply cat_column_inv in Hcall as (_ & _ & j & codes & _ & _ & Hj & Hcodes & _).
  exists j. split; [done|]. by eapply select_col_Ok_range.
Qed.

Lemma cont_embed_Ok_columns self X cols ts col :
  cont_embed self X cols = Ok ts → col ∈ cols →
  ∃ j, self.(args).(column_idx) !! col = Some j
       ∧ Forall (λ row, - len row ≤ j < len row) X.
Proof.
  intros (E & HE & _)%comprehension_bind_Ok Hcol.
  apply list_elem_of_lookup in Hcol as [i Hi].
  destruct (Forall2_lookup_l _ _ _ _ _ HE Hi) as (e & _ & Hcall).
  apply cont_column_inv in Hcall as (_ & _ & j & vals & _ & _ & Hj & Hvals & _).
  exists j. split; [done|]. by eapply select_col_Ok_range.
Qed.

Lemma encoder_input_inv self X x :
  encoder_input self X = Ok x →
  ∃ ce xc xd,
    cat_embed self X = Ok ce ∧ cat1 ce = Ok xc
    ∧ apply_embedding_dropout self xc = Ok xd
    ∧ match self.(args).(continuous_cols) with
      | Some cols =>
          if self.(args).(embed_continuous)
          then ∃ cte x_cont, cont_embed self X cols = Ok cte
                 ∧ cat1 cte = Ok x_cont ∧ cat1 [xd; x_cont] = Ok x
          else x = xd
      | None => x = xd
      end.
Proof.
  unfold encoder_input.
  destruct (cat_embed self X) as [ce|] eqn:Ece; simpl; [|done].
  destruct (cat1 ce) as [xc|] eqn:Exc; simpl; [|done].
  destruct (apply_embedding_dropout self xc) as [xd|] eqn:Exd; simpl; [|done].
  intros H. exists ce, xc, xd. repeat (split; [done|]).
  destruct (continuous_cols (args self)) as [cols|]; [|by injection H].
  destruct (embed_continuous (args self)); [|by injection H].
  destruct (cont_embed self X cols) as [cte|]; simpl in H; [|done].
  destruct (cat1 cte) as [x_cont|] eqn:Ecc; simpl in H; [|done].
  by eexists _, _.
Qed.

(** X8.  What a forward pass that returns has required of its input:
    [embed_input] is not empty, the list of embedded continuous columns is
    not empty, and every categorical and every continuous column of the
    model is a key of [column_idx] whose position is a valid (possibly
    negative) index into every row of the batch.  Otherwise [forward]
    raises. *)
Theorem forward_reads_columns self X self' out :
  forward self X = Ok (self', out) →
  self.(args).(embed_input) ≠ []
  ∧ (self.(args).(embed_continuous) = true → self.(args).(continuous_cols) ≠ Some [])
  ∧ ∀ col,
      col ∈ self.(args).(embed_input).*1
        ∨ col ∈ default [] self.(args).(continuous_cols) →
      ∃ j, self.(args).(column_idx) !! col = Some j
           ∧ Forall (λ row, - len row ≤ j < len row) X.
Proof.
  intros (y & mlp & Hin & _ & _)%forward_inv.
  apply mlp_input_inv in Hin
    as (x0 & blks & x_enc & pooled & Henc & _ & Hrun & _ & Happ).
  destruct (run_blocks_frame _ _ _ _ _ _ Hrun) as (Hargs & _).
  apply encoder_input_inv in Henc as (ce & xc & xd & Hce & Hxc & _ & Hcont).
  split; [|split].
  - intros Hnil. unfold cat_embed in Hce. rewrite Hnil in Hce.
    injection Hce as <-. done.
  - intros Hec Hcols. rewrite Hec, Hcols in Hcont.
    destruct Hcont as (cte & x_cont & Hcte & Hcat & _).
    injection Hcte as <-. done.
  - intros col [Hcol | Hcol]; [by eapply cat_embed_Ok_columns|].
    destruct (continuous_cols (args self)) as [cols|] eqn:Ecols;
      [|by apply elem_of_nil in Hcol].
    simpl in Hcol.
    destruct (embed_continuous (args self)) eqn:Eec.
    + destruct Hcont as (cte & x_cont & Hcte & _).
      by eapply cont_embed_Ok_columns.
    + unfold append_cont in Happ. rewrite Hargs, Ecols, Eec in Happ. simpl in Happ.
      destruct (comprehension _ cols) as [cont_idx|] eqn:Eidx; simpl in Happ; [|done].
      destruct (getattr _ _) as [norm|]; simpl in Happ; [|done].
      destruct (select_cols X cont_idx) as [sel|] eqn:Esel; simpl in Happ; [|done].
      apply comprehension_Forall2 in Eidx.
      apply list_elem_of_lookup in Hcol as [i Hi].
      destruct (Forall2_lookup_l _ _ _ _ _ Eidx Hi) as (j & Hj & Hget).
      exists j. split.
      * unfold getitem in Hget. by destruct (_ !! col); simplify_eq.
      * eapply select_cols_Ok_range; [done|]. apply list_elem_of_lookup. eauto.
Qed.

(** X9.  A model without categorical columns cannot run: the constructor
    accepts an empty [embed_input], and every forward pass of the model it
    returns raises the [RuntimeError] of [torch.cat] on the empty list of
    categorical tokens (line 225), whatever the continuous columns
    are. *)
Theorem forward_without_categorical_columns a X :
  a.(embed_input) = [] → ¬ special_token_mismatch a →
  ∃ self msg,
    TabTransformer.__init__ a = (built_allocs (W:=W) a, Ok self)
    ∧ forward self X = Raise (RuntimeError msg).
Proof.
  intros Hnil Hok. exists (built a). eexists. split.
  - rewrite init_unfold. destruct (_ && _) eqn:E; [|done].
    by apply special_token_mismatch_decide in E.
  - unfold forward, mlp_input, encoder_input, cat_embed.
    rewrite built_args, Hnil. reflexivity.
Qed.

(** X2.  The dropout step of the forward pass (lines 226-227) on a
    constructed model never raises: with [shared_embed] the model has no
    [embedding_dropout] attribute and the tokens pass unchanged, otherwise
    the tokens go through the [FullEmbeddingDropout] (if
    [full_embed_dropout]) or the [nn.Dropout] built with [embed_dropout].
    The attribute is missing exactly when [shared_embed] is set. *)
Theorem constructed_embedding_dropout a allocs self (x : Tensor3 F) :
  TabTransformer.__init__ a = (allocs, Ok self)
    ∨ SAINT.__init__ a = (allocs, Ok self) →
  apply_embedding_dropout self x
  = Ok (if a.(shared_embed) then x
        else dropout_call
               (if a.(full_embed_dropout)
                then FullEmbeddingDropout a.(embed_dropout)
                else nn_Dropout a.(embed_dropout)) x)
  ∧ (self.(embedding_dropout) = None ↔ a.(shared_embed) = true).
Proof.
  intros (blks & ->)%constructed_inv.
  unfold apply_embedding_dropout.
  cbn [args embedding_dropout set_transformer_blks].
  rewrite built_args, built_embedding_dropout.
  by destruct (shared_embed a).
Qed.

(** X5.  [_set_cont_cols] has no [else] branch for the name of the
    normalisation layer: with continuous columns and a [cont_norm_layer]
    other than ["layernorm"] and ["batchnorm"] the constructor succeeds
    and leaves the [cont_norm] attribute unset.  If the continuous columns
    are not embedded, no forward pass of that model succeeds, and lines
    255-258 raise [AttributeError] once the positions of the continuous
    columns have been found in [column_idx]. *)
Theorem init_unknown_cont_norm_layer a allocs self cols :
  TabTransformer.__init__ a = (allocs, Ok self)
    ∨ SAINT.__init__ a = (allocs, Ok self) →
  a.(continuous_cols) = Some cols →
  a.(cont_norm_layer) ≠ "layernorm" → a.(cont_norm_layer) ≠ "batchnorm" →
  self.(cont_norm) = None
  ∧ (a.(embed_continuous) = false →
     ∀ X, is_ok (forward self X) = false
          ∧ ∀ p, Forall (λ col, is_Some (a.(column_idx) !! col)) cols →
                 append_cont self X p = Raise (AttributeError "cont_norm")).
Proof.
  intros (blks & ->)%constructed_inv Hcols Hl Hb.
  apply String.eqb_neq in Hl, Hb.
  assert (Hnorm : (set_transformer_blks blks (built (W:=W) a)).(cont_norm) = None).
  { cbn [cont_norm set_transformer_blks].
    by rewrite built_cont_norm, Hcols, Hl, Hb. }
  split; [done|]. intros Hec X. split.
  - destruct (forward _ X) as [[self' out]|] eqn:Ef; [|done]. exfalso.
    apply forward_inv in Ef as (y & mlp & Hin & _ & _).
    apply mlp_input_inv in Hin
      as (x0 & blks' & x_enc & pooled & _ & _ & Hrun & _ & Happ).
    destruct (run_blocks_frame _ _ _ _ _ _ Hrun) as (Hargs & _ & _ & Hn & _).
    unfold append_cont in Happ. rewrite Hargs, Hn, Hnorm in Happ.
    cbn [args set_transformer_blks] in Happ.
    rewrite built_args, Hcols, Hec in Happ. simpl in Happ.
    by destruct (comprehension _ cols).
  - intros p Hkeys. unfold append_cont. rewrite Hnorm.
    cbn [args set_transformer_blks]. rewrite built_args, Hcols, Hec. simpl.
    assert (∃ idx, comprehension (getitem (column_idx a)) cols = Ok idx) as [idx ->];
      [|done].
    clear -Hkeys. induction Hkeys as [|col cols [j Hj] _ [idx IH]]; [by eexists|].
    cbn [comprehension]. rewrite IH. unfold getitem. rewrite Hj. by eexists.
Qed.
End ForwardEdges.

Section DuplicateColumns.
Import TabTransformer.
Context {W : Type}.
Implicit Types (a : Args) (self : Self W).

Lemma dict_comprehension_lookup_last {A V : Type} (key : A → string) (val : A → V)
    (l1 l2 : list A) (x : A) :
  key x ∉ key <$> l2 →
  dict_comprehension key val (l1 ++ x :: l2) !! key x = Some (val x).
Proof.
  intros Hx. unfold dict_comprehension. rewrite foldl_app. simpl.
  rewrite dict_comprehension_foldl_notin by done. apply lookup_insert_eq.
Qed.

(** X3.  When a column name occurs more than once in [embed_input], the
    dictionary comprehension of [_set_categ_embeddings] keeps the module
    of its last occurrence: the table of the column has that
    occurrence's cardinality + 1 rows, a module was nevertheless
    allocated for every occurrence, and the forward pass calls the kept
    module for every occurrence of the column, on the codes read at
    [column_idx[col]]. *)
Theorem cat_embedding_last_entry_wins a allocs self l1 l2 (col : string) (val : Z) :
  TabTransformer.__init__ a = (allocs, Ok self)
    ∨ SAINT.__init__ a = (allocs, Ok self) →
  a.(embed_input) = l1 ++ (col, val) :: l2 → col ∉ l2.*1 →
  ∃ layers,
    self.(cat_embed_layers) = Some layers
    ∧ layers !! ("emb_layer_" +:+ col) = Some (new_cat_embed a val)
    ∧ (∀ val', (col, val') ∈ a.(embed_input) →
         AllocCatEmbed ("emb_layer_" +:+ col) (new_cat_embed a val') ∈ allocs)
    ∧ ∀ (F : Type) (rt : Runtime F W) (X : Tensor2 F) (ts : list (Tensor3 F)),
        cat_embed self X = Ok ts →
        ∃ E, ts = unsqueeze1 <$> E
          ∧ ∀ i val', a.(embed_input) !! i = Some (col, val') →
              ∃ j codes e,
                a.(column_idx) !! col = Some j
                ∧ select_col X j = Ok codes
                ∧ cat_embed_call (new_cat_embed a val) (long <$> codes) = Ok e
                ∧ E !! i = Some e.
Proof.
  intros (blks & extra & -> & ->)%constructed_allocs_inv Hinput Hcol.
  assert (Hl : dict_comprehension (λ cv : string * Z, "emb_layer_" +:+ cv.1)
                 (λ cv, new_cat_embed a cv.2) a.(embed_input)
                 !! ("emb_layer_" +:+ col) = Some (new_cat_embed a val)).
  { rewrite Hinput.
    apply (dict_comprehension_lookup_last (λ cv : string * Z, "emb_layer_" +:+ cv.1)
             (λ cv, new_cat_embed a cv.2) l1 l2 (col, val)).
    simpl. intros (cv & Hkey & Hcv)%list_elem_of_fmap.
    apply emb_layer_key_inj in Hkey. apply Hcol.
    apply list_elem_of_fmap. eauto. }
  eexists. split; [cbn [cat_embed_layers set_transformer_blks];
                   apply built_cat_embed_layers|].
  split; [done|]. split.
  - intros val' Hin. apply elem_of_app. left.
    apply (built_allocs_cat_embed a (col, val') Hin).
  - intros F rt X ts Hts. unfold cat_embed in Hts.
    cbn [args set_transformer_blks] in Hts. rewrite built_args in Hts.
    apply comprehension_bind_Ok in Hts as (E & HE & ->).
    exists E. split; [done|]. intros i val' Hi.
    destruct (Forall2_lookup_l _ _ _ _ _ HE Hi) as (e & He & Hcall).
    apply cat_column_inv in Hcall
      as (layers & layer & j & codes & Hlayers & Hlayer & Hj & Hcodes & Hcall).
    cbn [cat_embed_layers args set_transformer_blks] in Hlayers, Hj.
    rewrite built_cat_embed_layers in Hlayers. injection Hlayers as <-.
    simpl in Hlayer. rewrite Hl in Hlayer. injection Hlayer as <-.
    rewrite built_args in Hj. by exists j, codes, e.
Qed.
End DuplicateColumns.

Section ContinuousEmbeddings.
Import TabTransformer.
Context {W : Type}.
Implicit Types (a : Args) (self : Self W).

Lemma dict_comprehension_foldl_is_Some {A V : Type} (key : A → string) (val : A → V)
    (l : list A) (d : gmap string V) (k : string) :
  k ∈ key <$> l ∨ is_Some (d !! k) →
  is_Some (foldl (λ d x, <[key x := val x]> d) d l !! k).
Proof.
  revert d. induction l as [|b l IH]; intros d; cbn [foldl].
  - intros [H | H]; [by apply elem_of_nil in H | done].
  - intros [H | H]; apply IH.
    + rewrite fmap_cons in H. apply elem_of_cons in H as [-> | H]; [right | by left].
      rewrite lookup_insert_eq. by eexists.
    + right. destruct (decide (key b = k)) as [-> | Hne].
      * rewrite lookup_insert_eq. by eexists.
      * by rewrite lookup_insert_ne.
Qed.

Lemma _set_cont_cols_cont_embed_layers self cols :
  self.(args).(continuous_cols) = Some cols →
  self.(args).(embed_continuous) = true →
  (_set_cont_cols self).1.(cont_embed_layers)
  = Some (dict_comprehension (λ col, "emb_layer_" +:+ col)
            (λ _, Linear_ReLU 1 self.(args).(input_dim)) cols).
Proof.
  intros Hc He. unfold _set_cont_cols. rewrite Hc, He.
  destruct (String.eqb (cont_norm_layer (args self)) "layernorm"),
    (String.eqb (cont_norm_layer (args self)) "batchnorm"); reflexivity.
Qed.

Lemma built_cont_embed_layers a cols :
  a.(continuous_cols) = Some cols → a.(embed_continuous) = true →
  (built (W:=W) a).(cont_embed_layers)
  = Some (dict_comprehension (λ col, "emb_layer_" +:+ col)
            (λ _, Linear_ReLU 1 a.(input_dim)) cols).
Proof.
  intros Hc He. unfold built.
  destruct (keep_attn_weights a);
    cbn [cont_embed_layers set_output_dim set_transformer_mlp set_attention_weights
         set_transformer_blks];
    rewrite (_set_cont_cols_cont_embed_layers _ cols);
    rewrite ?_set_categ_embeddings_args; done.
Qed.

(** X4.  With [embed_continuous=True], every continuous column of a
    constructed model has the embedding module
    [nn.Sequential(nn.Linear(1, input_dim), nn.ReLU())] under the key
    ["emb_layer_" + col] (also when the column is listed more than once),
    and the forward pass calls it on the column read at
    [column_idx[col]], converted to floating point and reshaped to
    [(B, 1)]; the result, unsqueezed, is the tensor at the column's
    position in the list of continuous tokens. *)
Theorem cont_embedding_layers a allocs self cols (col : string) :
  TabTransformer.__init__ a = (allocs, Ok self)
    ∨ SAINT.__init__ a = (allocs, Ok self) →
  a.(continuous_cols) = Some cols → a.(embed_continuous) = true →
  col ∈ cols →
  ∃ layers,
    self.(cont_embed_layers) = Some layers
    ∧ layers !! ("emb_layer_" +:+ col) = Some (Linear_ReLU 1 a.(input_dim))
    ∧ ∀ (F : Type) (rt : Runtime F W) (X : Tensor2 F) (i : nat) (ts : list (Tensor3 F)),
        cont_embed self X cols = Ok ts → cols !! i = Some col →
        ∃ j vals e,
          a.(column_idx) !! col = Some j
          ∧ select_col X j = Ok vals
          ∧ cont_embed_call (Linear_ReLU 1 a.(input_dim))
              ((λ v, [float v]) <$> vals) = Ok e
          ∧ ts !! i = Some (unsqueeze1 e).
Proof.
  intros (blks & ->)%constructed_inv Hc He Hcol.
  set (layers := dict_comprehension (λ col, "emb_layer_" +:+ col)
                   (λ _, Linear_ReLU 1 a.(input_dim)) cols).
  assert (Hl : layers !! ("emb_layer_" +:+ col) = Some (Linear_ReLU 1 a.(input_dim))).
  { destruct (dict_comprehension_foldl_is_Some (λ col, "emb_layer_" +:+ col)
                (λ _, Linear_ReLU 1 a.(input_dim)) cols ∅ ("emb_layer_" +:+ col))
      as [m Hm].
    { left. apply list_elem_of_fmap. eauto. }
    fold (dict_comprehension (λ col, "emb_layer_" +:+ col)
            (λ _ : string, Linear_ReLU 1 a.(input_dim)) cols) in Hm.
    fold layers in Hm. rewrite Hm. f_equal.
    by apply (dict_comprehension_values (λ col, "emb_layer_" +:+ col)
                (λ _ : string, Linear_ReLU 1 a.(input_dim))
                (λ m, m = Linear_ReLU 1 a.(input_dim)) cols
                ltac:(done) _ _ Hm). }
  exists layers. split.
  { cbn [cont_embed_layers set_transformer_blks]. by apply built_cont_embed_layers. }
  split; [done|].
  intros F rt X i ts Hts Hi.
  apply comprehension_bind_Ok in Hts as (E & HE & ->).
  destruct (Forall2_lookup_l _ _ _ _ _ HE Hi) as (e & He' & Hcall).
  apply cont_column_inv in Hcall
    as (layers' & layer & j & vals & Hlayers & Hlayer & Hj & Hvals & Hcall).
  cbn [cont_embed_layers args set_transformer_blks] in Hlayers, Hj.
  rewrite (built_cont_embed_layers a cols Hc He) in Hlayers. injection Hlayers as <-.
  fold layers in Hlayer. rewrite Hl in Hlayer. injection Hlayer as <-.
  rewrite built_args in Hj.
  exists j, vals, e. split; [done|]. split; [done|]. split.
  - unfold unsqueeze1 in Hcall. by rewrite <- list_fmap_compose in Hcall.
  - by rewrite list_lookup_fmap, He'.
Qed.
End ContinuousEmbeddings.

Section SaintChains.
Import TabTransformer.
Context {W : Type}.
Implicit Types (a : Args) (self : Self W).

Lemma _set_categ_embeddings_allocs self :
  Forall (λ al, ∀ name blk, al ≠ AllocBlock name blk) (_set_categ_embeddings self).2.
Proof.
  apply Forall_forall. intros al Hal name blk ->. revert Hal.
  unfold _set_categ_embeddings.
  destruct (shared_embed (args self)), (full_embed_dropout (args self));
    cbn [snd]; rewrite ?elem_of_app, ?list_elem_of_fmap, ?list_elem_of_singleton;
    intros H; repeat destruct H as [H | H]; try destruct H as (? & ? & ?); done.
Qed.

Lemma _set_cont_cols_allocs self :
  Forall (λ al, ∀ name blk, al ≠ AllocBlock name blk) (_set_cont_cols self).2.
Proof.
  apply Forall_forall. intros al Hal name blk ->. revert Hal.
  unfold _set_cont_cols.
  destruct (continuous_cols (args self)) as [cols|]; [|by intros ?%elem_of_nil].
  destruct (String.eqb (cont_norm_layer (args self)) "layernorm"),
    (String.eqb (cont_norm_layer (args self)) "batchnorm"),
    (embed_continuous (args self));
    cbn [snd]; rewrite ?elem_of_app, ?list_elem_of_fmap, ?list_elem_of_singleton,
                 ?elem_of_nil;
    intros H; repeat destruct H as [H | H]; try destruct H as (? & ? & ?); done.
Qed.

(** X14.  [SAINT.__init__] builds two chains of [n_blocks] encoder
    blocks.  The constructor of [TabTransformer], which it calls first,
    allocates the chain of standard blocks, followed by the MLP; [SAINT]
    then allocates a chain of dual-attention blocks and assigns it to
    [transformer_blks], so that the instance only holds the second chain.
    No other encoder block is allocated. *)
Theorem SAINT_init_allocates_both_chains a allocs self :
  SAINT.__init__ a = (allocs, Ok self) →
  ∃ pre mlp std blks,
    allocs = pre ++ alloc_blocks std ++ [AllocMLP mlp] ++ alloc_blocks blks
    ∧ Forall (λ al, ∀ name blk, al ≠ AllocBlock name blk) pre
    ∧ std = add_blocks a.(n_blocks) (TransformerEncoder (encoder_args a))
    ∧ length std = Z.to_nat a.(n_blocks)
    ∧ length blks = Z.to_nat a.(n_blocks)
    ∧ Forall (λ nb, hasattr_row_attn nb.2 = true) blks
    ∧ self.(transformer_blks) = Some blks.
Proof.
  unfold SAINT.__init__. rewrite init_unfold.
  destruct (_ && _); [done|].
  set (n_feats := if embed_continuous a then _ else _).
  destruct n_feats as [n|]; [|done]. intros [= <- <-].
  exists ((_set_categ_embeddings (assign_args (W:=W) a)).2
            ++ (_set_cont_cols (_set_categ_embeddings (assign_args (W:=W) a)).1).2),
    (new_mlp a (resolve_mlp_hidden_dims (assign_args (W:=W) a))),
    (add_blocks a.(n_blocks) (TransformerEncoder (encoder_args a))),
    (add_blocks a.(n_blocks) (SaintEncoder (encoder_args a) n)).
  split; [unfold built_allocs; by rewrite <- !app_assoc|].
  split.
  { apply Forall_app. split;
      [apply _set_categ_embeddings_allocs | apply _set_cont_cols_allocs]. }
  split; [done|]. rewrite !add_blocks_length. split; [done|]. split; [done|].
  split; [|done].
  apply Forall_forall. intros nb Hnb. apply list_elem_of_lookup in Hnb as [i Hi].
  by rewrite (add_blocks_lookup _ _ _ _ Hi).
Qed.
End SaintChains.

Section SaintTokens.
Import TabTransformer.
Context {F W : Type} {rt : Runtime F W} {laws : ShapeLaws rt}.
Implicit Types (a : Args) (self : Self W).

(** X15.  The feature count that [SAINT.__init__] hands to every
    dual-attention block is the number of tokens of the encoder input: in
    every forward pass of the constructed model, under the shape
    discipline of the modules, the tensor handed to the first block has
    exactly that many tokens per sample, each of width [input_dim]. *)
Theorem SAINT_n_feats_is_token_count a allocs self :
  SAINT.__init__ a = (allocs, Ok self) →
  self.(transformer_blks)
  = Some (add_blocks a.(n_blocks)
            (SaintEncoder (encoder_args a) (Z.of_nat (n_tokens a))))
  ∧ ∀ (X : Tensor2 F) (x : Tensor3 F),
      encoder_input self X = Ok x →
      shape3 (n_tokens a) (Z.to_nat a.(input_dim)) x.
Proof.
  intros Hinit. split.
  - revert Hinit. unfold SAINT.__init__. rewrite init_unfold.
    destruct (_ && _); [done|]. unfold n_tokens, len.
    destruct (embed_continuous a); [destruct (continuous_cols a) as [cols|]; [|done]|];
      intros [= <- <-]; cbn [transformer_blks set_transformer_blks];
      do 3 f_equal; [lia|].
    destruct (continuous_cols a); lia.
  - apply SAINT_init_Ok_inv in Hinit as (n & ->). intros X x Hx.
    pose proof (encoder_input_shape (laws:=laws) _ X x
                  (set_transformer_blks_well_built _ _ (built_well_built a)) Hx) as H.
    cbn [args set_transformer_blks] in H. by rewrite built_args in H.
Qed.
End SaintTokens.

Section ContNormUnused.
Import TabTransformer.
Context {F W : Type} {rt : Runtime F W}.
Implicit Types (a : Args) (self : Self W).

Lemma run_blocks_set_cont_norm (n : NormLayers) blks i self (x : Tensor3 F) :
  run_blocks i blks (set_cont_norm n self) x
  = match run_blocks i blks self x with
    | Ok (self', x') => Ok (set_cont_norm n self', x')
    | Raise e => Raise e
    end.
Proof.
  revert i self x. induction blks as [|[name blk] blks IH]; intros i self x; simpl.
  - done.
  - destruct (block_call blk x) as [x1|]; simpl; [|done].
    destruct (keep_attn_weights (args self)).
    + destruct (attention_weights self) as [aw|]; simpl; [|done].
      destruct (list_setitem aw i _) as [aw1|]; simpl; [|done].
      apply (IH (S i) (set_attention_weights aw1 self)).
    + simpl. apply IH.
Qed.

(** X6.  The normalisation layer is used at lines 255-258 only: without
    continuous columns, or with [embed_continuous=True], replacing
    [cont_norm] by any other layer changes neither the output of
    [forward], nor the exception it raises, nor the attributes it
    stores. *)
Theorem forward_ignores_cont_norm (n : NormLayers) self (X : Tensor2 F) :
  self.(args).(continuous_cols) = None ∨ self.(args).(embed_continuous) = true →
  forward (set_cont_norm n self) X
  = match forward self X with
    | Ok (self', out) => Ok (set_cont_norm n self', out)
    | Raise e => Raise e
    end.
Proof.
  intros Hcase. unfold forward, mlp_input.
  change (encoder_input (set_cont_norm n self) X) with (encoder_input self X).
  destruct (encoder_input self X) as [x0|]; simpl; [|done].
  destruct (transformer_blks self) as [blks|]; simpl; [|done].
  rewrite run_blocks_set_cont_norm.
  destruct (run_blocks 0 blks self x0) as [[self1 x1]|] eqn:Hrun; simpl; [|done].
  destruct (run_blocks_frame _ _ _ _ _ _ Hrun) as (Hargs & _).
  change (pool (set_cont_norm n self1) x1) with (pool self1 x1).
  destruct (pool self1 x1) as [p|]; simpl; [|done].
  assert (append_cont (set_cont_norm n self1) X p = Ok p
          ∧ append_cont self1 X p = Ok p) as [-> ->].
  { unfold append_cont. cbn [args set_cont_norm]. rewrite Hargs.
    destruct Hcase as [-> | ->]; [done|].
    by destruct (continuous_cols (args self)). }
  simpl. destruct (transformer_mlp self1) as [mlp|]; simpl; [|done].
  by destruct (mlp_call mlp p).
Qed.
End ContNormUnused.

(** ** Further properties of [fit] *)

Section FitEdges.
Import StreamTrainer.
Context {Raw St Data Target Loss : Type} {tr : Trainer St Data Target Loss}.
Implicit Types (source : list Raw) (target : list Target) (st : St)
  (bs : list (list nat * list Data)) (tl : option Loss).

Lemma target_getitem_out_of_range target (ix : list nat) (i : nat) :
  i ∈ ix → (length target ≤ i)%nat →
  target_getitem target ix = Raise IndexError.
Proof.
  intros Hi Hlen. unfold target_getitem.
  destruct (comprehension _ ix) as [ts|e] eqn:E.
  - apply comprehension_Ok_Forall in E. rewrite Forall_forall in E.
    destruct (E i Hi) as [t Ht].
    rewrite (lookup_ge_None_2 target i) in Ht by lia. done.
  - apply comprehension_Raise_elem in E as (j & _ & Hj).
    destruct (target !! j); by simplify_eq.
Qed.

Lemma batch_loop_raises target (e : nat) bs1 ix data bs2 (k i : nat) st tl :
  Forall (λ b, Forall (λ i, (i < length target)%nat) b.1) bs1 →
  i ∈ ix → (length target ≤ i)%nat →
  batch_loop target e k (bs1 ++ (ix, data) :: bs2) st tl
  = (imap (λ i ix, train_step e (k + i) ix) bs1.*1, Raise IndexError).
Proof.
  intros Hbs1 Hi Hlen. revert k st tl.
  induction Hbs1 as [|[ix1 data1] bs1 Hix1 _ IH]; intros k st tl; simpl.
  - by rewrite (target_getitem_out_of_range target ix i).
  - destruct (target_getitem_in_range target ix1 Hix1) as [ts ->].
    destruct (_train_step st data1 ts k e) as [st1 loss].
    rewrite IH. rewrite Nat.add_0_r. do 2 f_equal.
    apply imap_ext. intros j x _. simpl. f_equal. lia.
Qed.

(** X16.  When the source has fewer rows than one batch, the loader
    (built with [drop_last=True]) yields no batch, the body of the batch
    loop never binds [train_loss], and the report at line 95 raises
    [UnboundLocalError] in the first epoch: the begin-epoch hook of
    epoch 0 is the only thing [fit] has done, no update cycle ran and
    [model.train()] is not reached. *)
Theorem fit_without_full_batch source target (preprocessor : Raw → Data)
    (batch_size n_epochs chunksize : Z) st :
  0 < chunksize → 0 < n_epochs → len source < batch_size →
  fit source target preprocessor batch_size n_epochs chunksize st
  = ([on_epoch_begin 0], Raise (UnboundLocalError "train_loss")).
Proof.
  intros Hc Hn Hb. unfold len in Hb. unfold fit, range.
  rewrite decide_False by lia.
  destruct (Z.to_nat n_epochs) as [|n] eqn:En; [lia|]. cbn [seq epoch_loop].
  destruct (train_loader_iter_positions preprocessor chunksize (Z.to_nat batch_size)
              source Hc) as (bs & -> & Hpos); [lia|].
  rewrite Nat.div_small in Hpos by lia. simpl in Hpos.
  apply fmap_nil_inv in Hpos as ->. reflexivity.
Qed.

(** X17.  [target[ix]] (line 90) indexes the targets by absolute row
    position.  When the targets end before the rows of the last full
    batch, [fit] raises [IndexError] in the first epoch at the first batch
    that holds a row without target: the update cycles of the
    [len(target) // batch_size] batches before it have run, nothing is
    reported and no later epoch starts. *)
Theorem fit_missing_targets source target (preprocessor : Raw → Data)
    (batch_size n_epochs chunksize : Z) st :
  0 < batch_size → 0 < chunksize → 0 < n_epochs →
  len target < len source / batch_size * batch_size →
  fit source target preprocessor batch_size n_epochs chunksize st
  = (on_epoch_begin 0
       :: ((λ i, train_step 0 i (seq (i * Z.to_nat batch_size) (Z.to_nat batch_size)))
             <$> seq 0 (length target / Z.to_nat batch_size)),
     Raise IndexError).
Proof.
  intros Hb Hc Hn Ht. unfold len in Ht. unfold fit, range.
  rewrite decide_False by lia.
  destruct (Z.to_nat n_epochs) as [|n] eqn:En; [lia|]. cbn [seq epoch_loop].
  set (b := Z.to_nat batch_size) in *.
  assert (Hb1 : (1 ≤ b)%nat) by lia.
  destruct (train_loader_iter_positions preprocessor chunksize b source Hc Hb1)
    as (bs & -> & Hpos).
  set (N := length source) in *. set (T := length target) in *.
  assert (HT : (T < N / b * b)%nat).
  { apply Nat2Z.inj_lt. rewrite Nat2Z.inj_mul, Nat2Z.inj_div.
    subst b. rewrite Z2Nat.id by lia. done. }
  set (q := (T / b)%nat).
  assert (Hq : (q < N / b)%nat).
  { subst q. apply Nat.Div0.div_lt_upper_bound. lia. }
  assert (Hlenbs : length bs = (N / b)%nat).
  { rewrite <- (length_fmap fst bs), Hpos, length_fmap, length_seq. done. }
  destruct (lookup_lt_is_Some_2 bs q) as [[ix data] Hbq]; [lia|].
  assert (Hix : ix = seq (q * b) b).
  { assert (H : bs.*1 !! q = Some ix) by (by rewrite list_lookup_fmap, Hbq).
    rewrite Hpos, list_lookup_fmap, lookup_seq_lt in H by lia.
    simpl in H. by injection H as <-. }
  rewrite <- (take_drop_middle bs q (ix, data) Hbq).
  rewrite (batch_loop_raises target 0 (take q bs) ix data (drop (S q) bs) 0
             (q * b + b - 1)%nat).
  - f_equal. f_equal.
    rewrite fmap_take, Hpos, <- fmap_take, take_seq, Nat.min_l by lia.
    apply imap_train_steps.
  - apply Forall_forall. intros batch Hbatch.
    apply list_elem_of_lookup in Hbatch as [i Hi].
    apply lookup_take_Some in Hi as [Hi Hiq].
    assert (H : bs.*1 !! i = Some batch.1) by (by rewrite list_lookup_fmap, Hi).
    rewrite Hpos, list_lookup_fmap, lookup_seq_lt in H by lia.
    simpl in H. injection H as <-.
    apply Forall_seq. intros j Hj.
    assert (q * b ≤ T)%nat.
    { subst q. rewrite Nat.mul_comm. apply Nat.Div0.mul_div_le. }
    assert ((i + 1) * b ≤ q * b)%nat by (apply Nat.mul_le_mono_r; lia).
    lia.
  - rewrite Hix. apply elem_of_seq. lia.
  - assert (T < b * S q)%nat; [|lia].
    subst q. apply Nat.mul_succ_div_gt. lia.
Qed.
End FitEdges.

(** ** The further properties on concrete inputs *)

Section FurtherExamples.
Import TabTransformer StreamTrainer Reference.

(** The docstring example with [mlp_hidden_dims=[16, 8]]: [output_dim]
    is 8. *)
Lemma init_output_dim_example :
  TabTransformer.__init__ (W:=unit) explicit_dims_args
    = (built_allocs (W:=unit) explicit_dims_args, Ok (built explicit_dims_args))
  ∧ (built (W:=unit) explicit_dims_args).(output_dim) = Some 8.
Proof.
  assert (H1 : TabTransformer.__init__ (W:=unit) explicit_dims_args
               = (built_allocs (W:=unit) explicit_dims_args, Ok (built explicit_dims_args)))
    by (vm_compute; reflexivity).
  split; [exact H1|].
  destruct (init_output_dim explicit_dims_args _ _ (or_introl H1))
    as (mlp & out & _ & Ho & _ & Hd & _).
  rewrite Ho. symmetry. apply (Hd [16; 8] eq_refl). discriminate.
Defined.

(** The docstring example has [shared_embed=False] and
    [full_embed_dropout=False]: the tokens go through [nn.Dropout(0.1)]. *)
Lemma constructed_embedding_dropout_example :
  TabTransformer.__init__ (W:=nat * nat) example_args
    = (built_allocs (W:=nat * nat) example_args, Ok (built example_args))
  ∧ apply_embedding_dropout (rt:=ref_runtime) (built example_args) [[[1; 2]]]
    = Ok (dropout_call (Runtime:=ref_runtime) (nn_Dropout (1 # 10)) [[[1; 2]]]).
Proof.
  assert (H1 : TabTransformer.__init__ (W:=nat * nat) example_args
               = (built_allocs (W:=nat * nat) example_args, Ok (built example_args)))
    by (vm_compute; reflexivity).
  split; [exact H1|].
  destruct (constructed_embedding_dropout (rt:=ref_runtime) example_args _ _
              [[[1; 2]]] (or_introl H1)) as [H _].
  exact H.
Defined.

(** [embed_input = [(a, 4), (b, 4), (a, 9)]]: the table kept for [a]
    has [9 + 1] rows. *)
Lemma cat_embedding_last_entry_wins_example :
  TabTransformer.__init__ (W:=nat * nat) duplicate_args
    = (built_allocs (W:=nat * nat) duplicate_args, Ok (built duplicate_args))
  ∧ duplicate_args.(embed_input) = [("a", 4); ("b", 4)] ++ ("a", 9) :: []
  ∧ ("a" ∉ fst <$> @nil (string * Z))
  ∧ ∃ layers,
      (built (W:=nat * nat) duplicate_args).(cat_embed_layers) = Some layers
      ∧ layers !! "emb_layer_a" = Some (Embedding 10 4 0).
Proof.
  assert (H1 : TabTransformer.__init__ (W:=nat * nat) duplicate_args
               = (built_allocs (W:=nat * nat) duplicate_args, Ok (built duplicate_args)))
    by (vm_compute; reflexivity).
  assert (H2 : duplicate_args.(embed_input) = [("a", 4); ("b", 4)] ++ ("a", 9) :: [])
    by reflexivity.
  assert (H3 : "a" ∉ fst <$> @nil (string * Z)) by apply not_elem_of_nil.
  split; [exact H1|]. split; [exact H2|]. split; [exact H3|].
  destruct (cat_embedding_last_entry_wins duplicate_args _ _ _ _ "a" 9
              (or_introl H1) H2 H3) as (layers & Ha & Hb & _).
  exists layers. split; [exact Ha | exact Hb].
Defined.

(** The docstring example with [embed_continuous=True] at width 4: the
    column [e] has the module [Linear(1, 4)] followed by [ReLU]. *)
Lemma cont_embedding_layers_example :
  TabTransformer.__init__ (W:=nat * nat) embedded_args
    = (built_allocs (W:=nat * nat) embedded_args, Ok (built embedded_args))
  ∧ embedded_args.(continuous_cols) = Some ["e"]
  ∧ embedded_args.(embed_continuous) = true
  ∧ "e" ∈ ["e"]
  ∧ ∃ layers,
      (built (W:=nat * nat) embedded_args).(cont_embed_layers) = Some layers
      ∧ layers !! "emb_layer_e" = Some (Linear_ReLU 1 4).
Proof.
  assert (H1 : TabTransformer.__init__ (W:=nat * nat) embedded_args
               = (built_allocs (W:=nat * nat) embedded_args, Ok (built embedded_args)))
    by (vm_compute; reflexivity).
  assert (H4 : "e" ∈ ["e"]) by constructor.
  split; [exact H1|]. split; [reflexivity|]. split; [reflexivity|]. split; [exact H4|].
  destruct (cont_embedding_layers embedded_args _ _ ["e"] "e"
              (or_introl H1) eq_refl eq_refl H4) as (layers & Ha & Hb & _).
  exists layers. split; [exact Ha | exact Hb].
Defined.

(** The docstring example with [cont_norm_layer="instancenorm"]: the
    model is constructed without [cont_norm] and its forward pass on the
    example batch raises. *)
Lemma init_unknown_cont_norm_layer_example :
  TabTransformer.__init__ (W:=nat * nat) unknown_norm_args
    = (built_allocs (W:=nat * nat) unknown_norm_args, Ok (built unknown_norm_args))
  ∧ unknown_norm_args.(continuous_cols) = Some ["e"]
  ∧ unknown_norm_args.(cont_norm_layer) ≠ "layernorm"
  ∧ unknown_norm_args.(cont_norm_layer) ≠ "batchnorm"
  ∧ (built (W:=nat * nat) unknown_norm_args).(cont_norm) = None
  ∧ is_ok (forward (rt:=ref_runtime) (built unknown_norm_args) example_X) = false.
Proof.
  assert (H1 : TabTransformer.__init__ (W:=nat * nat) unknown_norm_args
               = (built_allocs (W:=nat * nat) unknown_norm_args,
                  Ok (built unknown_norm_args)))
    by (vm_compute; reflexivity).
  assert (H3 : unknown_norm_args.(cont_norm_layer) ≠ "layernorm") by discriminate.
  assert (H4 : unknown_norm_args.(cont_norm_layer) ≠ "batchnorm") by discriminate.
  split; [exact H1|]. split; [reflexivity|]. split; [exact H3|]. split; [exact H4|].
  destruct (init_unknown_cont_norm_layer (rt:=ref_runtime) unknown_norm_args _ _ ["e"]
              (or_introl H1) eq_refl H3 H4) as [Hn Hf].
  split; [exact Hn|]. exact (proj1 (Hf eq_refl example_X)).
Defined.

(** The docstring example with [embed_continuous=True]: putting a
    [BatchNorm1d(7)] in place of the [LayerNorm(1)] of the constructor
    changes nothing in the forward pass on the example batch. *)
Lemma forward_ignores_cont_norm_example :
  (embedded_args.(continuous_cols) = None ∨ embedded_args.(embed_continuous) = true)
  ∧ forward (rt:=ref_runtime)
      (set_cont_norm (BatchNorm1d 7) (built (W:=nat * nat) embedded_args)) example_X
    = match forward (rt:=ref_runtime) (built (W:=nat * nat) embedded_args) example_X with
      | Ok (self', out) => Ok (set_cont_norm (BatchNorm1d 7) self', out)
      | Raise e => Raise e
      end.
Proof.
  assert (H : embedded_args.(continuous_cols) = None
              ∨ embedded_args.(embed_continuous) = true) by (right; reflexivity).
  split; [exact H|].
  apply (forward_ignores_cont_norm (rt:=ref_runtime) (BatchNorm1d 7)
           (built (W:=nat * nat) embedded_args) example_X).
  rewrite built_args. exact H.
Defined.

(** The docstring example with [keep_attn_weights=False]: the forward
    pass on the example batch returns the instance it was given, which has
    no [attention_weights]. *)
Lemma forward_frame_example :
  forward (rt:=ref_runtime) (built (W:=nat * nat) no_retention_args) example_X
    = Ok (built no_retention_args, replicate 2 (replicate 34 0))
  ∧ (built (W:=nat * nat) no_retention_args).(attention_weights) = None.
Proof.
  assert (H1 : forward (rt:=ref_runtime) (built (W:=nat * nat) no_retention_args) example_X
               = Ok (built no_retention_args, replicate 2 (replicate 34 0)))
    by (vm_compute; reflexivity).
  split; [exact H1|].
  destruct (forward_frame (rt:=ref_runtime) _ _ _ _ H1) as (_ & _).
  reflexivity.
Defined.

(** The same forward pass: the continuous column [e] has a position in
    [column_idx] that indexes both rows of the example batch. *)
Lemma forward_reads_columns_example :
  forward (rt:=ref_runtime) (built (W:=nat * nat) no_retention_args) example_X
    = Ok (built no_retention_args, replicate 2 (replicate 34 0))
  ∧ ∃ j, no_retention_args.(column_idx) !! "e" = Some j
         ∧ Forall (λ row, - len row ≤ j < len row) example_X.
Proof.
  assert (H1 : forward (rt:=ref_runtime) (built (W:=nat * nat) no_retention_args) example_X
               = Ok (built no_retention_args, replicate 2 (replicate 34 0)))
    by (vm_compute; reflexivity).
  split; [exact H1|].
  destruct (forward_reads_columns (rt:=ref_runtime) _ _ _ _ H1) as (_ & _ & H).
  apply (H "e"). right. constructor.
Defined.

(** A table with the single continuous column [e]: the model is
    constructed and its forward pass on a one-row batch raises. *)
Lemma forward_without_categorical_columns_example :
  continuous_only_args.(embed_input) = []
  ∧ ¬ special_token_mismatch continuous_only_args
  ∧ ∃ msg,
      forward (rt:=ref_runtime) (built (W:=nat * nat) continuous_only_args) [[7]]
      = Raise (RuntimeError msg).
Proof.
  assert (H2 : ¬ special_token_mismatch continuous_only_args).
  { intros H%special_token_mismatch_decide. vm_compute in H. discriminate. }
  split; [reflexivity|]. split; [exact H2|].
  destruct (forward_without_categorical_columns (rt:=ref_runtime) (W:=nat * nat)
              continuous_only_args [[7]] eq_refl H2) as (self & msg & Hinit & Hf).
  rewrite init_unfold in Hinit.
  destruct (_ && _) in Hinit; [discriminate|].
  injection Hinit as <-. exists msg. exact Hf.
Defined.
(** The two columns of [cls_X] swapped, with the mapping swapped
    accordingly: the encoder input is the same. *)
Lemma encoder_input_column_positions_example :
  (∀ col, (j ← getitem (built (W:=nat * nat) cls_args).(args).(column_idx) col;
           select_col cls_X j)
          = (j ← getitem cls_idx_swapped col; select_col cls_X_swapped j))
  ∧ encoder_input (rt:=ref_runtime) (built (W:=nat * nat) cls_args) cls_X
    = encoder_input (rt:=ref_runtime)
        (with_column_idx cls_idx_swapped (built (W:=nat * nat) cls_args)) cls_X_swapped.
Proof.
  assert (H : ∀ col, (j ← getitem (built (W:=nat * nat) cls_args).(args).(column_idx) col;
                      select_col cls_X j)
                     = (j ← getitem cls_idx_swapped col; select_col cls_X_swapped j)).
  { intros col. rewrite built_args. unfold getitem, cls_idx_swapped.
    change (column_idx cls_args) with (<["special_token" := 0]> (<["a" := 1]> ∅) : gmap string Z).
    destruct (decide (col = "special_token")) as [-> | H1]; [reflexivity|].
    destruct (decide (col = "a")) as [-> | H2]; [reflexivity|].
    rewrite !lookup_insert_ne, !lookup_empty by done. reflexivity. }
  split; [exact H|].
  exact (encoder_input_column_positions (rt:=ref_runtime) _ _ _ _ H).
Defined.

(** The docstring example: [SAINT] allocates what [TabTransformer]
    allocates and then two dual-attention blocks for 4 features, which
    become [transformer_blks]; the MLP is the one of [TabTransformer]. *)
Lemma SAINT_init_frame_example :
  (example_args.(embed_continuous) = true → example_args.(continuous_cols) ≠ None)
  ∧ TabTransformer.__init__ (W:=nat * nat) example_args
    = (built_allocs (W:=nat * nat) example_args, Ok (built example_args))
  ∧ ∃ blks saint,
      SAINT.__init__ (W:=nat * nat) example_args
        = (built_allocs (W:=nat * nat) example_args ++ alloc_blocks blks, Ok saint)
      ∧ blks = add_blocks 2 (SaintEncoder (encoder_args example_args) 4)
      ∧ saint.(transformer_blks) = Some blks
      ∧ saint.(transformer_mlp) = (built (W:=nat * nat) example_args).(transformer_mlp).
Proof.
  assert (H0 : example_args.(embed_continuous) = true → example_args.(continuous_cols) ≠ None)
    by discriminate.
  assert (H1 : TabTransformer.__init__ (W:=nat * nat) example_args
               = (built_allocs (W:=nat * nat) example_args, Ok (built example_args)))
    by (vm_compute; reflexivity).
  split; [exact H0|]. split; [exact H1|].
  destruct (SAINT_init_frame example_args _ _ H0 H1)
    as (blks & saint & Ha & Hb & Hc & _ & _ & _ & _ & _ & _ & Hd & _).
  exists blks, saint. split; [exact Ha|]. split; [exact Hb|].
  split; [exact Hc | exact Hd].
Defined.

(** The data of [cls_args] with [with_special_token=False]: [SAINT]
    raises before it allocates anything. *)
Lemma SAINT_init_special_token_example :
  special_token_mismatch cls_mismatch_args
  ∧ SAINT.__init__ (W:=nat * nat) cls_mismatch_args = ([], Raise special_token_error).
Proof.
  assert (H : special_token_mismatch cls_mismatch_args).
  { apply special_token_mismatch_decide. vm_compute. reflexivity. }
  split; [exact H|]. exact (SAINT_init_special_token cls_mismatch_args H).
Defined.

(** The docstring example with [n_blocks=2]: two standard blocks, the
    MLP, then the two dual-attention blocks that the instance holds. *)
Lemma SAINT_init_allocates_both_chains_example :
  SAINT.__init__ (W:=nat * nat) example_args
    = ((SAINT.__init__ (W:=nat * nat) example_args).1, Ok saint_example)
  ∧ ∃ pre mlp std blks,
      (SAINT.__init__ (W:=nat * nat) example_args).1
        = pre ++ alloc_blocks std ++ [AllocMLP mlp] ++ alloc_blocks blks
      ∧ length std = 2%nat ∧ length blks = 2%nat
      ∧ saint_example.(transformer_blks) = Some blks.
Proof.
  assert (H1 : SAINT.__init__ (W:=nat * nat) example_args
               = ((SAINT.__init__ (W:=nat * nat) example_args).1, Ok saint_example))
    by (vm_compute; reflexivity).
  split; [exact H1|].
  destruct (SAINT_init_allocates_both_chains example_args _ _ H1)
    as (pre & mlp & std & blks & Ha & _ & _ & Hb & Hc & _ & Hd).
  exists pre, mlp, std, blks. split; [exact Ha|]. split; [exact Hb|].
  split; [exact Hc | exact Hd].
Defined.

(** The docstring example with [embed_continuous=True]: four
    categorical and one continuous column give blocks built for 5
    features and an encoder input of 5 tokens of width 4. *)
Lemma SAINT_n_feats_is_token_count_example :
  SAINT.__init__ (W:=nat * nat) embedded_args
    = ((SAINT.__init__ (W:=nat * nat) embedded_args).1,
       Ok (set_transformer_blks
             (add_blocks 2 (SaintEncoder (encoder_args embedded_args) 5))
             (built embedded_args)))
  ∧ ∀ x, encoder_input (rt:=ref_runtime)
           (set_transformer_blks
              (add_blocks 2 (SaintEncoder (encoder_args embedded_args) 5))
              (built (W:=nat * nat) embedded_args)) example_X = Ok x →
         shape3 5 4 x.
Proof.
  assert (H1 : SAINT.__init__ (W:=nat * nat) embedded_args
               = ((SAINT.__init__ (W:=nat * nat) embedded_args).1,
                  Ok (set_transformer_blks
                        (add_blocks 2 (SaintEncoder (encoder_args embedded_args) 5))
                        (built embedded_args))))
    by (vm_compute; reflexivity).
  split; [exact H1|].
  destruct (SAINT_n_feats_is_token_count (laws:=ref_shape_laws) embedded_args _ _ H1)
    as [_ H].
  exact (H example_X).
Defined.

(** 5 rows with [batch_size = 10]: [fit] raises right after the
    begin-epoch hook of epoch 0. *)
Lemma fit_without_full_batch_example :
  0 < 20 ∧ 0 < 2 ∧ len (seq 0 5) < 10
  ∧ fit (tr:=ref_trainer) (seq 0 5) (replicate 5 0%nat) id 10 2 20 0%nat
    = ([on_epoch_begin 0], Raise (UnboundLocalError "train_loss")).
Proof.
  assert (H1 : 0 < 20) by reflexivity.
  assert (H2 : 0 < 2) by reflexivity.
  assert (H3 : len (seq 0 5) < 10) by (vm_compute; reflexivity).
  repeat (split; [assumption|]).
  exact (fit_without_full_batch (tr:=ref_trainer) (seq 0 5) (replicate 5 0%nat)
           id 10 2 20 0%nat H1 H2 H3).
Defined.

(** 100 rows, 25 targets, [batch_size = 10]: the batches of the rows
    0-9 and 10-19 are trained on, the batch of the rows 20-29 raises. *)
Lemma fit_missing_targets_example :
  0 < 10 ∧ 0 < 20 ∧ 0 < 2
  ∧ len (replicate 25 0%nat) < len (seq 0 100) / 10 * 10
  ∧ fit (tr:=ref_trainer) (seq 0 100) (replicate 25 0%nat) id 10 2 20 0%nat
    = ([on_epoch_begin 0; train_step 0 0 (seq 0 10); train_step 0 1 (seq 10 10)],
       Raise IndexError).
Proof.
  assert (H1 : 0 < 10) by reflexivity.
  assert (H2 : 0 < 20) by reflexivity.
  assert (H3 : 0 < 2) by reflexivity.
  assert (H4 : len (replicate 25 0%nat) < len (seq 0 100) / 10 * 10)
    by (vm_compute; reflexivity).
  repeat (split; [assumption|]).
  exact (fit_missing_targets (tr:=ref_trainer) (seq 0 100) (replicate 25 0%nat)
           id 10 2 20 0%nat H1 H2 H3 H4).
Defined.
End FurtherExamples.

(** ** The chain of encoder blocks *)

Section BlockChain.
Import TabTransformer.
Context {F W : Type} {rt : Runtime F W}.
Implicit Types (self : Self W) (x : Tensor3 F) (blks : list (string * Block)).

(** The tensors that enter the blocks of the loop started at index [i],
    followed by the output of the last block. *)
Lemma run_blocks_chain blks i self x self' x' :
  run_blocks i blks self x = Ok (self', x') →
  ∃ xs : list (Tensor3 F),
    length xs = S (length blks)
    ∧ head xs = Some x ∧ last xs = Some x'
    ∧ (∀ k nb xk, blks !! k = Some nb → xs !! k = Some xk →
         ∃ xk', xs !! S k = Some xk' ∧ block_call nb.2 xk = Ok xk')
    ∧ (self.(args).(keep_attn_weights) = true →
       ∀ k nb xk, blks !! k = Some nb → xs !! k = Some xk →
         ∃ aw, self'.(attention_weights) = Some aw
           ∧ aw !! (i + k)%nat = Some (Some (attn_entry nb.2 xk))).
Proof.
  revert i self x. induction blks as [|[name blk] blks IH]; intros i self x; simpl.
  - intros [= <- <-]. exists [x]. by repeat split.
  - destruct (block_call blk x) as [x1|] eqn:Hcall; simpl; [|done].
    destruct (keep_attn_weights (args self)) eqn:Hkeep.
    + destruct (attention_weights self) as [aw|]; simpl; [|done].
      unfold list_setitem. case_decide as Hi; simpl; [|done]. intros Hrun.
      destruct (IH _ _ _ Hrun) as (xs & Hlen & Hhead & Hlast & Hchain & Hret).
      destruct (run_blocks_attention blks (S i)
                  (set_attention_weights (<[i:=Some (attn_entry blk x)]> aw) self)
                  x1 self' x' _ Hkeep eq_refl Hrun)
        as (aw' & Haw' & _ & Hlow & _).
      exists (x :: xs). split; [simpl; lia|]. split; [done|].
      split; [by destruct xs|]. split.
      * intros [|k] nb xk Hnb Hxk; simpl in *.
        -- injection Hnb as <-. injection Hxk as <-. exists x1.
           split; [by destruct xs; simplify_eq/=|done].
        -- by apply Hchain.
      * intros _ [|k] nb xk Hnb Hxk; simpl in *.
        -- injection Hnb as <-. injection Hxk as <-. exists aw'.
           split; [done|]. rewrite Nat.add_0_r, Hlow by lia.
           by apply list_lookup_insert_eq.
        -- destruct (Hret Hkeep k nb xk Hnb Hxk) as (aw2 & Haw2 & Hentry).
           exists aw2. split; [done|].
           by replace (i + S k)%nat with (S i + k)%nat by lia.
    + simpl. intros Hrun.
      destruct (IH _ _ _ Hrun) as (xs & Hlen & Hhead & Hlast & Hchain & _).
      exists (x :: xs). split; [simpl; lia|]. split; [done|].
      split; [by destruct xs|]. split; [|done].
      intros [|k] nb xk Hnb Hxk; simpl in *.
      * injection Hnb as <-. injection Hxk as <-. exists x1.
        split; [by destruct xs; simplify_eq/=|done].
      * by apply Hchain.
Qed.

(** X18.  In a forward pass that returns, the encoder blocks are applied
    in the order of the chain, the first to the encoder input and each
    other one to the output of the block before it; the output of the last
    block is the tensor that is pooled.  With [keep_attn_weights=True],
    entry [k] of [attention_weights] after the pass holds the weights of
    block [k] for the tensor that block [k] received in this pass. *)
Theorem forward_block_chain self (X : Tensor2 F) self' out :
  forward self X = Ok (self', out) →
  ∃ (x0 : Tensor3 F) blks (xs : list (Tensor3 F)) (x_enc : Tensor3 F) pooled,
    encoder_input self X = Ok x0
    ∧ self.(transformer_blks) = Some blks
    ∧ length xs = S (length blks)
    ∧ head xs = Some x0 ∧ last xs = Some x_enc
    ∧ (∀ k nb xk, blks !! k = Some nb → xs !! k = Some xk →
         ∃ xk', xs !! S k = Some xk' ∧ block_call nb.2 xk = Ok xk')
    ∧ pool self x_enc = Ok pooled
    ∧ (self.(args).(keep_attn_weights) = true →
       ∀ k nb xk, blks !! k = Some nb → xs !! k = Some xk →
         ∃ aw, self'.(attention_weights) = Some aw
           ∧ aw !! k = Some (Some (attn_entry nb.2 xk))).
Proof.
  intros (y & mlp & Hin & _ & _)%forward_inv.
  apply mlp_input_inv in Hin
    as (x0 & blks & x_enc & pooled & Henc & Hblks & Hrun & Hpool & _).
  destruct (run_blocks_chain _ _ _ _ _ _ Hrun)
    as (xs & Hlen & Hhead & Hlast & Hchain & Hret).
  destruct (run_blocks_frame _ _ _ _ _ _ Hrun) as (Hargs & _).
  exists x0, blks, xs, x_enc, pooled. repeat (split; [done|]).
  split; [unfold pool in *; by rewrite <- Hargs|].
  intros Hkeep k nb xk Hnb Hxk. by apply (Hret Hkeep k nb xk).
Qed.
End BlockChain.

Section BlockChainExamples.
Import TabTransformer Reference.

(** The [SAINT] model of the docstring example on the example batch: the
    chain has one tensor more than there are blocks. *)
Lemma forward_block_chain_example :
  forward (rt:=ref_runtime) saint_example example_X
    = Ok (saint_example_after, replicate 2 (replicate 34 0))
  ∧ ∃ (xs : list (Tensor3 Z)) blks, length xs = S (length blks)
      ∧ saint_example.(transformer_blks) = Some blks.
Proof.
  assert (H1 : forward (rt:=ref_runtime) saint_example example_X
               = Ok (saint_example_after, replicate 2 (replicate 34 0)))
    by (vm_compute; reflexivity).
  split; [exact H1|].
  destruct (forward_block_chain (rt:=ref_runtime) _ _ _ _ H1)
    as (x0 & blks & xs & x_enc & pooled & _ & Hb & Hl & _).
  exists xs, blks. split; [exact Hl | exact Hb].
Defined.
End BlockChainExamples.
